(** * My-Tutor: the session / profile / progress synchronisation core

    A shallow embedding of
    - [src/contexts/AuthContext.tsx]   (the session orchestrator),
    - the Supabase client module       (degraded-mode client, connection probe,
                                        start-up),
    - the connection banner and the dashboard layout (theme, sidebar, page
      title, sign-out button),
    - the trigger functions of the SQL migrations,
    together with the properties the specification states about them and
    further properties read off the code.

    React state is an explicit record, the browser's [localStorage] a finite
    map, and every [async] function a computation in a small state-and-exception
    monad: a [throw] keeps the state changes made before it, as in JavaScript.
    The services the orchestrator awaits ([AuthService], [ProgressService],
    [SubjectGroupService]) are not part of the embedded files: what each call
    settles with is a parameter, quantified over in the theorems.  Code that
    runs between two [await]s runs without interruption; what may happen while
    a call is pending is made explicit by the transition system [step]. *)

From stdpp Require Import base strings list gmap.

Open Scope string_scope.

(** ** JavaScript values the code inspects *)

Module Js.

(** A value caught by [catch (error)].  [ErrorObj] is an instance of [Error]
    (it always has a name and a message); [PlainObj] is anything else that can
    be thrown: [error?.name] and [error?.message] may be undefined. *)
Inductive Thrown : Type :=
| ErrorObj (name message : string)
| PlainObj (name message : option string).

Definition instanceofError (e : Thrown) : bool :=
  match e with ErrorObj _ _ => true | PlainObj _ _ => false end.

Definition name_of (e : Thrown) : option string :=
  match e with ErrorObj n _ => Some n | PlainObj n _ => n end.

Definition message_of (e : Thrown) : option string :=
  match e with ErrorObj _ m => Some m | PlainObj _ m => m end.

(** [String.prototype.includes] *)
Fixpoint includes (needle hay : string) : bool :=
  if String.prefix needle hay then true
  else match hay with
       | EmptyString => false
       | String _ rest => includes needle rest
       end.

(** [error?.name === n] *)
Definition name_is (e : Thrown) (n : string) : bool :=
  match name_of e with Some n' => String.eqb n' n | None => false end.

(** [error?.message?.includes(n)], read as a condition *)
Definition message_includes (e : Thrown) (n : string) : bool :=
  match message_of e with Some m => includes n m | None => false end.

(** [a || b] on strings that may be undefined: the empty string is falsy. *)
Definition or_else (a : option string) (b : string) : string :=
  match a with
  | Some s => if String.eqb s "" then b else s
  | None => b
  end.

(** [new Error(message)] *)
Definition newError (message : string) : Thrown := ErrorObj "Error" message.

(** How an awaited promise, or a call, ends. *)
Inductive Result (A : Type) : Type :=
| Returned (a : A)
| Threw (e : Thrown).
Arguments Returned {A} a.
Arguments Threw {A} e.

End Js.
Import Js.

(** ** Data model ([UserProfile], [UserProgressStats], [SubjectProgress]) *)

Record User : Type := { user_id : string; email : option string }.

(** The handler reads [session?.user]: the user of a session may be missing. *)
Record Session : Type := { access_token : string; session_user : option User }.

Record UserProfile : Type := {
  id : string;
  first_name : string;
  last_name : string;
  grade : string;
  board : option string;
  area : option string;
  profile_picture_url : option string;
  subject_group : option string;
  subjects : option (list string);
  created_at : string;
  updated_at : string
}.

(** A key of an object whose keys are optional: absent, or present with a
    value, which may be [undefined] ([present None]).  The two read alike
    ([o.k] is [undefined]) but spread differently. *)
Inductive Key (A : Type) : Type :=
| absent
| present (v : option A).
Arguments absent {A}.
Arguments present {A} v.

(** [Partial<UserProfile>].  The three required fields are only ever read
    ([updates.first_name || ...]), and what the spread copies of them is
    overwritten: for them a key present with [undefined] and an absent key are
    the same, [None]. *)
Record PartialProfile : Type := {
  p_id : Key string;
  p_first_name : option string;
  p_last_name : option string;
  p_grade : option string;
  p_board : Key string;
  p_area : Key string;
  p_profile_picture_url : Key string;
  p_subject_group : Key string;
  p_subjects : Key (list string);
  p_created_at : Key string;
  p_updated_at : Key string
}.

(** The object literal [updateProfile] builds, by what each of its properties
    reads as: the three required fields are always strings, the others come
    from the two spreads and may read [undefined] ([None]). *)
Record ProfileData : Type := {
  d_id : option string;
  d_first_name : string;
  d_last_name : string;
  d_grade : string;
  d_board : option string;
  d_area : option string;
  d_profile_picture_url : option string;
  d_subject_group : option string;
  d_subjects : option (list string);
  d_created_at : option string;
  d_updated_at : option string
}.

(** [average_test_score] is [numeric(5,2)] in the store: kept in hundredths. *)
Record UserProgressStats : Type := {
  ps_id : string;
  ps_user_id : string;
  study_streak_days : Z;
  total_study_time_minutes : Z;
  completed_lessons : Z;
  total_tests_taken : Z;
  average_test_score : Z;
  ai_sessions_count : Z;
  weekly_study_time : Z;
  monthly_study_time : Z;
  last_study_date : option string;
  ps_created_at : string;
  ps_updated_at : string
}.

Record SubjectProgress : Type := {
  sp_id : string;
  sp_user_id : string;
  subject_name : string;
  progress_percentage : Z;
  completed_topics : Z;
  total_topics : Z;
  last_accessed : string;
  sp_created_at : string;
  sp_updated_at : string
}.

(** What [SubjectGroupService.getUserSubjectGroup] resolves with, when not null. *)
Record SubjectGroup : Type := { sg_subjects : list string }.

Inductive SessionType : Type := lesson | test | ai_tutor | materials.

Inductive ConnectionStatus : Type := connected | disconnected | checking.

#[global] Instance ConnectionStatus_eq_dec : EqDecision ConnectionStatus.
Proof. solve_decision. Defined.

(** ** The orchestrator's state and its environment *)

(** The ten [useState] cells of [AuthProvider]. *)
Record State : Type := {
  user : option User;
  profile : option UserProfile;
  progressStats : option UserProgressStats;
  subjectProgress : list SubjectProgress;
  session : option Session;
  loading : bool;
  error : option string;
  isNewUser : bool;
  hasSubjectGroup : bool;
  connectionStatus : ConnectionStatus
}.

(** The values the [useState] calls start from. *)
Definition initialState : State := {|
  user := None; profile := None; progressStats := None; subjectProgress := [];
  session := None; loading := true; error := None; isNewUser := false;
  hasSubjectGroup := false; connectionStatus := checking
|}.

(** A call that reached a backend service, with its arguments. *)
Inductive Call : Type :=
| GetCurrentUser
| GetUserProfile (userId : string)
| GetUserProgress (userId : string)
| GetSubjectProgress (userId : string)
| GetUserSubjectGroup (userId : string)
| RecordStudySession (userId : string) (sessionType : SessionType)
    (subject : string) (durationMinutes : Z) (score : option Z)
| SignUp (data : string)
| SignIn (data : string)
| SignOut
| UpdateUserProfile (userId : string) (profileData : ProfileData)
    (profilePicture : option string)
| InitializeUserProgress (userId : string)
| InitializeSubjects (userId : string).

(** The 8 second timer and the [AbortController] of [getInitialSession]. *)
Record SessionCheck : Type := {
  timeoutId : option Z;     (* [Some ms]: the timer is armed *)
  aborted : bool            (* [controller.signal.aborted] *)
}.

(** Everything a handler can read or change. *)
Record World : Type := {
  st : State;
  localStorage : gmap string string;
  backend : list Call;          (* calls issued so far, oldest first *)
  console : list string;        (* first argument of every console call *)
  sessionCheck : SessionCheck
}.

Definition initialWorld : World := {|
  st := initialState; localStorage := ∅; backend := []; console := [];
  sessionCheck := {| timeoutId := None; aborted := false |}
|}.

(** ** A state-and-exception monad for [async] functions *)

Definition M (A : Type) : Type := World -> Result A * World.

Definition ret {A} (a : A) : M A := fun w => (Returned a, w).

Definition throw {A} (e : Thrown) : M A := fun w => (Threw e, w).

Definition bind {A B} (c : M A) (k : A -> M B) : M B :=
  fun w => match c w with
           | (Returned a, w') => k a w'
           | (Threw e, w') => (Threw e, w')
           end.

#[global] Instance M_ret : MRet M := @ret.
#[global] Instance M_bind : MBind M := fun A B k c => bind c k.

(** [try { body } catch (error) { handler }] *)
Definition try_catch {A} (body : M A) (handler : Thrown -> M A) : M A :=
  fun w => match body w with
           | (Returned a, w') => (Returned a, w')
           | (Threw e, w') => handler e w'
           end.

(** [try { body } finally { fin }]: [fin] runs either way; what [body] ended
    with stands unless [fin] itself throws. *)
Definition try_finally {A} (body : M A) (fin : M unit) : M A :=
  fun w => match body w with
           | (r, w') => match fin w' with
                        | (Returned _, w'') => (r, w'')
                        | (Threw e, w'') => (Threw e, w'')
                        end
           end.

(** A service call leaves the client: it is recorded in the trace. *)
Definition issue (c : Call) : M unit :=
  fun w => (Returned tt, {| st := st w; localStorage := localStorage w;
                            backend := backend w ++ [c]; console := console w;
                            sessionCheck := sessionCheck w |}).

(** The promise of a call settles with [r]. *)
Definition settle {A} (r : Result A) : M A := fun w => (r, w).

(** [await service.call(args)] *)
Definition await {A} (c : Call) (r : Result A) : M A := issue c;; settle r.

Definition modify (f : State -> State) : M unit :=
  fun w => (Returned tt, {| st := f (st w); localStorage := localStorage w;
                            backend := backend w; console := console w;
                            sessionCheck := sessionCheck w |}).

Definition log (line : string) : M unit :=
  fun w => (Returned tt, {| st := st w; localStorage := localStorage w;
                            backend := backend w; console := console w ++ [line];
                            sessionCheck := sessionCheck w |}).

Definition localStorage_update (f : gmap string string -> gmap string string) : M unit :=
  fun w => (Returned tt, {| st := st w; localStorage := f (localStorage w);
                            backend := backend w; console := console w;
                            sessionCheck := sessionCheck w |}).

Definition localStorage_getItem (k : string) : M (option string) :=
  fun w => (Returned (localStorage w !! k), w).

Definition localStorage_setItem (k v : string) : M unit :=
  localStorage_update (insert k v).

Definition localStorage_removeItem (k : string) : M unit :=
  localStorage_update (delete k).

Definition sessionCheck_update (f : SessionCheck -> SessionCheck) : M unit :=
  fun w => (Returned tt, {| st := st w; localStorage := localStorage w;
                            backend := backend w; console := console w;
                            sessionCheck := f (sessionCheck w) |}).

(** The state setters returned by [useState]. *)
Definition setUser (v : option User) : M unit :=
  modify (fun s => {| user := v; profile := profile s; progressStats := progressStats s;
    subjectProgress := subjectProgress s; session := session s; loading := loading s;
    error := error s; isNewUser := isNewUser s; hasSubjectGroup := hasSubjectGroup s;
    connectionStatus := connectionStatus s |}).

Definition setProfile (v : option UserProfile) : M unit :=
  modify (fun s => {| user := user s; profile := v; progressStats := progressStats s;
    subjectProgress := subjectProgress s; session := session s; loading := loading s;
    error := error s; isNewUser := isNewUser s; hasSubjectGroup := hasSubjectGroup s;
    connectionStatus := connectionStatus s |}).

Definition setProgressStats (v : option UserProgressStats) : M unit :=
  modify (fun s => {| user := user s; profile := profile s; progressStats := v;
    subjectProgress := subjectProgress s; session := session s; loading := loading s;
    error := error s; isNewUser := isNewUser s; hasSubjectGroup := hasSubjectGroup s;
    connectionStatus := connectionStatus s |}).

Definition setSubjectProgress (v : list SubjectProgress) : M unit :=
  modify (fun s => {| user := user s; profile := profile s; progressStats := progressStats s;
    subjectProgress := v; session := session s; loading := loading s;
    error := error s; isNewUser := isNewUser s; hasSubjectGroup := hasSubjectGroup s;
    connectionStatus := connectionStatus s |}).

Definition setSession (v : option Session) : M unit :=
  modify (fun s => {| user := user s; profile := profile s; progressStats := progressStats s;
    subjectProgress := subjectProgress s; session := v; loading := loading s;
    error := error s; isNewUser := isNewUser s; hasSubjectGroup := hasSubjectGroup s;
    connectionStatus := connectionStatus s |}).

Definition setLoading (v : bool) : M unit :=
  modify (fun s => {| user := user s; profile := profile s; progressStats := progressStats s;
    subjectProgress := subjectProgress s; session := session s; loading := v;
    error := error s; isNewUser := isNewUser s; hasSubjectGroup := hasSubjectGroup s;
    connectionStatus := connectionStatus s |}).

Definition setError (v : option string) : M unit :=
  modify (fun s => {| user := user s; profile := profile s; progressStats := progressStats s;
    subjectProgress := subjectProgress s; session := session s; loading := loading s;
    error := v; isNewUser := isNewUser s; hasSubjectGroup := hasSubjectGroup s;
    connectionStatus := connectionStatus s |}).

Definition setIsNewUser (v : bool) : M unit :=
  modify (fun s => {| user := user s; profile := profile s; progressStats := progressStats s;
    subjectProgress := subjectProgress s; session := session s; loading := loading s;
    error := error s; isNewUser := v; hasSubjectGroup := hasSubjectGroup s;
    connectionStatus := connectionStatus s |}).

Definition setHasSubjectGroup (v : bool) : M unit :=
  modify (fun s => {| user := user s; profile := profile s; progressStats := progressStats s;
    subjectProgress := subjectProgress s; session := session s; loading := loading s;
    error := error s; isNewUser := isNewUser s; hasSubjectGroup := v;
    connectionStatus := connectionStatus s |}).

Definition setConnectionStatus (v : ConnectionStatus) : M unit :=
  modify (fun s => {| user := user s; profile := profile s; progressStats := progressStats s;
    subjectProgress := subjectProgress s; session := session s; loading := loading s;
    error := error s; isNewUser := isNewUser s; hasSubjectGroup := hasSubjectGroup s;
    connectionStatus := v |}).

(** ** The services the orchestrator awaits

    What each service call settles with, per argument list. *)
Record Services : Type := {
  AuthService_getCurrentUser : Result (option User);
  AuthService_getUserProfile : string -> Result (option UserProfile);
  AuthService_signUp : string -> Result unit;
  AuthService_signIn : string -> Result unit;
  AuthService_signOut : Result unit;
  AuthService_updateUserProfile :
    string -> ProfileData -> option string -> Result (option UserProfile);
  ProgressService_getUserProgress : string -> Result (option UserProgressStats);
  ProgressService_getSubjectProgress : string -> Result (list SubjectProgress);
  ProgressService_recordStudySession :
    string -> SessionType -> string -> Z -> option Z -> Result unit;
  ProgressService_initializeUserProgress : string -> Result unit;
  ProgressService_initializeSubjects : string -> Result unit;
  SubjectGroupService_getUserSubjectGroup : string -> Result (option SubjectGroup)
}.

(** ** The user-visible messages of [AuthContext.tsx] *)

Definition msg_cannot_connect : string :=
"🚨 Cannot Connect to Supabase

Your Supabase project appears to be unavailable.

To fix this:
1. Go to https://supabase.com/dashboard
2. Check if your project is paused and resume it
3. Wait 2-3 minutes for full restart
4. Refresh this page".

Definition msg_project_issue : string :=
"🚨 Supabase Project Issue

Your Supabase project appears to be paused or experiencing database issues.

To fix this:
1. Go to https://supabase.com/dashboard
2. Find your project and click " +:+ String (Ascii.ascii_of_nat 34) "Resume" +:+
String (Ascii.ascii_of_nat 34) " if paused
3. Wait 2-3 minutes for full restart
4. Try again".

Definition msg_connection_timeout : string :=
"🚨 Connection Timeout

Unable to connect to Supabase. Your project may be paused.

Please check https://supabase.com/dashboard".

(** ** [AuthProvider] *)

Definition dismissError : M unit := setError None.

(** [handleSupabaseError(error, context)] *)
Definition handleSupabaseError (error : Thrown) (context : string) : M unit :=
  log (context +:+ " error:");;
  if name_is error "SupabaseConnectionError" || name_is error "SupabaseTimeoutError" then
    setConnectionStatus disconnected;;
    setError (message_of error)
  else if message_includes error "Failed to fetch"
          || message_includes error "NetworkError"
          || message_includes error "Connection timeout"
          || message_includes error "fetch is not defined" then
    setConnectionStatus disconnected;;
    setError (Some msg_cannot_connect)
  else if message_includes error "Database error saving new user"
          || message_includes error "unexpected_failure" then
    setConnectionStatus disconnected;;
    setError (Some msg_project_issue)
  else
    (* For other errors, don't change connection status *)
    setError (if instanceofError error then message_of error
              else Some (context +:+ " failed")).

Definition markProfileCompleted : M unit :=
  setIsNewUser false;;
  localStorage_removeItem "isNewUser".

(** [localStorage.getItem('isNewUser') === 'true'] *)
Definition isNewUserFlag : M bool :=
  v ← localStorage_getItem "isNewUser";
  mret (bool_decide (v = Some "true")).

Section AuthProvider.

Variable svc : Services.

Definition loadUserProfile (userId : string) : M unit :=
  try_catch
    (setError None;;
     log "Loading profile for user:";;
     userProfile ← await (GetUserProfile userId) (AuthService_getUserProfile svc userId);
     setProfile userProfile;;
     setConnectionStatus connected;;
     log "Profile loaded successfully:")
    (fun error =>
       handleSupabaseError error "Load user profile";;
       setProfile None).

Definition loadUserProgress (userId : string) : M unit :=
  try_catch
    (log "Loading progress for user:";;
     stats ← await (GetUserProgress userId) (ProgressService_getUserProgress svc userId);
     setProgressStats stats;;
     subjects ← await (GetSubjectProgress userId) (ProgressService_getSubjectProgress svc userId);
     setSubjectProgress subjects;;
     log "Progress loaded successfully")
    (fun error =>
       (* Don't set error for progress loading failures - it's not critical *)
       log "Error loading user progress:").

(** [!!(subjectGroup && subjectGroup.subjects.length > 0)] *)
Definition hasGroup (subjectGroup : option SubjectGroup) : bool :=
  match subjectGroup with
  | Some g => bool_decide (0 < length (sg_subjects g))
  | None => false
  end.

Definition checkSubjectGroupSelection (userId : string) : M unit :=
  try_catch
    (log "Checking subject group selection for user:";;
     subjectGroup ← await (GetUserSubjectGroup userId)
                          (SubjectGroupService_getUserSubjectGroup svc userId);
     setHasSubjectGroup (hasGroup subjectGroup);;
     log "Subject group check result:")
    (fun error =>
       log "Error checking subject group:";;
       setHasSubjectGroup false).

(** The handlers below close over the state of the render they were created
    in: [r] is that snapshot ([user], [profile], [isNewUser] are read from it). *)

Definition refreshProgress (r : State) : M unit :=
  match user r with
  | Some u => loadUserProgress (user_id u)
  | None => mret tt
  end.

Definition recordStudySession (r : State) (sessionType : SessionType)
    (subject : string) (durationMinutes : Z) (score : option Z) : M unit :=
  match user r with
  | None => throw (newError "No user logged in")
  | Some u =>
      try_catch
        (await (RecordStudySession (user_id u) sessionType subject durationMinutes score)
               (ProgressService_recordStudySession svc (user_id u) sessionType subject
                  durationMinutes score);;
         (* Refresh progress after recording session *)
         refreshProgress r)
        (fun error =>
           handleSupabaseError error "Record study session";;
           throw error)
  end.

Definition retryProfileLoad (r : State) : M unit :=
  match user r with
  | Some u =>
      loadUserProfile (user_id u);;
      loadUserProgress (user_id u);;
      checkSubjectGroupSelection (user_id u)
  | None => mret tt
  end.

Definition retryConnection : M unit :=
  try_catch
    (setConnectionStatus checking;;
     setError None;;
     currentUser ← await GetCurrentUser (AuthService_getCurrentUser svc);
     setConnectionStatus connected;;
     setUser currentUser;;
     match currentUser with
     | Some u =>
         loadUserProfile (user_id u);;
         loadUserProgress (user_id u);;
         checkSubjectGroupSelection (user_id u)
     | None => mret tt
     end;;
     log "✅ Connection restored successfully")
    (fun error => handleSupabaseError error "Connection retry").

Definition signUp (data : string) : M unit :=
  try_catch
    (setLoading true;;
     setError None;;
     setConnectionStatus checking;;
     localStorage_setItem "isNewUser" "true";;
     setIsNewUser true;;
     await (SignUp data) (AuthService_signUp svc data);;
     setConnectionStatus connected)
    (fun error =>
       setLoading false;;
       localStorage_removeItem "isNewUser";;
       setIsNewUser false;;
       handleSupabaseError error "Sign up";;
       throw error).

Definition signIn (data : string) : M unit :=
  try_catch
    (setLoading true;;
     setError None;;
     setConnectionStatus checking;;
     localStorage_removeItem "isNewUser";;
     setIsNewUser false;;
     await (SignIn data) (AuthService_signIn svc data);;
     setConnectionStatus connected)
    (fun error =>
       setLoading false;;
       handleSupabaseError error "Sign in";;
       throw error).

Definition signOut : M unit :=
  try_finally
    (try_catch
       (setLoading true;;
        setError None;;
        localStorage_removeItem "isNewUser";;
        setIsNewUser false;;
        await SignOut (AuthService_signOut svc);;
        setUser None;;
        setProfile None;;
        setProgressStats None;;
        setSubjectProgress [];;
        setSession None;;
        setHasSubjectGroup false;;
        setConnectionStatus connected)
       (fun error =>
          handleSupabaseError error "Sign out";;
          throw error))
    (setLoading false).

(** The object [updateProfile] sends:
    [{ ...profile, ...updates, first_name: updates.first_name || profile?.first_name || '', ... }] *)
Definition spread {A} (prior : option A) (update : Key A) : option A :=
  match update with
  | present v => v           (* the later spread wins, also with [undefined] *)
  | absent => prior
  end.

Definition profileData (prior : option UserProfile) (updates : PartialProfile) : ProfileData := {|
  d_id := spread (id <$> prior) (p_id updates);
  d_first_name := or_else (p_first_name updates) (or_else (first_name <$> prior) "");
  d_last_name := or_else (p_last_name updates) (or_else (last_name <$> prior) "");
  d_grade := or_else (p_grade updates) (or_else (grade <$> prior) "");
  d_board := spread (prior ≫= board) (p_board updates);
  d_area := spread (prior ≫= area) (p_area updates);
  d_profile_picture_url := spread (prior ≫= profile_picture_url) (p_profile_picture_url updates);
  d_subject_group := spread (prior ≫= subject_group) (p_subject_group updates);
  d_subjects := spread (prior ≫= subjects) (p_subjects updates);
  d_created_at := spread (created_at <$> prior) (p_created_at updates);
  d_updated_at := spread (updated_at <$> prior) (p_updated_at updates)
|}.

Definition updateProfile (r : State) (updates : PartialProfile)
    (profilePicture : option string) : M unit :=
  match user r with
  | None => throw (newError "No user logged in")
  | Some u =>
      try_catch
        (setError None;;
         updatedProfile ←
           await (UpdateUserProfile (user_id u) (profileData (profile r) updates) profilePicture)
                 (AuthService_updateUserProfile svc (user_id u)
                    (profileData (profile r) updates) profilePicture);
         setProfile updatedProfile;;
         setConnectionStatus connected;;
         (* If this was a new user completing their profile, initialize progress *)
         (if isNewUser r then
            await (InitializeUserProgress (user_id u))
                  (ProgressService_initializeUserProgress svc (user_id u));;
            await (InitializeSubjects (user_id u))
                  (ProgressService_initializeSubjects svc (user_id u));;
            loadUserProgress (user_id u)
          else mret tt);;
         (* Check subject group status after profile update *)
         checkSubjectGroupSelection (user_id u))
        (fun error =>
           handleSupabaseError error "Profile update";;
           throw error)
  end.

(** A handler invoked by the interface runs the closure of the latest render. *)
Definition invoke {A} (handler : State -> M A) : M A := fun w => handler (st w) w.

(** *** Loads started without [await]

    [loadUserProfile(id).catch(console.error)] runs the loader up to its first
    [await] and returns; the rest runs when the call settles.  The pieces below
    are the loaders cut at their [await]s; [loadUserProfile_pieces] and its
    siblings show that they compose to the loaders above. *)

Definition loadUserProfile_begin (userId : string) : M unit :=
  setError None;;
  log "Loading profile for user:";;
  issue (GetUserProfile userId).

Definition loadUserProfile_settle (r : Result (option UserProfile)) : M unit :=
  match r with
  | Returned userProfile =>
      setProfile userProfile;;
      setConnectionStatus connected;;
      log "Profile loaded successfully:"
  | Threw error =>
      handleSupabaseError error "Load user profile";;
      setProfile None
  end.

Definition loadUserProgress_begin (userId : string) : M unit :=
  log "Loading progress for user:";;
  issue (GetUserProgress userId).

Definition loadUserProgress_settle_stats (userId : string)
    (r : Result (option UserProgressStats)) : M unit :=
  match r with
  | Returned stats =>
      setProgressStats stats;;
      issue (GetSubjectProgress userId)
  | Threw error => log "Error loading user progress:"
  end.

Definition loadUserProgress_settle_subjects (r : Result (list SubjectProgress)) : M unit :=
  match r with
  | Returned subjects =>
      setSubjectProgress subjects;;
      log "Progress loaded successfully"
  | Threw error => log "Error loading user progress:"
  end.

Definition checkSubjectGroupSelection_begin (userId : string) : M unit :=
  log "Checking subject group selection for user:";;
  issue (GetUserSubjectGroup userId).

Definition checkSubjectGroupSelection_settle (r : Result (option SubjectGroup)) : M unit :=
  match r with
  | Returned subjectGroup =>
      setHasSubjectGroup (hasGroup subjectGroup);;
      log "Subject group check result:"
  | Threw error =>
      log "Error checking subject group:";;
      setHasSubjectGroup false
  end.

(** The three loads as the effect starts them: profile, progress, subject group. *)
Definition fanOut (userId : string) : M unit :=
  loadUserProfile_begin userId;;
  loadUserProgress_begin userId;;
  checkSubjectGroupSelection_begin userId.

(** *** [getInitialSession]

    Cut at its one [await]: [getInitialSession_begin] runs when the effect
    mounts, [getInitialSession_settle] when [AuthService.getCurrentUser()]
    settles.  [mounted] is the effect's flag at that moment. *)

Definition clearTimeout : M unit :=
  sessionCheck_update (fun c => {| timeoutId := None; aborted := aborted c |}).

Definition getInitialSession_begin : M unit :=
  setError None;;
  setConnectionStatus checking;;
  log "Getting initial session...";;
  (* const controller = new AbortController(); setTimeout(() => controller.abort(), 8000) *)
  sessionCheck_update (fun _ => {| timeoutId := Some 8000%Z; aborted := false |});;
  issue GetCurrentUser.

(** The timer's callback: [controller.abort()].  Nothing listens to the
    controller's signal: [getCurrentUser()] takes no argument. *)
Definition sessionTimer_fires : M unit :=
  sessionCheck_update (fun c =>
    match timeoutId c with
    | Some _ => {| timeoutId := None; aborted := true |}
    | None => c
    end).

Definition getInitialSession_settle (mounted : bool) (r : Result (option User)) : M unit :=
  try_finally
    (try_catch
       (try_catch
          (currentUser ← settle r;
           clearTimeout;;
           if negb mounted then mret tt
           else
             log "Initial session result:";;
             setUser currentUser;;
             setConnectionStatus connected;;
             match currentUser with
             | Some u =>
                 flag ← isNewUserFlag;
                 setIsNewUser flag;;
                 fanOut (user_id u)
             | None => mret tt
             end)
          (fun authError =>
             clearTimeout;;
             if instanceofError authError && name_is authError "AbortError" then
               log "Session check timeout - continuing without authentication";;
               setConnectionStatus disconnected;;
               setError (Some msg_connection_timeout)
             else throw authError))
       (fun error =>
          log "Error getting initial session:";;
          if mounted then
            setUser None;;
            setProfile None;;
            setProgressStats None;;
            setSubjectProgress [];;
            setHasSubjectGroup false;;
            handleSupabaseError error "Initial session"
          else mret tt))
    (if mounted then setLoading false else mret tt).

(** A run of [getInitialSession] during which nothing else happens. *)
Definition getInitialSession (mounted : bool) : M unit :=
  getInitialSession_begin;;
  getInitialSession_settle mounted (AuthService_getCurrentUser svc).

(** *** The callback given to [AuthService.onAuthStateChange] *)

Definition onAuthStateChange_handler (mounted : bool) (event : string)
    (session : option Session) : M unit :=
  if negb mounted then mret tt
  else
    log "Auth state change:";;
    setError None;;
    setSession session;;
    setUser (session ≫= session_user);;
    match session ≫= session_user with
    | Some u =>
        setConnectionStatus connected;;
        flag ← isNewUserFlag;
        setIsNewUser flag;;
        fanOut (user_id u)
    | None =>
        setProfile None;;
        setProgressStats None;;
        setSubjectProgress [];;
        setIsNewUser false;;
        setHasSubjectGroup false
    end;;
    setLoading false.

End AuthProvider.

(** *** The orchestrator as a transition system

    What can happen after the effect has mounted, one event at a time: the
    JavaScript event loop runs each callback to its next [await]. *)
Inductive Event : Type :=
| SessionTimerFires
| SessionCheckSettles (mounted : bool) (r : Result (option User))
| AuthStateChange (mounted : bool) (event : string) (session : option Session)
| ProfileLoadSettles (r : Result (option UserProfile))
| ProgressStatsLoadSettles (userId : string) (r : Result (option UserProgressStats))
| SubjectProgressLoadSettles (r : Result (list SubjectProgress))
| SubjectGroupLoadSettles (r : Result (option SubjectGroup)).

Definition handle (ev : Event) : M unit :=
  match ev with
  | SessionTimerFires => sessionTimer_fires
  | SessionCheckSettles mounted r => getInitialSession_settle mounted r
  | AuthStateChange mounted event session => onAuthStateChange_handler mounted event session
  | ProfileLoadSettles r => loadUserProfile_settle r
  | ProgressStatsLoadSettles userId r => loadUserProgress_settle_stats userId r
  | SubjectProgressLoadSettles r => loadUserProgress_settle_subjects r
  | SubjectGroupLoadSettles r => checkSubjectGroupSelection_settle r
  end.

Definition step (w : World) (ev : Event) : World := (handle ev w).2.

Definition run (evs : list Event) (w : World) : World := foldl step w evs.

(** The world right after [AuthProvider] has mounted: the effect has called
    [getInitialSession()], which is suspended at its [await]. *)
Definition mountedWorld : World := (getInitialSession_begin initialWorld).2.

(** Events that leave [user] and [session] alone: everything but an applied
    notification and the settling of the startup session check. *)
Definition keeps_identity (ev : Event) : bool :=
  match ev with
  | AuthStateChange mounted _ _ => negb mounted
  | SessionCheckSettles _ _ => false
  | _ => true
  end.

(** ** The Supabase client module: degraded-mode client and connection probe *)

Module Supabase.

(** An [error] value of a client response; the probe reads [message] and [code]. *)
Record ErrorValue : Type := { message : option string; code : option string }.

(** The [data] of a response of the mock client. *)
Inductive Data : Type :=
| data_null                 (* data: null *)
| data_user                 (* data: { user: null } *)
| data_session              (* data: { session: null } *)
| data_user_session         (* data: { user: null, session: null } *)
| data_empty_list           (* data: [] *)
| data_absent.              (* no data property *)

Record Response : Type := { data : Data; error : option ErrorValue }.

(** The promise-returning operations of the client surface, named by the chain
    of calls that leads to them. *)
Inductive Operation : Type :=
| auth_getUser
| auth_getSession
| auth_signUp
| auth_signInWithPassword
| auth_signOut
| from_select_eq_single (table : string)
| from_select_eq_limit (table : string)
| from_select_eq_maybeSingle (table : string)
| from_select_eq_order_limit (table : string)
| from_select_limit (table : string)
| from_select_order_limit (table : string)
| from_insert (table : string)
| from_update_eq_select_single (table : string)
| from_upsert_select_single (table : string)
| storage_from_upload (bucket : string)
| storage_from_remove (bucket : string).

#[global] Instance Operation_eq_dec : EqDecision Operation.
Proof. solve_decision. Defined.

(** A client, seen from its callers: how each operation ends. *)
Definition Client : Type := Operation -> Result Response.

Definition mockError : ErrorValue := {|
  message := Some "Supabase connection unavailable. Please check your project status.";
  code := Some "SUPABASE_UNAVAILABLE"
|}.

(** [Promise.resolve(value)] *)
Definition Promise_resolve (value : Response) : Result Response := Returned value.

(** The object [createMockClient()] returns, operation by operation. *)
Definition createMockClient : Client := fun op =>
  match op with
  | auth_getUser => Promise_resolve {| data := data_user; error := None |}
  | auth_getSession => Promise_resolve {| data := data_session; error := None |}
  | auth_signUp => Promise_resolve {| data := data_user_session; error := Some mockError |}
  | auth_signInWithPassword =>
      Promise_resolve {| data := data_user_session; error := Some mockError |}
  | auth_signOut => Promise_resolve {| data := data_absent; error := None |}
  | from_select_eq_single _ => Promise_resolve {| data := data_null; error := Some mockError |}
  | from_select_eq_limit _ => Promise_resolve {| data := data_empty_list; error := None |}
  | from_select_eq_maybeSingle _ =>
      Promise_resolve {| data := data_null; error := Some mockError |}
  | from_select_eq_order_limit _ => Promise_resolve {| data := data_empty_list; error := None |}
  | from_select_limit _ => Promise_resolve {| data := data_empty_list; error := None |}
  | from_select_order_limit _ => Promise_resolve {| data := data_empty_list; error := None |}
  | from_insert _ => Promise_resolve {| data := data_null; error := Some mockError |}
  | from_update_eq_select_single _ =>
      Promise_resolve {| data := data_null; error := Some mockError |}
  | from_upsert_select_single _ =>
      Promise_resolve {| data := data_null; error := Some mockError |}
  | storage_from_upload _ => Promise_resolve {| data := data_null; error := Some mockError |}
  | storage_from_remove _ => Promise_resolve {| data := data_absent; error := None |}
  end.

(** [storage.from(bucket).getPublicUrl()] returns at once: [{ data: { publicUrl: '' } }]. *)
Definition mock_getPublicUrl (bucket : string) : string := "".

(** A callback handed to [setTimeout]: the delay and the arguments it will be
    called with. *)
Record Scheduled : Type := {
  delay : Z;
  event : string;
  session : option Session
}.

(** [auth.onAuthStateChange(callback)] of the mock client: one call of
    [callback('SIGNED_OUT', null)] is scheduled 100 ms ahead, and a subscription
    whose [unsubscribe] does nothing is returned. *)
Record Subscription : Type := { unsubscribe : list Scheduled -> list Scheduled }.

Definition mock_onAuthStateChange (timers : list Scheduled)
  : Subscription * list Scheduled :=
  ({| unsubscribe := fun pending => pending |},
   (timers ++ [ {| delay := 100; event := "SIGNED_OUT"; session := None |} ])%list).

(** The operations for which the mock client answers with [mockError]. *)
Definition answers_unavailable (op : Operation) : bool :=
  match op with
  | auth_signUp | auth_signInWithPassword
  | from_select_eq_single _ | from_select_eq_maybeSingle _
  | from_insert _ | from_update_eq_select_single _ | from_upsert_select_single _
  | storage_from_upload _ => true
  | _ => false
  end.

(** *** [testSupabaseConnection] *)

(** [e.message.includes(n)]: a [TypeError] when [message] is undefined. *)
Definition typeError : Thrown :=
  ErrorObj "TypeError" "Cannot read properties of undefined (reading 'includes')".

Definition message_or_throw (e : ErrorValue) : Result string :=
  match message e with Some m => Returned m | None => Threw typeError end.

Definition code_is (e : ErrorValue) (c : string) : bool :=
  match code e with Some c' => String.eqb c' c | None => false end.

(** The second half of the probe: the data-layer check. *)
Definition probe_database (client : Client) : Result bool :=
  match client (from_select_limit "user_profiles") with
  | Threw e => Threw e
  | Returned r =>
      match error r with
      | None => Returned true
      | Some dbError =>
          match message_or_throw dbError with
          | Threw e => Threw e
          | Returned m =>
              if includes "Failed to fetch" m || includes "NetworkError" m
                 || includes "Connection timeout" m || includes "fetch is not defined" m
              then Returned false
              (* These errors are OK - they indicate connection works but setup may be needed *)
              else if code_is dbError "PGRST116" || code_is dbError "42P01"
                      || includes "relation" m || includes "does not exist" m
              then Returned true
              else if includes "Database error" m || includes "unexpected_failure" m
              then Returned false
              else Returned true
          end
      end
  end.

(** The body of the [try] block. *)
Definition probe_body (client : Client) : Result bool :=
  match client auth_getSession with
  | Threw e => Threw e
  | Returned r =>
      match error r with
      | None => probe_database client
      | Some authError =>
          match message_or_throw authError with
          | Threw e => Threw e
          | Returned m =>
              if includes "Failed to fetch" m || includes "NetworkError" m
                 || includes "fetch is not defined" m
              then Returned false
              else probe_database client
          end
      end
  end.

(** [try { ... } catch (error) { return false }] *)
Definition testSupabaseConnection (client : Client) : Result bool :=
  match probe_body client with
  | Returned b => Returned b
  | Threw _ => Returned false
  end.

(** *** The [fetch] wrapper given to [createClient]

    Every request of the real client goes through it; a request that is still
    pending after 10 seconds is aborted.  [fetch_catch] is its [catch]
    callback: what the wrapper rejects with, given what [fetch] rejected with. *)

Definition msg_request_timeout : string :=
"🚨 Supabase Request Timeout

Your Supabase project may be paused or experiencing issues.

To fix this:
1. Go to https://supabase.com/dashboard
2. Check if your project is paused and resume it
3. Wait 2-3 minutes for full restart
4. Refresh this page".

Definition msg_cannot_connect : string :=
"🚨 Cannot Connect to Supabase

Your Supabase project appears to be unavailable.

Possible causes:
• Project is paused (most common)
• Network connectivity issues
• Project configuration problems

To fix:
1. Visit https://supabase.com/dashboard
2. Check your project status
3. Resume if paused and wait for restart
4. Verify your project URL and API keys".

Definition fetch_catch (error : Thrown) : Thrown :=
  if name_is error "AbortError" then
    ErrorObj "SupabaseTimeoutError" msg_request_timeout
  else
    match message_of error with
    | None => typeError                    (* [error.message.includes] of undefined *)
    | Some m =>
        if includes "Failed to fetch" m || includes "NetworkError" m
           || name_is error "TypeError"
        then ErrorObj "SupabaseConnectionError" msg_cannot_connect
        else error
    end.

(** The messages the probe classifies as a network failure. *)
Definition network_failure (m : string) : bool :=
  includes "Failed to fetch" m || includes "NetworkError" m
  || includes "Connection timeout" m || includes "fetch is not defined" m.

(** The data-layer errors the probe tolerates: the schema is not there yet. *)
Definition schema_absent (e : ErrorValue) : bool :=
  code_is e "PGRST116" || code_is e "42P01"
  || match message e with
     | Some m => includes "relation" m || includes "does not exist" m
     | None => false
     end.

End Supabase.

(** ** The [initialize_user_progress] trigger of the schema migration *)

Module Migration.

(** A row of [user_progress_stats]; [average_test_score numeric(5,2)] in hundredths. *)
Record progress_stats_row : Type := {
  row_id : string;                       (* uuid PRIMARY KEY DEFAULT gen_random_uuid() *)
  row_user_id : string;                  (* uuid UNIQUE NOT NULL REFERENCES auth.users(id) *)
  row_study_streak_days : Z;
  row_total_study_time_minutes : Z;
  row_completed_lessons : Z;
  row_total_tests_taken : Z;
  row_average_test_score : Z;
  row_ai_sessions_count : Z;
  row_weekly_study_time : Z;
  row_monthly_study_time : Z;
  row_last_study_date : option string;
  row_created_at : string;               (* timestamptz DEFAULT now() *)
  row_updated_at : string
}.

Record Database : Type := {
  auth_users : list string;                        (* the ids in [auth.users] *)
  user_progress_stats : list progress_stats_row;
  warnings : list string                           (* RAISE WARNING *)
}.

(** The row [INSERT INTO user_progress_stats (user_id) VALUES (uid)] proposes:
    every other column takes its default. *)
Definition default_row (gen_random_uuid now uid : string) : progress_stats_row := {|
  row_id := gen_random_uuid;
  row_user_id := uid;
  row_study_streak_days := 0;
  row_total_study_time_minutes := 0;
  row_completed_lessons := 0;
  row_total_tests_taken := 0;
  row_average_test_score := 0;
  row_ai_sessions_count := 0;
  row_weekly_study_time := 0;
  row_monthly_study_time := 0;
  row_last_study_date := None;
  row_created_at := now;
  row_updated_at := now
|}.

(** How a statement ends: the new database, or an error condition. *)
Inductive Sql : Type :=
| Done (db : Database)
| Raise (condition : string).

(** [INSERT INTO public.user_progress_stats (user_id) VALUES (uid)
     ON CONFLICT (user_id) DO NOTHING].
    [gen_random_uuid] and [now] are what the two defaults evaluate to. *)
Definition insert_on_conflict_do_nothing (gen_random_uuid now uid : string)
    (db : Database) : Sql :=
  if bool_decide (uid ∈ row_user_id <$> user_progress_stats db) then
    Done db                                         (* ON CONFLICT (user_id) DO NOTHING *)
  else if bool_decide (gen_random_uuid ∈ row_id <$> user_progress_stats db) then
    Raise "unique_violation"                        (* id uuid PRIMARY KEY *)
  else if bool_decide (uid ∈ auth_users db) then
    Done {| auth_users := auth_users db;
            user_progress_stats :=
              user_progress_stats db ++ [default_row gen_random_uuid now uid];
            warnings := warnings db |}
  else
    Raise "foreign_key_violation".                  (* REFERENCES auth.users(id) *)

(** The trigger function, run for a new profile row whose id is [NEW_id]:
    [BEGIN INSERT ...; RETURN NEW; EXCEPTION WHEN OTHERS THEN RAISE WARNING ...; RETURN NEW; END] *)
Definition initialize_user_progress (gen_random_uuid now NEW_id : string)
    (db : Database) : Database :=
  match insert_on_conflict_do_nothing gen_random_uuid now NEW_id db with
  | Done db' => db'
  | Raise condition =>
      {| auth_users := auth_users db;
         user_progress_stats := user_progress_stats db;
         warnings := warnings db ++ ["Failed to initialize user progress: " +:+ condition] |}
  end.

(** The [UNIQUE] constraint on [user_id], as the store maintains it. *)
Definition unique_user_id (db : Database) : Prop :=
  NoDup (row_user_id <$> user_progress_stats db).

(** The progress rows of one user. *)
Definition rows_of (uid : string) (db : Database) : list progress_stats_row :=
  filter (fun r => row_user_id r = uid) (user_progress_stats db).

End Migration.

(** ** Vocabulary of the statements *)

(** What [handleSupabaseError] decides, as two pure functions: whether the
    connection is marked disconnected, and the message given to [setError]. *)
Definition names_connection_failure (e : Thrown) : bool :=
  name_is e "SupabaseConnectionError" || name_is e "SupabaseTimeoutError".

Definition mentions_network_failure (e : Thrown) : bool :=
  message_includes e "Failed to fetch" || message_includes e "NetworkError"
  || message_includes e "Connection timeout" || message_includes e "fetch is not defined".

Definition mentions_backend_fault (e : Thrown) : bool :=
  message_includes e "Database error saving new user"
  || message_includes e "unexpected_failure".

Definition escalates (e : Thrown) : bool :=
  names_connection_failure e || mentions_network_failure e || mentions_backend_fault e.

Definition surfaced (e : Thrown) (context : string) : option string :=
  if names_connection_failure e then message_of e
  else if mentions_network_failure e then Some msg_cannot_connect
  else if mentions_backend_fault e then Some msg_project_issue
  else if instanceofError e then message_of e
  else Some (context +:+ " failed").

(** The state [handleSupabaseError] leaves: two cells change at most. *)
Definition with_error (e : Thrown) (context : string) (s : State) : State := {|
  user := user s; profile := profile s; progressStats := progressStats s;
  subjectProgress := subjectProgress s; session := session s; loading := loading s;
  error := surfaced e context; isNewUser := isNewUser s;
  hasSubjectGroup := hasSubjectGroup s;
  connectionStatus := if escalates e then disconnected else connectionStatus s
|}.

(** The session check "timed out" as [getInitialSession] recognises it:
    [authError instanceof Error && authError.name === 'AbortError']. *)
Definition timed_out (e : Thrown) : bool :=
  instanceofError e && name_is e "AbortError".

(** A required profile field as the specification words it: the update's value
    if non-empty, otherwise the prior value if non-empty, otherwise empty. *)
Definition required_field_spec (update prior : option string) : string :=
  match update with
  | Some u => if decide (u = "") then
                match prior with
                | Some p => if decide (p = "") then "" else p
                | None => ""
                end
              else u
  | None => match prior with
            | Some p => if decide (p = "") then "" else p
            | None => ""
            end
  end.

(** The profile objects handed to [AuthService.updateUserProfile], in order. *)
Definition submitted_profiles (calls : list Call) : list ProfileData :=
  omap (fun c => match c with UpdateUserProfile _ d _ => Some d | _ => None end) calls.

(** The causes for which the probe answers [false]. *)
Inductive ProbeFailure (client : Supabase.Client) : Prop :=
| auth_check_throws e :
    client Supabase.auth_getSession = Threw e -> ProbeFailure client
| auth_error_unreadable r authError :
    client Supabase.auth_getSession = Returned r ->
    Supabase.error r = Some authError -> Supabase.message authError = None ->
    ProbeFailure client
| auth_network_failure r authError m :
    client Supabase.auth_getSession = Returned r ->
    Supabase.error r = Some authError -> Supabase.message authError = Some m ->
    includes "Failed to fetch" m || includes "NetworkError" m
      || includes "fetch is not defined" m = true ->
    ProbeFailure client
| database_check_throws e :
    client (Supabase.from_select_limit "user_profiles") = Threw e -> ProbeFailure client
| database_error_unreadable r dbError :
    client (Supabase.from_select_limit "user_profiles") = Returned r ->
    Supabase.error r = Some dbError -> Supabase.message dbError = None ->
    ProbeFailure client
| database_network_failure r dbError m :
    client (Supabase.from_select_limit "user_profiles") = Returned r ->
    Supabase.error r = Some dbError -> Supabase.message dbError = Some m ->
    Supabase.network_failure m = true ->
    ProbeFailure client
| database_fault r dbError m :
    client (Supabase.from_select_limit "user_profiles") = Returned r ->
    Supabase.error r = Some dbError -> Supabase.message dbError = Some m ->
    Supabase.schema_absent dbError = false ->
    includes "Database error" m || includes "unexpected_failure" m = true ->
    ProbeFailure client.

(** *** Concrete values for the examples *)

Definition ann : User := {| user_id := "u-ann"; email := Some "ann@example.org" |}.

Definition ann_session : Session := {| access_token := "token-1"; session_user := Some ann |}.

Definition ann_profile : UserProfile := {|
  id := "u-ann"; first_name := "Ann"; last_name := "Lee"; grade := "10";
  board := None; area := None; profile_picture_url := None; subject_group := None;
  subjects := None; created_at := "2025-06-24"; updated_at := "2025-06-24"
|}.

Definition no_updates : PartialProfile := {|
  p_id := absent; p_first_name := None; p_last_name := None; p_grade := None;
  p_board := absent; p_area := absent; p_profile_picture_url := absent;
  p_subject_group := absent; p_subjects := absent; p_created_at := absent;
  p_updated_at := absent
|}.

(** [updateProfile({grade: "", board: "CBSE"})] *)
Definition board_update : PartialProfile := {|
  p_id := absent; p_first_name := None; p_last_name := None; p_grade := Some "";
  p_board := present (Some "CBSE"); p_area := absent; p_profile_picture_url := absent;
  p_subject_group := absent; p_subjects := absent; p_created_at := absent;
  p_updated_at := absent
|}.

Definition abortError : Thrown := ErrorObj "AbortError" "The operation was aborted.".

Definition fetchError : Thrown := ErrorObj "TypeError" "Failed to fetch".

Definition permissionError : Thrown := ErrorObj "Error" "permission denied".

(** Services that all succeed, with nothing stored for the user. *)
Definition svc_ok : Services := {|
  AuthService_getCurrentUser := Returned (Some ann);
  AuthService_getUserProfile := fun _ => Returned (Some ann_profile);
  AuthService_signUp := fun _ => Returned tt;
  AuthService_signIn := fun _ => Returned tt;
  AuthService_signOut := Returned tt;
  AuthService_updateUserProfile := fun _ _ _ => Returned (Some ann_profile);
  ProgressService_getUserProgress := fun _ => Returned None;
  ProgressService_getSubjectProgress := fun _ => Returned [];
  ProgressService_recordStudySession := fun _ _ _ _ _ => Returned tt;
  ProgressService_initializeUserProgress := fun _ => Returned tt;
  ProgressService_initializeSubjects := fun _ => Returned tt;
  SubjectGroupService_getUserSubjectGroup := fun _ => Returned None
|}.

(** Services behind a backend that cannot be reached: every call fails. *)
Definition svc_down : Services := {|
  AuthService_getCurrentUser := Threw fetchError;
  AuthService_getUserProfile := fun _ => Threw fetchError;
  AuthService_signUp := fun _ => Threw fetchError;
  AuthService_signIn := fun _ => Threw fetchError;
  AuthService_signOut := Threw fetchError;
  AuthService_updateUserProfile := fun _ _ _ => Threw fetchError;
  ProgressService_getUserProgress := fun _ => Threw fetchError;
  ProgressService_getSubjectProgress := fun _ => Threw fetchError;
  ProgressService_recordStudySession := fun _ _ _ _ _ => Threw fetchError;
  ProgressService_initializeUserProgress := fun _ => Threw fetchError;
  ProgressService_initializeSubjects := fun _ => Threw fetchError;
  SubjectGroupService_getUserSubjectGroup := fun _ => Threw fetchError
|}.

(** Services whose session check is aborted. *)
Definition svc_aborted : Services := {|
  AuthService_getCurrentUser := Threw abortError;
  AuthService_getUserProfile := fun _ => Returned (Some ann_profile);
  AuthService_signUp := fun _ => Returned tt;
  AuthService_signIn := fun _ => Returned tt;
  AuthService_signOut := Returned tt;
  AuthService_updateUserProfile := fun _ _ _ => Returned (Some ann_profile);
  ProgressService_getUserProgress := fun _ => Returned None;
  ProgressService_getSubjectProgress := fun _ => Returned [];
  ProgressService_recordStudySession := fun _ _ _ _ _ => Returned tt;
  ProgressService_initializeUserProgress := fun _ => Returned tt;
  ProgressService_initializeSubjects := fun _ => Returned tt;
  SubjectGroupService_getUserSubjectGroup := fun _ => Returned None
|}.

(** Services whose progress initialisation fails after a successful upsert. *)
Definition svc_init_fails : Services := {|
  AuthService_getCurrentUser := Returned (Some ann);
  AuthService_getUserProfile := fun _ => Returned (Some ann_profile);
  AuthService_signUp := fun _ => Returned tt;
  AuthService_signIn := fun _ => Returned tt;
  AuthService_signOut := Returned tt;
  AuthService_updateUserProfile := fun _ _ _ => Returned (Some ann_profile);
  ProgressService_getUserProgress := fun _ => Returned None;
  ProgressService_getSubjectProgress := fun _ => Returned [];
  ProgressService_recordStudySession := fun _ _ _ _ _ => Returned tt;
  ProgressService_initializeUserProgress := fun _ => Threw permissionError;
  ProgressService_initializeSubjects := fun _ => Returned tt;
  SubjectGroupService_getUserSubjectGroup := fun _ => Returned None
|}.

(** Ann has just signed up: no profile is cached yet. *)
Definition new_user_state : State := {|
  user := Some ann; profile := None; progressStats := None;
  subjectProgress := []; session := Some ann_session; loading := false;
  error := None; isNewUser := true; hasSubjectGroup := false;
  connectionStatus := connected
|}.

Definition new_user_world : World := {|
  st := new_user_state; localStorage := {[ "isNewUser" := "true" ]}; backend := [];
  console := []; sessionCheck := {| timeoutId := None; aborted := false |}
|}.

(** Ann is signed in, her profile and subject group are loaded, and the
    connection has since been marked disconnected. *)
Definition signed_in_state : State := {|
  user := Some ann; profile := Some ann_profile; progressStats := None;
  subjectProgress := []; session := Some ann_session; loading := false;
  error := Some msg_cannot_connect; isNewUser := false; hasSubjectGroup := true;
  connectionStatus := disconnected
|}.

Definition signed_in_world : World := {|
  st := signed_in_state; localStorage := ∅; backend := []; console := [];
  sessionCheck := {| timeoutId := None; aborted := false |}
|}.

(** A probed backend that is reachable but answers the data-layer check with a
    server-side fault. *)
Definition faulty_backend : Supabase.Client := fun op =>
  match op with
  | Supabase.from_select_limit _ =>
      Returned {| Supabase.data := Supabase.data_null;
                  Supabase.error := Some {| Supabase.message := Some "Database error querying schema";
                                            Supabase.code := Some "XX000" |} |}
  | _ => Returned {| Supabase.data := Supabase.data_session; Supabase.error := None |}
  end.

(** A reachable backend whose [user_profiles] table has not been created. *)
Definition schemaless_backend : Supabase.Client := fun op =>
  match op with
  | Supabase.from_select_limit _ =>
      Returned {| Supabase.data := Supabase.data_null;
                  Supabase.error := Some {| Supabase.message :=
                                              Some "relation public.user_profiles does not exist";
                                            Supabase.code := Some "42P01" |} |}
  | _ => Returned {| Supabase.data := Supabase.data_session; Supabase.error := None |}
  end.

Definition empty_database : Migration.Database := {|
  Migration.auth_users := ["u-ann"];
  Migration.user_progress_stats := [];
  Migration.warnings := []
|}.

(** ** [SupabaseConnectionAlert]: the banner that shows the connection state *)

Module Alert.

(** What the component renders when it renders the banner. *)
Record Banner : Type := {
  text : string;               (* [{error}] *)
  retry_disabled : bool;       (* [disabled={connectionStatus === 'checking'}] *)
  retry_label : string
}.

(** [!error]: [null] and the empty string are falsy. *)
Definition no_error (e : option string) : bool :=
  match e with
  | Some m => String.eqb m ""
  | None => true
  end.

(** The component, as a function of the context value: [None] is [return null]. *)
Definition SupabaseConnectionAlert (s : State) : option Banner :=
  if bool_decide (connectionStatus s = connected) || no_error (error s) then None
  else Some {| text := default "" (error s);
               retry_disabled := bool_decide (connectionStatus s = checking);
               retry_label := if bool_decide (connectionStatus s = checking)
                              then "Checking..." else "Retry" |}.

End Alert.

(** ** [DashboardLayout]: theme, sidebar, page title, sign-out button *)

Module Dashboard.

(** The five [useState] cells of the layout. *)
Record Layout : Type := {
  sidebarOpen : bool;
  sidebarCollapsed : bool;
  profileDropdownOpen : bool;
  isMobile : bool;
  isDarkMode : bool
}.

Definition initialLayout : Layout := {|
  sidebarOpen := false; sidebarCollapsed := false; profileDropdownOpen := false;
  isMobile := false; isDarkMode := true
|}.

(** The layout together with what its handlers read and write in the browser. *)
Record Page : Type := {
  layout : Layout;
  storage : gmap string string;       (* [localStorage] *)
  darkClass : bool;                   (* ['dark'] in [document.documentElement.classList] *)
  href : string                       (* [window.location.href] *)
}.

Definition setIsDarkMode (v : bool) (p : Page) : Page :=
  {| layout := {| sidebarOpen := sidebarOpen (layout p);
                  sidebarCollapsed := sidebarCollapsed (layout p);
                  profileDropdownOpen := profileDropdownOpen (layout p);
                  isMobile := isMobile (layout p);
                  isDarkMode := v |};
     storage := storage p; darkClass := darkClass p; href := href p |}.

Definition setDarkClass (v : bool) (p : Page) : Page :=
  {| layout := layout p; storage := storage p; darkClass := v; href := href p |}.

Definition setItem (k v : string) (p : Page) : Page :=
  {| layout := layout p; storage := <[k := v]> (storage p);
     darkClass := darkClass p; href := href p |}.

Definition setSidebarCollapsed (v : bool) (p : Page) : Page :=
  {| layout := {| sidebarOpen := sidebarOpen (layout p);
                  sidebarCollapsed := v;
                  profileDropdownOpen := profileDropdownOpen (layout p);
                  isMobile := isMobile (layout p);
                  isDarkMode := isDarkMode (layout p) |};
     storage := storage p; darkClass := darkClass p; href := href p |}.

(** [JSON.stringify] of a boolean. *)
Definition JSON_stringify (b : bool) : string := if b then "true" else "false".

(** [JSON.parse] on the two texts [JSON.stringify] gives for a boolean, which
    are all the layout ever stores under ['sidebarCollapsed'].  On any other
    text [JSON.parse] throws or gives a value that is no boolean: such a stored
    entry is outside this model ([None]). *)
Definition JSON_parse (text : string) : option bool :=
  if String.eqb text "true" then Some true
  else if String.eqb text "false" then Some false
  else None.

(** The sidebar half of the mount effect. *)
Definition loadSidebar (p : Page) : option Page :=
  match storage p !! "sidebarCollapsed" with
  | Some savedCollapsedState =>
      match JSON_parse savedCollapsedState with
      | Some collapsed => Some (setSidebarCollapsed collapsed p)
      | None => None
      end
  | None => Some p                       (* [savedCollapsedState !== null] fails *)
  end.

(** The theme half of the mount effect: a saved theme (a non-empty string)
    decides; without one the ['dark'] class is added. *)
Definition loadTheme (p : Page) : Page :=
  match storage p !! "theme" with
  | Some savedTheme =>
      if String.eqb savedTheme "" then setDarkClass true p
      else setDarkClass (String.eqb savedTheme "dark")
             (setIsDarkMode (String.eqb savedTheme "dark") p)
  | None => setDarkClass true p
  end.

(** The effect that depends on [sidebarCollapsed], closed over the layout [r]
    of the render it belongs to. *)
Definition saveSidebar (r : Layout) (p : Page) : Page :=
  setItem "sidebarCollapsed" (JSON_stringify (sidebarCollapsed r)) p.

(** [handleThemeToggle], closed over the layout [r] of the render it was made in. *)
Definition handleThemeToggle (r : Layout) (p : Page) : Page :=
  let newTheme := if isDarkMode r then "light" else "dark" in
  setDarkClass (String.eqb newTheme "dark")
    (setItem "theme" newTheme
       (setIsDarkMode (negb (isDarkMode r)) p)).

(** [handleSidebarToggle], closed over the layout [r] of its render. *)
Definition handleSidebarToggle (r : Layout) (p : Page) : Page :=
  setSidebarCollapsed (negb (sidebarCollapsed r)) p.

(** The render that follows a handler or an effect that ran under the layout
    [r]: the effect on [sidebarCollapsed] runs again when that cell changed. *)
Definition rerender (r : Layout) (p : Page) : Page :=
  if Bool.eqb (sidebarCollapsed (layout p)) (sidebarCollapsed r) then p
  else saveSidebar (layout p) p.

(** What the user can click, as far as theme and sidebar go. *)
Inductive Click : Type :=
| ThemeToggle
| SidebarToggle.

(** A click: the handler of the latest render runs, then the page renders again. *)
Definition click (p : Page) (c : Click) : Page :=
  match c with
  | ThemeToggle => rerender (layout p) (handleThemeToggle (layout p) p)
  | SidebarToggle => rerender (layout p) (handleSidebarToggle (layout p) p)
  end.

(** The page as [DashboardLayout] mounts on it, as far as theme and sidebar go:
    the first render with fresh state cells, the mount effect, the effect on
    [sidebarCollapsed] (every effect runs after the first render, in the order
    of the source, with the first render's cells), then the next render.  The
    other effects (screen size, closing the mobile sidebar, clicks outside the
    dropdown) touch neither these cells nor these stored entries. *)
Definition mount (p : Page) : option Page :=
  let first := {| layout := initialLayout; storage := storage p;
                  darkClass := darkClass p; href := href p |} in
  match loadSidebar first with
  | Some loaded =>
      Some (rerender initialLayout (saveSidebar initialLayout (loadTheme loaded)))
  | None => None
  end.

(** A series of clicks. *)
Definition clicks (cs : list Click) (p : Page) : Page := foldl click p cs.

(** *** The navigation tables and [getPageTitle] *)

Record NavItem : Type := { name : string; item_href : string; icon : string }.

Definition navigationItems : list NavItem := [
  {| name := "Dashboard"; item_href := "/dashboard"; icon := "📊" |};
  {| name := "AI Tutor"; item_href := "/dashboard/ai-tutor"; icon := "🤖" |};
  {| name := "Progress"; item_href := "/dashboard/progress"; icon := "📈" |};
  {| name := "Study Materials"; item_href := "/dashboard/materials"; icon := "📚" |};
  {| name := "Tests & Quizzes"; item_href := "/dashboard/tests"; icon := "📝" |}
].

Definition settingsMenuItems : list NavItem := [
  {| name := "Profile Information"; item_href := "/dashboard/settings/profile"; icon := "👤" |};
  {| name := "Plan & Billing"; item_href := "/dashboard/settings/billing"; icon := "💳" |};
  {| name := "Notifications"; item_href := "/dashboard/settings/notifications"; icon := "🔔" |};
  {| name := "Account Actions"; item_href := "/dashboard/settings/account"; icon := "⚙️" |}
].

(** [item.active], i.e. [currentPath === item.href] *)
Definition active (currentPath : string) (item : NavItem) : bool :=
  String.eqb currentPath (item_href item).

(** [Array.prototype.find] *)
Fixpoint find_item (f : NavItem -> bool) (items : list NavItem) : option NavItem :=
  match items with
  | [] => None
  | item :: rest => if f item then Some item else find_item f rest
  end.

Definition getPageTitle (currentPath : string) : string :=
  let item := find_item (active currentPath) navigationItems in
  if String.prefix "/dashboard/settings" currentPath then
    if String.eqb currentPath "/dashboard/settings/profile" then "Profile Information"
    else if String.eqb currentPath "/dashboard/settings/billing" then "Plan & Billing"
    else if String.eqb currentPath "/dashboard/settings/notifications" then "Notifications"
    else if String.eqb currentPath "/dashboard/settings/account" then "Account Actions"
    else "Settings"
  else match item with
       | Some i => name i
       | None => "Dashboard"
       end.

(** *** [handleSignOut]

    The sign-out button of the layout: it awaits the orchestrator's [signOut]
    and then leaves for the landing page; a failure is logged. *)
Definition handleSignOut (svc : Services) (w : World) (here : string)
  : Result unit * World * string :=
  match signOut svc w with
  | (Returned _, w') => (Returned tt, w', "/")
  | (Threw _, w') => (Returned tt, (log "Sign out error:" w').2, here)
  end.

End Dashboard.

(** ** Start-up of the Supabase client module *)

Module SupabaseInit.

(** [import.meta.env.X || ''] *)
Definition env_or_empty (v : option string) : string := default "" v.

(** [supabaseUrl && supabaseAnonKey && !supabaseUrl.includes('your-project')
     && !supabaseAnonKey.includes('your-anon-key')], read as a condition. *)
Definition hasValidConfig (supabaseUrl supabaseAnonKey : string) : bool :=
  negb (String.eqb supabaseUrl "") && negb (String.eqb supabaseAnonKey "")
  && negb (includes "your-project" supabaseUrl)
  && negb (includes "your-anon-key" supabaseAnonKey).

(** The client bound to [supabase]: the one [createClient] returned, or the
    mock client. *)
Inductive Bound : Type :=
| real (client : Supabase.Client)
| mock.

Definition client_of (b : Bound) : Supabase.Client :=
  match b with
  | real client => client
  | mock => Supabase.createMockClient
  end.

(** The module's two exported bindings, and whether the development probe has
    been scheduled ([setTimeout(testConnection, 1000)]).  Console output is
    left out. *)
Record ModuleState : Type := {
  supabase : option Bound;           (* [None]: not yet assigned *)
  isUsingMockClient : bool;
  probe_scheduled : bool
}.

(** [supabase = createMockClient()]: the call also sets the flag. *)
Definition installMock (m : ModuleState) : ModuleState := {|
  supabase := Some mock;
  isUsingMockClient := true;
  probe_scheduled := probe_scheduled m
|}.

(** The top-level statements of the module.  [created] is how
    [createClient(url, key, options)] ends; [DEV] is [import.meta.env.DEV]. *)
Definition initialise (VITE_SUPABASE_URL VITE_SUPABASE_ANON_KEY : option string)
    (DEV : bool) (created : Result Supabase.Client) : ModuleState :=
  let start := {| supabase := None; isUsingMockClient := false;
                  probe_scheduled := false |} in
  if negb (hasValidConfig (env_or_empty VITE_SUPABASE_URL)
                          (env_or_empty VITE_SUPABASE_ANON_KEY)) then
    installMock start
  else
    match created with
    | Returned client =>
        {| supabase := Some (real client); isUsingMockClient := false;
           probe_scheduled := DEV |}
    | Threw _ => installMock start
    end.

(** [testConnection], the scheduled development probe: it runs one second
    later, on the client bound to [supabase] then. *)
Definition testConnection (m : ModuleState) : ModuleState :=
  match supabase m with
  | None => m
  | Some b =>
      match Supabase.testSupabaseConnection (client_of b) with
      | Returned true => m
      | Returned false => installMock m          (* [if (!isConnected)] *)
      | Threw _ => installMock m                 (* [catch (error)] *)
      end
  end.

(** The module once its start-up has settled: the probe runs if scheduled. *)
Definition settled (VITE_SUPABASE_URL VITE_SUPABASE_ANON_KEY : option string)
    (DEV : bool) (created : Result Supabase.Client) : ModuleState :=
  let m := initialise VITE_SUPABASE_URL VITE_SUPABASE_ANON_KEY DEV created in
  if probe_scheduled m then testConnection m else m.

End SupabaseInit.

(** ** The profile triggers of the schema migration

    The tables and the trigger functions [handle_new_user] and
    [create_user_database_on_profile_update] as [20250624212716_golden_cave.sql]
    creates them, beside [initialize_user_progress] above.  A row-level
    [BEFORE UPDATE] trigger sets [updated_at = now()] on every update of the
    two tables, which is the value the updates below write as well. *)

Module Schema.

(** A row of [user_profiles]. *)
Record profile_row : Type := {
  prof_id : string;                         (* uuid PRIMARY KEY REFERENCES auth.users(id) *)
  prof_first_name : string;                 (* text NOT NULL DEFAULT '' *)
  prof_last_name : string;
  prof_grade : string;
  prof_board : option string;
  prof_area : option string;
  prof_profile_picture_url : option string;
  prof_subject_group : option string;
  prof_subjects : option (list string);     (* text[] DEFAULT '{}' *)
  prof_created_at : string;
  prof_updated_at : string
}.

(** A row of [user_databases]. *)
Record database_row : Type := {
  udb_id : string;                          (* uuid PRIMARY KEY DEFAULT gen_random_uuid() *)
  udb_user_id : string;                     (* uuid UNIQUE NOT NULL REFERENCES auth.users(id) *)
  udb_database_name : string;
  udb_grade : string;
  udb_board : option string;
  udb_subject_group : option string;
  udb_subjects : option (list string);
  udb_created_at : string;
  udb_updated_at : string
}.

(** The store: [auth.users], the progress table and the warnings of
    [Migration.Database], with the two tables the profile triggers write. *)
Record Database : Type := {
  base : Migration.Database;
  user_profiles : list profile_row;
  user_databases : list database_row
}.

(** [RAISE WARNING] *)
Definition warn (line : string) (db : Migration.Database) : Migration.Database := {|
  Migration.auth_users := Migration.auth_users db;
  Migration.user_progress_stats := Migration.user_progress_stats db;
  Migration.warnings := Migration.warnings db ++ [line]
|}.

(** How a statement on this store ends. *)
Inductive Sql : Type :=
| Done (db : Database)
| Raise (condition : string).

(** [COALESCE(NEW.raw_user_meta_data->>key, '')]; the metadata is given by the
    text of its top-level keys. *)
Definition meta_text (raw_user_meta_data : gmap string string) (key : string) : string :=
  default "" (raw_user_meta_data !! key).

(** [INSERT INTO public.user_profiles (id, first_name, last_name, grade) VALUES (...)],
    with the function [after_insert] that the trigger
    [initialize_user_progress_trigger] runs [AFTER INSERT] for the new row. *)
Definition insert_profile
    (after_insert : string -> string -> string -> Migration.Database -> Migration.Database)
    (gen_random_uuid now NEW_id : string)
    (raw_user_meta_data : gmap string string) (db : Database) : Sql :=
  if bool_decide (NEW_id ∈ prof_id <$> user_profiles db) then
    Raise "unique_violation"                            (* id uuid PRIMARY KEY *)
  else if bool_decide (NEW_id ∈ Migration.auth_users (base db)) then
    Done {| base := after_insert gen_random_uuid now NEW_id (base db);
            user_profiles :=
              user_profiles db ++
              [ {| prof_id := NEW_id;
                   prof_first_name := meta_text raw_user_meta_data "first_name";
                   prof_last_name := meta_text raw_user_meta_data "last_name";
                   prof_grade := meta_text raw_user_meta_data "grade";
                   prof_board := None; prof_area := None;
                   prof_profile_picture_url := None; prof_subject_group := None;
                   prof_subjects := Some [];
                   prof_created_at := now; prof_updated_at := now |} ];
            user_databases := user_databases db |}
  else
    Raise "foreign_key_violation".                      (* REFERENCES auth.users(id) *)

(** The trigger function [handle_new_user], run for a new [auth.users] row:
    [BEGIN INSERT ...; RETURN NEW; EXCEPTION WHEN OTHERS THEN RAISE WARNING ...; RETURN NEW; END].
    The name of the condition stands for the text of [SQLERRM]. *)
Definition handle_new_user (gen_random_uuid now NEW_id : string)
    (raw_user_meta_data : gmap string string) (db : Database) : Database :=
  match insert_profile Migration.initialize_user_progress
          gen_random_uuid now NEW_id raw_user_meta_data db with
  | Done db' => db'
  | Raise condition =>
      {| base := warn ("Failed to create user profile: " +:+ condition) (base db);
         user_profiles := user_profiles db;
         user_databases := user_databases db |}
  end.

(** [replace(text, '-', '_')]: every occurrence of the one character. *)
Fixpoint replace_char (from to : Ascii.ascii) (s : string) : string :=
  match s with
  | EmptyString => EmptyString
  | String c rest =>
      String (if Ascii.eqb c from then to else c) (replace_char from to rest)
  end.

Definition hyphen : Ascii.ascii := Ascii.ascii_of_nat 45.        (* '-' *)
Definition underscore : Ascii.ascii := Ascii.ascii_of_nat 95.    (* '_' *)

(** ['user_' || replace(NEW.id::text, '-', '_') || '_db'] *)
Definition database_name (NEW_id : string) : string :=
  "user_" +:+ replace_char hyphen underscore NEW_id +:+ "_db".

(** [ON CONFLICT (user_id) DO UPDATE SET grade = NEW.grade, board = NEW.board,
     subject_group = NEW.subject_group, subjects = NEW.subjects, updated_at = now()] *)
Definition do_update (now : string) (NEW : profile_row) (r : database_row) : database_row :=
  if bool_decide (udb_user_id r = prof_id NEW) then
    {| udb_id := udb_id r; udb_user_id := udb_user_id r;
       udb_database_name := udb_database_name r;
       udb_grade := prof_grade NEW; udb_board := prof_board NEW;
       udb_subject_group := prof_subject_group NEW; udb_subjects := prof_subjects NEW;
       udb_created_at := udb_created_at r; udb_updated_at := now |}
  else r.

(** [INSERT INTO public.user_databases (...) VALUES (...) ON CONFLICT (user_id) DO UPDATE ...] *)
Definition upsert_user_database (gen_random_uuid now : string) (NEW : profile_row)
    (db : Database) : Sql :=
  if bool_decide (prof_id NEW ∈ udb_user_id <$> user_databases db) then
    Done {| base := base db; user_profiles := user_profiles db;
            user_databases := do_update now NEW <$> user_databases db |}
  else if bool_decide (gen_random_uuid ∈ udb_id <$> user_databases db) then
    Raise "unique_violation"
  else if bool_decide (prof_id NEW ∈ Migration.auth_users (base db)) then
    Done {| base := base db; user_profiles := user_profiles db;
            user_databases :=
              user_databases db ++
              [ {| udb_id := gen_random_uuid; udb_user_id := prof_id NEW;
                   udb_database_name := database_name (prof_id NEW);
                   udb_grade := prof_grade NEW; udb_board := prof_board NEW;
                   udb_subject_group := prof_subject_group NEW;
                   udb_subjects := prof_subjects NEW;
                   udb_created_at := now; udb_updated_at := now |} ] |}
  else
    Raise "foreign_key_violation".

(** The trigger function [create_user_database_on_profile_update], run after an
    update of the profile row [NEW]. *)
Definition create_user_database_on_profile_update (gen_random_uuid now : string)
    (NEW : profile_row) (db : Database) : Database :=
  (* Only create database if grade is set and database doesn't exist *)
  if negb (String.eqb (prof_grade NEW) "") then
    match upsert_user_database gen_random_uuid now NEW db with
    | Done db' => db'
    | Raise condition =>
        {| base := warn ("Failed to create user database: " +:+ condition) (base db);
           user_profiles := user_profiles db;
           user_databases := user_databases db |}
    end
  else db.

(** The [UNIQUE] constraint on [user_databases.user_id]. *)
Definition unique_database_user (db : Database) : Prop :=
  NoDup (udb_user_id <$> user_databases db).

(** The database rows of one user. *)
Definition databases_of (uid : string) (db : Database) : list database_row :=
  filter (fun r => udb_user_id r = uid) (user_databases db).

(** The profile rows of one user. *)
Definition profiles_of (uid : string) (db : Database) : list profile_row :=
  filter (fun r => prof_id r = uid) (user_profiles db).

End Schema.

(** ** The triggers as the later migration re-creates them

    [20250624212849_summer_morning.sql] drops the tables and the three trigger
    functions and creates them again: the tables and triggers as before, the
    functions with a block of their own around each statement. *)

Module SummerMorning.

Import Schema.

(** [initialize_user_progress] *)
Definition initialize_user_progress (gen_random_uuid now NEW_id : string)
    (db : Migration.Database) : Migration.Database :=
  match Migration.insert_on_conflict_do_nothing gen_random_uuid now NEW_id db with
  | Migration.Done db' => db'
  | Migration.Raise condition =>
      warn ("Failed to initialize user progress for user " +:+ NEW_id +:+ ": "
            +:+ condition) db
  end.

(** [create_user_database_on_profile_update] *)
Definition create_user_database_on_profile_update (gen_random_uuid now : string)
    (NEW : profile_row) (db : Database) : Database :=
  if negb (String.eqb (prof_grade NEW) "") then
    match upsert_user_database gen_random_uuid now NEW db with
    | Done db' => db'
    | Raise condition =>
        {| base := warn ("Failed to create user database for user " +:+ prof_id NEW
                         +:+ ": " +:+ condition) (base db);
           user_profiles := user_profiles db;
           user_databases := user_databases db |}
    end
  else db.

(** [COALESCE(NEW.raw_user_meta_data->>key, column)] *)
Definition meta_or (raw_user_meta_data : gmap string string) (key column : string)
  : string :=
  default column (raw_user_meta_data !! key).

(** The [SET] list of the update below, on the row [r]. *)
Definition set_names_and_grade (now : string) (raw_user_meta_data : gmap string string)
    (r : profile_row) : profile_row := {|
  prof_id := prof_id r;
  prof_first_name := meta_or raw_user_meta_data "first_name" (prof_first_name r);
  prof_last_name := meta_or raw_user_meta_data "last_name" (prof_last_name r);
  prof_grade := meta_or raw_user_meta_data "grade" (prof_grade r);
  prof_board := prof_board r; prof_area := prof_area r;
  prof_profile_picture_url := prof_profile_picture_url r;
  prof_subject_group := prof_subject_group r;
  prof_subjects := prof_subjects r;
  prof_created_at := prof_created_at r;
  prof_updated_at := now
|}.

(** [UPDATE public.user_profiles SET ... WHERE id = NEW.id], with the trigger
    [create_user_database_trigger] that runs [AFTER UPDATE] for each updated
    row.  (The primary key leaves at most one such row, so that at most one
    row id is generated.) *)
Definition update_profile (gen_random_uuid now NEW_id : string)
    (raw_user_meta_data : gmap string string) (db : Database) : Database :=
  let updated :=
    (fun r => if bool_decide (prof_id r = NEW_id)
              then set_names_and_grade now raw_user_meta_data r else r)
      <$> user_profiles db in
  foldl (fun db NEW => create_user_database_on_profile_update gen_random_uuid now NEW db)
        {| base := base db; user_profiles := updated;
           user_databases := user_databases db |}
        (filter (fun r => prof_id r = NEW_id) updated).

(** [handle_new_user]:
    [BEGIN BEGIN INSERT ...; EXCEPTION WHEN unique_violation THEN UPDATE ...;
     WHEN OTHERS THEN RAISE WARNING ...; END; RETURN NEW; END] *)
Definition handle_new_user (gen_random_uuid now NEW_id : string)
    (raw_user_meta_data : gmap string string) (db : Database) : Database :=
  match insert_profile initialize_user_progress
          gen_random_uuid now NEW_id raw_user_meta_data db with
  | Done db' => db'
  | Raise condition =>
      if String.eqb condition "unique_violation" then
        (* Profile already exists, update it instead *)
        update_profile gen_random_uuid now NEW_id raw_user_meta_data db
      else
        {| base := warn ("Failed to create user profile for user " +:+ NEW_id +:+ ": "
                         +:+ condition) (base db);
           user_profiles := user_profiles db;
           user_databases := user_databases db |}
  end.

End SummerMorning.

(** *** More vocabulary and concrete values *)

(** The theme a mount would choose from what is stored: dark unless a
    non-empty saved theme other than ['dark'] is found. *)
Definition saved_dark (storage : gmap string string) : bool :=
  match storage !! "theme" with
  | Some savedTheme => if String.eqb savedTheme "" then true else String.eqb savedTheme "dark"
  | None => true
  end.

(** The sidebar state a mount would restore from what is stored. *)
Definition saved_collapsed (storage : gmap string string) : bool :=
  bool_decide (storage !! "sidebarCollapsed" = Some "true").

(** The stored sidebar entry is absent, or what the layout itself stores. *)
Definition stored_sidebar_ok (storage : gmap string string) : Prop :=
  storage !! "sidebarCollapsed" = None
  \/ exists b, storage !! "sidebarCollapsed" = Some (Dashboard.JSON_stringify b).

(** What the layout keeps true of the page it is mounted on: the theme cell,
    the ['dark'] class and the two stored entries agree. *)
Definition page_in_sync (p : Dashboard.Page) : Prop :=
  Dashboard.isDarkMode (Dashboard.layout p) = saved_dark (Dashboard.storage p)
  /\ Dashboard.darkClass p = Dashboard.isDarkMode (Dashboard.layout p)
  /\ Dashboard.storage p !! "sidebarCollapsed"
     = Some (Dashboard.JSON_stringify (Dashboard.sidebarCollapsed (Dashboard.layout p))).

(** The value of a cell that starts at [b] and is inverted by each of the
    clicks [cs] that [which] selects. *)
Definition flips (which : Dashboard.Click -> bool) (cs : list Dashboard.Click) (b : bool)
  : bool :=
  foldl (fun b c => if which c then negb b else b) b cs.

Definition is_theme_click (c : Dashboard.Click) : bool :=
  match c with Dashboard.ThemeToggle => true | Dashboard.SidebarToggle => false end.

Definition is_sidebar_click (c : Dashboard.Click) : bool :=
  match c with Dashboard.SidebarToggle => true | Dashboard.ThemeToggle => false end.

(** Events whose handlers never put a message in [error]: all but a failed
    profile load and a failed startup session check. *)
Definition sets_no_error (ev : Event) : bool :=
  match ev with
  | ProfileLoadSettles (Threw _) => false
  | SessionCheckSettles _ (Threw _) => false
  | _ => true
  end.

(** A sign-in rejected by the identity provider. *)
Definition invalidCredentials : Thrown := ErrorObj "AuthApiError" "Invalid login credentials".

(** Services that work, for a user who mistypes the password. *)
Definition svc_wrong_password : Services := {|
  AuthService_getCurrentUser := Returned None;
  AuthService_getUserProfile := fun _ => Returned None;
  AuthService_signUp := fun _ => Returned tt;
  AuthService_signIn := fun _ => Threw invalidCredentials;
  AuthService_signOut := Returned tt;
  AuthService_updateUserProfile := fun _ _ _ => Returned None;
  ProgressService_getUserProgress := fun _ => Returned None;
  ProgressService_getSubjectProgress := fun _ => Returned [];
  ProgressService_recordStudySession := fun _ _ _ _ _ => Returned tt;
  ProgressService_initializeUserProgress := fun _ => Returned tt;
  ProgressService_initializeSubjects := fun _ => Returned tt;
  SubjectGroupService_getUserSubjectGroup := fun _ => Returned None
|}.

(** The metadata Ann signs up with. *)
Definition ann_meta : gmap string string := {[ "first_name" := "Ann"; "grade" := "10" ]}.

(** A store in which Ann exists in [auth.users] and nothing else is stored. *)
Definition fresh_store : Schema.Database := {|
  Schema.base := empty_database;
  Schema.user_profiles := [];
  Schema.user_databases := []
|}.

(** Ann's profile row after she has completed it. *)
Definition ann_row : Schema.profile_row := {|
  Schema.prof_id := "u-ann"; Schema.prof_first_name := "Ann"; Schema.prof_last_name := "";
  Schema.prof_grade := "10"; Schema.prof_board := Some "CBSE"; Schema.prof_area := None;
  Schema.prof_profile_picture_url := None; Schema.prof_subject_group := None;
  Schema.prof_subjects := Some []; Schema.prof_created_at := "t0";
  Schema.prof_updated_at := "t1"
|}.

(** Metadata that carries a grade only. *)
Definition grade_meta : gmap string string := {[ "grade" := "11" ]}.

(** A store in which Ann has her profile row. *)
Definition ann_store : Schema.Database := {|
  Schema.base := empty_database;
  Schema.user_profiles := [ann_row];
  Schema.user_databases := []
|}.

(** A page of a browser that has stored nothing yet. *)
Definition blank_page : Dashboard.Page := {|
  Dashboard.layout := Dashboard.initialLayout;
  Dashboard.storage := ∅;
  Dashboard.darkClass := false;
  Dashboard.href := "/dashboard"
|}.

(** * Properties *)

(** ** Running the code symbolically *)

Ltac unfold_m :=
  cbv [mbind M_bind bind mret M_ret ret throw try_catch try_finally await issue settle
       modify log localStorage_update localStorage_getItem localStorage_setItem
       localStorage_removeItem sessionCheck_update isNewUserFlag clearTimeout
       setUser setProfile setProgressStats setSubjectProgress setSession setLoading
       setError setIsNewUser setHasSubjectGroup setConnectionStatus
       fst snd st localStorage backend console sessionCheck
       user profile progressStats subjectProgress session loading error isNewUser
       hasSubjectGroup connectionStatus].

Lemma handleSupabaseError_run e context w :
  handleSupabaseError e context w =
  (Returned tt,
   {| st := with_error e context (st w); localStorage := localStorage w;
      backend := backend w; console := (console w ++ [context +:+ " error:"])%list;
      sessionCheck := sessionCheck w |}).
Proof.
  destruct w as [[] ? ? ? ?].
  unfold handleSupabaseError, with_error, surfaced, escalates, names_connection_failure,
    mentions_network_failure, mentions_backend_fault.
  unfold_m.
  destruct (name_is e "SupabaseConnectionError" || name_is e "SupabaseTimeoutError");
    cbn; [reflexivity|].
  destruct (message_includes e "Failed to fetch" || message_includes e "NetworkError"
            || message_includes e "Connection timeout"
            || message_includes e "fetch is not defined");
    cbn; [reflexivity|].
  destruct (message_includes e "Database error saving new user"
            || message_includes e "unexpected_failure");
    cbn; [reflexivity|].
  reflexivity.
Qed.

#[local] Arguments handleSupabaseError : simpl never.

(** One step of symbolic execution: use the equation of [handleSupabaseError],
    or split on how a service call settles, or on a condition. *)
Ltac step_m :=
  match goal with
  | |- context [handleSupabaseError ?e ?c ?w] => rewrite (handleSupabaseError_run e c w)
  | |- context [match ?x with Returned _ => _ | Threw _ => _ end] => destruct x eqn:?
  | |- context [if ?b then _ else _] => destruct b eqn:?
  end;
  cbv [with_error fst snd st localStorage backend console sessionCheck
       user profile progressStats subjectProgress session loading error isNewUser
       hasSubjectGroup connectionStatus].

(** Records are opened before the code is run, so that projections compute. *)
Ltac open_world w := destruct w as [[] ? ? ? ?].
Ltac open_state r := destruct r; cbn in *; subst.

(** An error that carries a message is never surfaced as [null]. *)
Lemma surfaced_is_Some e context :
  is_Some (message_of e) -> is_Some (surfaced e context).
Proof.
  intros Hm. unfold surfaced.
  repeat match goal with |- context [if ?b then _ else _] => destruct b end; eauto.
Qed.

Lemma or_else_spec update prior :
  or_else update (or_else prior "") = required_field_spec update prior.
Proof.
  unfold or_else, required_field_spec.
  destruct update as [u|], prior as [p|]; cbn;
    repeat match goal with
           | |- context [String.eqb ?a ?b] => destruct (String.eqb_spec a b)
           | |- context [decide ?P] => destruct (decide P)
           end; congruence.
Qed.

Lemma or_else_prior_nonempty update p :
  p <> "" -> or_else update (or_else (Some p) "") <> "".
Proof.
  intros Hp. unfold or_else.
  destruct update as [u|];
    repeat match goal with
           | |- context [String.eqb ?a ?b] => destruct (String.eqb_spec a b)
           end; congruence.
Qed.

(** The loaders cut at their [await]s compose to the loaders. *)
Lemma loadUserProfile_pieces svc userId w :
  loadUserProfile svc userId w
  = (loadUserProfile_begin userId;;
     loadUserProfile_settle (AuthService_getUserProfile svc userId)) w.
Proof.
  open_world w.
  unfold loadUserProfile, loadUserProfile_begin, loadUserProfile_settle. unfold_m.
  destruct (AuthService_getUserProfile svc userId); [reflexivity|].
  now rewrite !handleSupabaseError_run.
Qed.

Lemma loadUserProgress_pieces svc userId w :
  loadUserProgress svc userId w
  = (loadUserProgress_begin userId;;
     loadUserProgress_settle_stats userId (ProgressService_getUserProgress svc userId);;
     match ProgressService_getUserProgress svc userId with
     | Returned _ =>
         loadUserProgress_settle_subjects (ProgressService_getSubjectProgress svc userId)
     | Threw _ => mret tt
     end) w.
Proof.
  open_world w.
  unfold loadUserProgress, loadUserProgress_begin, loadUserProgress_settle_stats,
    loadUserProgress_settle_subjects. unfold_m.
  destruct (ProgressService_getUserProgress svc userId); [|reflexivity].
  destruct (ProgressService_getSubjectProgress svc userId); reflexivity.
Qed.

Lemma checkSubjectGroupSelection_pieces svc userId w :
  checkSubjectGroupSelection svc userId w
  = (checkSubjectGroupSelection_begin userId;;
     checkSubjectGroupSelection_settle
       (SubjectGroupService_getUserSubjectGroup svc userId)) w.
Proof.
  open_world w.
  unfold checkSubjectGroupSelection, checkSubjectGroupSelection_begin,
    checkSubjectGroupSelection_settle. unfold_m.
  destruct (SubjectGroupService_getUserSubjectGroup svc userId); reflexivity.
Qed.

(** ** [updateProfile] *)

(** C3. Whatever the prior profile and the updates, [updateProfile] hands
    exactly one profile object to the backend, and in it [first_name],
    [last_name] and [grade] are each the update's value if non-empty, otherwise
    the prior profile's value if non-empty, otherwise the empty string; so a
    required field that had a non-empty prior value is never submitted empty. *)
Theorem updateProfile_submits_required_fields
    svc r u updates profilePicture w :
  user r = Some u ->
  let d := profileData (profile r) updates in
  submitted_profiles (backend (updateProfile svc r updates profilePicture w).2)
    = (submitted_profiles (backend w) ++ [d])%list
  /\ d_first_name d = required_field_spec (p_first_name updates) (first_name <$> profile r)
  /\ d_last_name d = required_field_spec (p_last_name updates) (last_name <$> profile r)
  /\ d_grade d = required_field_spec (p_grade updates) (grade <$> profile r)
  /\ (forall p, profile r = Some p ->
        (first_name p <> "" -> d_first_name d <> "")
        /\ (last_name p <> "" -> d_last_name d <> "")
        /\ (grade p <> "" -> d_grade d <> "")).
Proof.
  intros Hu d. split; [|split; [|split; [|split]]].
  - subst d. open_world w. open_state r.
    unfold updateProfile, loadUserProgress, checkSubjectGroupSelection. unfold_m.
    repeat step_m;
      unfold submitted_profiles; rewrite ?omap_app; cbn [omap list_omap app];
      rewrite ?app_nil_r; reflexivity.
  - apply or_else_spec.
  - apply or_else_spec.
  - apply or_else_spec.
  - intros p Hp. subst d. unfold profileData. cbn. rewrite Hp. cbn.
    repeat split; apply or_else_prior_nonempty.
Qed.

Lemma updateProfile_submits_required_fields_witness :
  user signed_in_state = Some ann
  /\ d_grade (profileData (profile signed_in_state) board_update) = "10"
  /\ d_first_name (profileData (profile signed_in_state) board_update) = "Ann".
Proof.
  split; [reflexivity|].
  destruct (updateProfile_submits_required_fields svc_ok signed_in_state ann board_update
              None signed_in_world eq_refl) as (_ & Hf & _ & Hg & _).
  split; [rewrite Hg | rewrite Hf]; reflexivity.
Defined.

(** C8. If the backend call of [updateProfile] fails, the stored profile is the
    one from before the call, the error is surfaced in the [error] field (never
    as [null] when the thrown value has a message), and the same exception is
    rethrown to the caller. *)
Theorem updateProfile_failure_keeps_profile
    svc r u updates profilePicture w e :
  user r = Some u ->
  AuthService_updateUserProfile svc (user_id u) (profileData (profile r) updates)
    profilePicture = Threw e ->
  (updateProfile svc r updates profilePicture w).1 = Threw e
  /\ profile (st (updateProfile svc r updates profilePicture w).2) = profile (st w)
  /\ error (st (updateProfile svc r updates profilePicture w).2)
     = surfaced e "Profile update"
  /\ (is_Some (message_of e) ->
      is_Some (error (st (updateProfile svc r updates profilePicture w).2))).
Proof.
  intros Hu Hfail.
  assert (Hrun : updateProfile svc r updates profilePicture w
                 = (Threw e,
                    {| st := with_error e "Profile update"
                               (st (setError None w).2);
                       localStorage := localStorage w;
                       backend := (backend w ++
                         [UpdateUserProfile (user_id u) (profileData (profile r) updates)
                            profilePicture])%list;
                       console := (console w ++ ["Profile update error:"])%list;
                       sessionCheck := sessionCheck w |})).
  { unfold updateProfile. rewrite Hu.
    cbv [mbind M_bind bind try_catch await issue settle setError modify].
    rewrite Hfail. unfold_m. rewrite handleSupabaseError_run. reflexivity. }
  rewrite Hrun. open_world w. cbn. repeat split; auto.
  intros Hm. now apply surfaced_is_Some.
Qed.

Lemma updateProfile_failure_keeps_profile_witness :
  (updateProfile svc_down signed_in_state no_updates None signed_in_world).1
    = Threw fetchError
  /\ profile (st (updateProfile svc_down signed_in_state no_updates None signed_in_world).2)
     = Some ann_profile
  /\ error (st (updateProfile svc_down signed_in_state no_updates None signed_in_world).2)
     = Some msg_cannot_connect.
Proof.
  destruct (updateProfile_failure_keeps_profile svc_down signed_in_state ann no_updates
              None signed_in_world fetchError eq_refl eq_refl) as (H1 & H2 & H3 & _).
  split; [exact H1|]. split; [exact H2|]. rewrite H3. reflexivity.
Defined.

(** X2. A failure after the upsert is another matter: for a new user whose progress
    initialisation fails, [updateProfile] also throws, but the profile has
    already been replaced. *)
Lemma updateProfile_late_failure_keeps_new_profile
    svc r u updates profilePicture w updated e :
  user r = Some u ->
  isNewUser r = true ->
  AuthService_updateUserProfile svc (user_id u) (profileData (profile r) updates)
    profilePicture = Returned updated ->
  ProgressService_initializeUserProgress svc (user_id u) = Threw e ->
  (updateProfile svc r updates profilePicture w).1 = Threw e
  /\ profile (st (updateProfile svc r updates profilePicture w).2) = updated.
Proof.
  intros Hu Hnew Hok Hfail.
  unfold updateProfile. rewrite Hu, Hnew.
  cbv [mbind M_bind bind try_catch await issue settle setError modify].
  rewrite Hok. unfold_m. rewrite Hfail. rewrite handleSupabaseError_run.
  open_world w. split; reflexivity.
Qed.

Lemma updateProfile_late_failure_keeps_new_profile_witness :
  (updateProfile svc_init_fails new_user_state no_updates None new_user_world).1
    = Threw permissionError
  /\ profile (st (updateProfile svc_init_fails new_user_state no_updates None
                    new_user_world).2)
     = Some ann_profile
  /\ profile (st new_user_world) = None.
Proof.
  destruct (updateProfile_late_failure_keeps_new_profile svc_init_fails new_user_state ann
              no_updates None new_user_world (Some ann_profile) permissionError
              eq_refl eq_refl eq_refl eq_refl) as [Hthrow Hprofile].
  split; [exact Hthrow|]. split; [exact Hprofile | reflexivity].
Defined.

(** ** Handlers called without a user *)

(** C10. With no user in the closed-over state, [recordStudySession] and
    [updateProfile] throw 'No user logged in' and leave the whole world as it
    was (every state cell, and no backend call issued); [refreshProgress] and
    [retryProfileLoad] return, leaving the world as it was. *)
Theorem no_user_no_effect
    svc r sessionType subject durationMinutes score updates profilePicture w :
  user r = None ->
  recordStudySession svc r sessionType subject durationMinutes score w
    = (Threw (newError "No user logged in"), w)
  /\ updateProfile svc r updates profilePicture w
     = (Threw (newError "No user logged in"), w)
  /\ refreshProgress svc r w = (Returned tt, w)
  /\ retryProfileLoad svc r w = (Returned tt, w).
Proof.
  intros Hu.
  unfold recordStudySession, updateProfile, refreshProgress, retryProfileLoad.
  rewrite Hu. repeat split.
Qed.

Lemma no_user_no_effect_witness :
  invoke (fun r => recordStudySession svc_ok r test "Math" 30 (Some 85%Z)) initialWorld
    = (Threw (ErrorObj "Error" "No user logged in"), initialWorld)
  /\ backend (invoke (fun r => updateProfile svc_ok r no_updates None) initialWorld).2 = []
  /\ invoke (retryProfileLoad svc_ok) initialWorld = (Returned tt, initialWorld).
Proof.
  destruct (no_user_no_effect svc_ok initialState test "Math" 30%Z (Some 85%Z) no_updates
              None initialWorld eq_refl) as (H1 & H2 & _ & H4).
  unfold invoke. cbn [st initialWorld].
  split; [exact H1|]. split; [rewrite H2; reflexivity | exact H4].
Defined.

(** ** The startup session check *)

(** C1, on the code.  The startup call stays pending past the 8 seconds, so the
    timer fires.  Its callback aborts a controller whose signal was given to no
    call: nothing is cancelled and no state cell changes.  The provider is
    still 'checking', without error and still loading, where the claim says
    disconnected, an error and [loading = false].  And where an [AbortError]
    does reach the timeout branch, that branch leaves out the [setUser(null)]
    of the catch block beside it: the user a notification has set meanwhile
    stays, while any other failure of the check clears it. *)
Theorem startup_timeout_is_not_enforced :
  let pending := run [SessionTimerFires] mountedWorld in
  (aborted (sessionCheck pending) = true
   /\ st pending = st mountedWorld
   /\ backend pending = backend mountedWorld
   /\ connectionStatus (st pending) = checking
   /\ error (st pending) = None
   /\ loading (st pending) = true)
  /\ timed_out abortError = true
  /\ user (st (run [AuthStateChange true "INITIAL_SESSION" (Some ann_session);
                    SessionCheckSettles true (Threw abortError)] mountedWorld))
     = Some ann
  /\ user (st (run [AuthStateChange true "INITIAL_SESSION" (Some ann_session);
                    SessionCheckSettles true (Threw fetchError)] mountedWorld))
     = None.
Proof. repeat split. Qed.

(** X24. The two ways a timeout can reach the startup check, with the provider
    mounted.  An [AbortError] takes the timeout branch of [getInitialSession]:
    disconnected, the 'Connection Timeout' message, [loading = false], and
    [user] left as it was (the [setUser(null)] of the catch block beside it is
    not made here).  The transport's timeout (the [SupabaseTimeoutError] the
    [fetch] wrapper makes of an aborted request) takes that catch block:
    disconnected, the wrapper's message, [loading = false] and [user] cleared.
    A run of [getInitialSession] from the initial state in which the call
    rejects with an [AbortError] ends disconnected, with the message, without
    user and not loading. *)
Theorem getInitialSession_timeout w e :
  timed_out e = true ->
  (let w' := (getInitialSession_settle true (Threw e) w).2 in
   connectionStatus (st w') = disconnected
   /\ error (st w') = Some msg_connection_timeout
   /\ msg_connection_timeout <> ""
   /\ loading (st w') = false
   /\ user (st w') = user (st w))
  /\ (let w' := (getInitialSession_settle true (Threw (Supabase.fetch_catch e)) w).2 in
      connectionStatus (st w') = disconnected
      /\ error (st w') = Some Supabase.msg_request_timeout
      /\ Supabase.msg_request_timeout <> ""
      /\ loading (st w') = false
      /\ user (st w') = None)
  /\ (forall svc,
        AuthService_getCurrentUser svc = Threw e ->
        let s' := st (getInitialSession svc true initialWorld).2 in
        connectionStatus s' = disconnected
        /\ error s' = Some msg_connection_timeout
        /\ user s' = None
        /\ loading s' = false).
Proof.
  intros Ht.
  assert (Hrun : forall w0,
            st (getInitialSession_settle true (Threw e) w0).2
            = st ((setConnectionStatus disconnected;;
                   setError (Some msg_connection_timeout);;
                   setLoading false) w0).2).
  { intros w0. open_world w0. unfold getInitialSession_settle, timed_out in *. unfold_m.
    rewrite Ht. reflexivity. }
  assert (Hwrapped : Supabase.fetch_catch e
                     = ErrorObj "SupabaseTimeoutError" Supabase.msg_request_timeout).
  { unfold Supabase.fetch_catch, timed_out in *.
    apply andb_true_iff in Ht as [_ Hname]. now rewrite Hname. }
  split; [|split].
  - cbn zeta. rewrite Hrun. open_world w. repeat split. discriminate.
  - rewrite Hwrapped. open_world w. unfold getInitialSession_settle. unfold_m.
    cbn [instanceofError name_is name_of andb String.eqb Ascii.eqb Bool.eqb].
    rewrite handleSupabaseError_run. repeat split. discriminate.
  - intros svc Hsvc.
    assert (Hstart : getInitialSession svc true initialWorld
                     = getInitialSession_settle true (Threw e) mountedWorld).
    { unfold getInitialSession. rewrite Hsvc. reflexivity. }
    cbn zeta. rewrite Hstart, Hrun. repeat split.
Qed.

Lemma getInitialSession_timeout_witness :
  timed_out abortError = true
  /\ connectionStatus (st (run [SessionCheckSettles true (Threw abortError)] mountedWorld))
     = disconnected
  /\ loading (st (run [SessionCheckSettles true (Threw abortError)] mountedWorld)) = false
  /\ user (st (getInitialSession_settle true (Threw (Supabase.fetch_catch abortError))
                 signed_in_world).2) = None
  /\ user (st (getInitialSession svc_aborted true initialWorld).2) = None.
Proof.
  split; [reflexivity|].
  destruct (getInitialSession_timeout mountedWorld abortError eq_refl)
    as ((Hc & _ & _ & Hl & _) & _ & Hstart).
  destruct (getInitialSession_timeout signed_in_world abortError eq_refl)
    as (_ & (_ & _ & _ & _ & Hcleared) & _).
  destruct (Hstart svc_aborted eq_refl) as (_ & _ & Hu & _).
  split; [exact Hc|]. split; [exact Hl|]. split; [exact Hcleared | exact Hu].
Defined.

(** X4. The other failures of the check reach [handleSupabaseError]: with the
    provider mounted, identity and cached data are cleared and the error is
    classified (a timeout raised by the transport, named
    [SupabaseTimeoutError], marks the connection disconnected). *)
Lemma getInitialSession_other_failure w e :
  timed_out e = false ->
  let s' := st (getInitialSession_settle true (Threw e) w).2 in
  user s' = None /\ profile s' = None /\ progressStats s' = None
  /\ subjectProgress s' = [] /\ hasSubjectGroup s' = false /\ loading s' = false
  /\ error s' = surfaced e "Initial session"
  /\ connectionStatus s'
     = (if escalates e then disconnected else connectionStatus (st w)).
Proof.
  intros Ht. open_world w. unfold getInitialSession_settle, timed_out in *. unfold_m.
  rewrite Ht. unfold_m. rewrite handleSupabaseError_run. cbn. repeat split.
Qed.

Lemma getInitialSession_other_failure_witness :
  timed_out fetchError = false
  /\ user (st (getInitialSession_settle true (Threw fetchError) signed_in_world).2) = None
  /\ connectionStatus
       (st (getInitialSession_settle true (Threw fetchError) signed_in_world).2)
     = disconnected.
Proof.
  split; [reflexivity|].
  destruct (getInitialSession_other_failure signed_in_world fetchError eq_refl)
    as (Hu & _ & _ & _ & _ & _ & _ & Hc).
  split; [exact Hu|]. rewrite Hc. reflexivity.
Defined.

(** The 8 second timer by itself changes no state cell: its callback aborts a
    controller whose signal is given to no one. *)
Lemma sessionTimer_fires_keeps_state w : st (sessionTimer_fires w).2 = st w.
Proof. reflexivity. Qed.

(** X3. The firing of the timer has no influence on the session check: from
    any state, and whatever the call then settles with, mounted or not, the
    state cells, the backend calls, [localStorage] and the console end as if
    the timer had not fired.  In particular a check that resolves without a
    user after the timer has fired ends connected, not loading and without
    user, with [error] as it was before. *)
Lemma session_check_settling_after_the_timer w mounted r :
  let late := run [SessionTimerFires; SessionCheckSettles mounted r] w in
  let plain := run [SessionCheckSettles mounted r] w in
  (st late = st plain /\ backend late = backend plain
   /\ localStorage late = localStorage plain /\ console late = console plain)
  /\ (let w' := run [SessionTimerFires; SessionCheckSettles true (Returned None)] w in
      connectionStatus (st w') = connected /\ loading (st w') = false
      /\ user (st w') = None /\ error (st w') = error (st w)).
Proof.
  open_world w. split; [|repeat split].
  unfold run, step, handle. cbn [foldl].
  unfold sessionTimer_fires, getInitialSession_settle, fanOut, loadUserProfile_begin,
    loadUserProgress_begin, checkSubjectGroupSelection_begin.
  unfold_m.
  repeat match goal with
         | |- context [timeoutId ?c] => destruct c as [[?|] ?]; cbn
         end.
  all: destruct mounted, r as [[u|]|e]; cbn; repeat split;
    repeat match goal with
           | |- context [if ?b then _ else _] => destruct b eqn:?; cbn
           end;
    rewrite ?handleSupabaseError_run; repeat split.
Qed.

(** ** [signOut] *)

(** C4, as stated, fails on the code: when the backend sign-out call fails
    (here: the backend cannot be reached), Ann stays signed in, her profile and
    session stay in the state, and the connection is not marked connected. *)
Lemma signOut_failure_keeps_identity :
  (signOut svc_down signed_in_world).1 = Threw fetchError
  /\ user (st (signOut svc_down signed_in_world).2) = Some ann
  /\ profile (st (signOut svc_down signed_in_world).2) = Some ann_profile
  /\ session (st (signOut svc_down signed_in_world).2) = Some ann_session
  /\ connectionStatus (st (signOut svc_down signed_in_world).2) = disconnected.
Proof. repeat split. Qed.

(** C4, amended. From every state, [signOut] clears the new-user flag (the state
    cell and the [localStorage] entry) and ends with [loading = false]; when the
    backend sign-out call succeeds it also clears user, session, profile,
    progress stats, subject progress, [hasSubjectGroup] and the error, and sets
    the connection status to connected; when that call fails, user, session,
    profile, progress stats, subject progress and [hasSubjectGroup] keep their
    values, the error is surfaced and rethrown, and the connection status is
    left as it was unless the error is classified as a connection failure,
    which marks it disconnected. *)
Theorem signOut_clears svc w :
  (isNewUser (st (signOut svc w).2) = false
   /\ localStorage (signOut svc w).2 !! "isNewUser" = None
   /\ loading (st (signOut svc w).2) = false)
  /\ (AuthService_signOut svc = Returned tt ->
      (signOut svc w).1 = Returned tt
      /\ user (st (signOut svc w).2) = None
      /\ session (st (signOut svc w).2) = None
      /\ profile (st (signOut svc w).2) = None
      /\ progressStats (st (signOut svc w).2) = None
      /\ subjectProgress (st (signOut svc w).2) = []
      /\ hasSubjectGroup (st (signOut svc w).2) = false
      /\ connectionStatus (st (signOut svc w).2) = connected
      /\ error (st (signOut svc w).2) = None)
  /\ (forall e, AuthService_signOut svc = Threw e ->
      (signOut svc w).1 = Threw e
      /\ user (st (signOut svc w).2) = user (st w)
      /\ session (st (signOut svc w).2) = session (st w)
      /\ profile (st (signOut svc w).2) = profile (st w)
      /\ progressStats (st (signOut svc w).2) = progressStats (st w)
      /\ subjectProgress (st (signOut svc w).2) = subjectProgress (st w)
      /\ error (st (signOut svc w).2) = surfaced e "Sign out"
      /\ hasSubjectGroup (st (signOut svc w).2) = hasSubjectGroup (st w)
      /\ connectionStatus (st (signOut svc w).2)
         = (if escalates e then disconnected else connectionStatus (st w))
      /\ st (signOut svc w).2
         = {| user := user (st w); profile := profile (st w);
              progressStats := progressStats (st w);
              subjectProgress := subjectProgress (st w); session := session (st w);
              loading := false; error := surfaced e "Sign out"; isNewUser := false;
              hasSubjectGroup := hasSubjectGroup (st w);
              connectionStatus := if escalates e then disconnected
                                  else connectionStatus (st w) |}).
Proof.
  open_world w. unfold signOut. unfold_m.
  destruct (AuthService_signOut svc) as [[]|e0] eqn:Hout;
    rewrite ?handleSupabaseError_run; cbn.
  - split; [|split].
    + repeat split. apply lookup_delete_eq.
    + intros _. repeat split.
    + intros e He. discriminate.
  - split; [|split].
    + repeat split. apply lookup_delete_eq.
    + intros He. discriminate.
    + intros e He. injection He as <-. repeat split.
Qed.

Lemma signOut_clears_witness :
  AuthService_signOut svc_ok = Returned tt
  /\ user (st (signOut svc_ok signed_in_world).2) = None
  /\ profile (st (signOut svc_ok signed_in_world).2) = None
  /\ connectionStatus (st (signOut svc_ok signed_in_world).2) = connected
  /\ AuthService_signOut svc_down = Threw fetchError
  /\ isNewUser (st (signOut svc_down signed_in_world).2) = false.
Proof.
  destruct (signOut_clears svc_ok signed_in_world) as (_ & Hok & _).
  destruct (Hok eq_refl) as (_ & Hu & _ & Hp & _ & _ & _ & Hc & _).
  destruct (signOut_clears svc_down signed_in_world) as ((Hn & _) & _ & _).
  repeat split; assumption.
Defined.

(** ** Failures of the non-critical loads *)

(** C5, as stated, fails on the code: when the Subject-Group load fails,
    [hasSubjectGroup] does not keep its cached value, it is reset to [false]. *)
Lemma subject_group_failure_resets_flag :
  hasSubjectGroup (st signed_in_world) = true
  /\ hasSubjectGroup (st (step signed_in_world (SubjectGroupLoadSettles (Threw fetchError))))
     = false.
Proof. split; reflexivity. Qed.

(** The loaders when they are awaited ([retryProfileLoad], [retryConnection],
    [updateProfile]): a failure makes them return normally. *)
Lemma loadUserProgress_failure_keeps_state svc userId w e :
  ProgressService_getUserProgress svc userId = Threw e ->
  (loadUserProgress svc userId w).1 = Returned tt
  /\ st (loadUserProgress svc userId w).2 = st w.
Proof.
  intros Hfail. rewrite loadUserProgress_pieces. open_world w.
  unfold loadUserProgress_begin. unfold_m. rewrite Hfail. split; reflexivity.
Qed.

Lemma loadUserProgress_subjects_failure svc userId w stats e :
  ProgressService_getUserProgress svc userId = Returned stats ->
  ProgressService_getSubjectProgress svc userId = Threw e ->
  (loadUserProgress svc userId w).1 = Returned tt
  /\ st (loadUserProgress svc userId w).2 = st (setProgressStats stats w).2.
Proof.
  intros Hok Hfail. rewrite loadUserProgress_pieces. open_world w.
  unfold loadUserProgress_begin. unfold_m. rewrite Hok. unfold_m. rewrite Hfail.
  split; reflexivity.
Qed.

Lemma checkSubjectGroupSelection_failure svc userId w e :
  SubjectGroupService_getUserSubjectGroup svc userId = Threw e ->
  (checkSubjectGroupSelection svc userId w).1 = Returned tt
  /\ st (checkSubjectGroupSelection svc userId w).2 = st (setHasSubjectGroup false w).2.
Proof.
  intros Hfail. rewrite checkSubjectGroupSelection_pieces. open_world w.
  unfold checkSubjectGroupSelection_begin. unfold_m. rewrite Hfail. split; reflexivity.
Qed.

(** C5, amended. In the fan-out, a failed Progress fetch (the stats or the
    subject list) changes no state cell at all and a failed Subject-Group load
    changes only [hasSubjectGroup], which it sets to [false]; in particular
    [error] and [connectionStatus] are not changed.  Each failure adds one
    console line and issues no backend call.  The loaders as a whole do the
    same when awaited: they return normally; when the second Progress fetch
    fails, [progressStats] holds the stats just fetched and [subjectProgress]
    its cached value. *)
Theorem noncritical_load_failures_are_logged w userId e :
  (st (step w (ProgressStatsLoadSettles userId (Threw e))) = st w
   /\ console (step w (ProgressStatsLoadSettles userId (Threw e)))
      = (console w ++ ["Error loading user progress:"])%list
   /\ backend (step w (ProgressStatsLoadSettles userId (Threw e))) = backend w)
  /\ (st (step w (SubjectProgressLoadSettles (Threw e))) = st w
      /\ console (step w (SubjectProgressLoadSettles (Threw e)))
         = (console w ++ ["Error loading user progress:"])%list
      /\ backend (step w (SubjectProgressLoadSettles (Threw e))) = backend w)
  /\ (st (step w (SubjectGroupLoadSettles (Threw e)))
      = {| user := user (st w); profile := profile (st w);
           progressStats := progressStats (st w);
           subjectProgress := subjectProgress (st w); session := session (st w);
           loading := loading (st w); error := error (st w);
           isNewUser := isNewUser (st w); hasSubjectGroup := false;
           connectionStatus := connectionStatus (st w) |}
      /\ console (step w (SubjectGroupLoadSettles (Threw e)))
         = (console w ++ ["Error checking subject group:"])%list
      /\ backend (step w (SubjectGroupLoadSettles (Threw e))) = backend w)
  /\ (forall svc,
        ProgressService_getUserProgress svc userId = Threw e ->
        (loadUserProgress svc userId w).1 = Returned tt
        /\ st (loadUserProgress svc userId w).2 = st w)
  /\ (forall svc stats,
        ProgressService_getUserProgress svc userId = Returned stats ->
        ProgressService_getSubjectProgress svc userId = Threw e ->
        let s' := st (loadUserProgress svc userId w).2 in
        (loadUserProgress svc userId w).1 = Returned tt
        /\ error s' = error (st w)
        /\ connectionStatus s' = connectionStatus (st w)
        /\ subjectProgress s' = subjectProgress (st w)
        /\ progressStats s' = stats)
  /\ (forall svc,
        SubjectGroupService_getUserSubjectGroup svc userId = Threw e ->
        let s' := st (checkSubjectGroupSelection svc userId w).2 in
        (checkSubjectGroupSelection svc userId w).1 = Returned tt
        /\ error s' = error (st w)
        /\ connectionStatus s' = connectionStatus (st w)
        /\ hasSubjectGroup s' = false).
Proof.
  split; [|split; [|split; [|split; [|split]]]].
  - open_world w. repeat split.
  - open_world w. repeat split.
  - open_world w. repeat split.
  - intros svc Hfail. now apply loadUserProgress_failure_keeps_state with (e := e).
  - intros svc stats Hok Hfail.
    destruct (loadUserProgress_subjects_failure svc userId w stats e Hok Hfail)
      as [Hret Hst].
    cbn zeta. rewrite Hst. open_world w. repeat split. exact Hret.
  - intros svc Hfail.
    destruct (checkSubjectGroupSelection_failure svc userId w e Hfail) as [Hret Hst].
    cbn zeta. rewrite Hst. open_world w. repeat split. exact Hret.
Qed.

Lemma noncritical_load_failures_are_logged_witness :
  ProgressService_getUserProgress svc_down "u-ann" = Threw fetchError
  /\ st (loadUserProgress svc_down "u-ann" signed_in_world).2 = signed_in_state
  /\ SubjectGroupService_getUserSubjectGroup svc_down "u-ann" = Threw fetchError
  /\ error (st (checkSubjectGroupSelection svc_down "u-ann" signed_in_world).2)
     = Some msg_cannot_connect.
Proof.
  destruct (noncritical_load_failures_are_logged signed_in_world "u-ann" fetchError)
    as (_ & _ & _ & Hprogress & _ & Hgroup).
  destruct (Hprogress svc_down eq_refl) as [_ Hst].
  destruct (Hgroup svc_down eq_refl) as (_ & Herr & _).
  split; [reflexivity|]. split; [exact Hst|]. split; [reflexivity | exact Herr].
Defined.

(** ** Session-change notifications *)

Lemma step_keeps_identity w ev :
  keeps_identity ev = true ->
  user (st (step w ev)) = user (st w) /\ session (st (step w ev)) = session (st w).
Proof.
  intros Hk. open_world w. unfold step, handle.
  destruct ev as [|mounted r|mounted event sess|r|userId r|r|r]; try discriminate.
  - split; reflexivity.
  - destruct mounted; [discriminate|]. split; reflexivity.
  - destruct r; [split; reflexivity|].
    unfold loadUserProfile_settle. unfold_m. rewrite handleSupabaseError_run.
    split; reflexivity.
  - destruct r; split; reflexivity.
  - destruct r; split; reflexivity.
  - destruct r; split; reflexivity.
Qed.

Lemma run_keeps_identity evs : forall w,
  forallb keeps_identity evs = true ->
  user (st (run evs w)) = user (st w) /\ session (st (run evs w)) = session (st w).
Proof.
  induction evs as [|ev evs IH]; intros w Hall; [split; reflexivity|].
  cbn in Hall. apply andb_true_iff in Hall as [Hev Hevs].
  change (run (ev :: evs) w) with (run evs (step w ev)).
  destruct (IH (step w ev) Hevs) as [Hu Hs].
  destruct (step_keeps_identity w ev Hev) as [Hu' Hs'].
  split; congruence.
Qed.

Lemma applied_notification_identity w event sess :
  user (st (step w (AuthStateChange true event sess))) = sess ≫= session_user
  /\ session (st (step w (AuthStateChange true event sess))) = sess
  /\ loading (st (step w (AuthStateChange true event sess))) = false.
Proof.
  open_world w. unfold step, handle, onAuthStateChange_handler, fanOut,
    loadUserProfile_begin, loadUserProgress_begin, checkSubjectGroupSelection_begin.
  destruct (sess ≫= session_user) eqn:Hsess; unfold_m; rewrite ?Hsess; repeat split.
Qed.

(** C6. Whatever happened before, once a notification has been applied and only
    events that are not applied notifications follow (loads settling, the
    timer, notifications dropped after unmount), [user] and [session] are that
    notification's payload; an applied notification without a session clears
    profile, progress stats, subject progress, [isNewUser] and
    [hasSubjectGroup]; and every applied notification ends with
    [loading = false]. *)
Theorem notifications_last_applied_wins w :
  (forall before event sess after,
     forallb keeps_identity after = true ->
     user (st (run (before ++ AuthStateChange true event sess :: after) w))
       = sess ≫= session_user
     /\ session (st (run (before ++ AuthStateChange true event sess :: after) w)) = sess)
  /\ (forall event,
        let s' := st (step w (AuthStateChange true event None)) in
        user s' = None /\ session s' = None /\ profile s' = None
        /\ progressStats s' = None /\ subjectProgress s' = []
        /\ isNewUser s' = false /\ hasSubjectGroup s' = false)
  /\ (forall event sess,
        loading (st (step w (AuthStateChange true event sess))) = false).
Proof.
  split; [|split].
  - intros before event sess after Hafter.
    assert (Hsplit : run (before ++ AuthStateChange true event sess :: after) w
                     = run after (step (run before w) (AuthStateChange true event sess))).
    { unfold run. now rewrite foldl_app. }
    rewrite Hsplit.
    destruct (run_keeps_identity after
                (step (run before w) (AuthStateChange true event sess)) Hafter) as [Hu Hs].
    destruct (applied_notification_identity (run before w) event sess) as (Hu' & Hs' & _).
    split; congruence.
  - intros event. open_world w. repeat split.
  - intros event sess. apply applied_notification_identity.
Qed.

Lemma notifications_last_applied_wins_witness :
  user (st (run ([AuthStateChange true "SIGNED_OUT" None]
                 ++ AuthStateChange true "SIGNED_IN" (Some ann_session)
                 :: [ProfileLoadSettles (Threw fetchError);
                     SessionTimerFires;
                     AuthStateChange false "SIGNED_OUT" None]) mountedWorld))
  = Some ann.
Proof.
  destruct (notifications_last_applied_wins mountedWorld) as (Hlast & _ & _).
  destruct (Hlast [AuthStateChange true "SIGNED_OUT" None] "SIGNED_IN" (Some ann_session)
              [ProfileLoadSettles (Threw fetchError); SessionTimerFires;
               AuthStateChange false "SIGNED_OUT" None] eq_refl) as [Hu _].
  exact Hu.
Defined.

(** ** The degraded-mode client *)

(** C2, as stated, fails on the code: [auth.getUser()] is not [signOut], yet
    the mock client resolves it with [error: null]; so it is not true that
    every operation but [signOut] answers with the 'unavailable' error. *)
Lemma mock_getUser_resolves_without_error :
  Supabase.createMockClient Supabase.auth_getUser
    = Returned {| Supabase.data := Supabase.data_user; Supabase.error := None |}
  /\ ~ (forall op, op <> Supabase.auth_signOut ->
          exists r, Supabase.createMockClient op = Returned r
                    /\ Supabase.error r = Some Supabase.mockError).
Proof.
  split; [reflexivity|].
  intros Hall. destruct (Hall Supabase.auth_getUser) as (r & Hr & He); [discriminate|].
  cbn in Hr. injection Hr as <-. discriminate.
Qed.

(** C2, amended. Every promise-returning operation of the mock client resolves.
    It resolves with the canonical 'unavailable' error for [signUp],
    [signInWithPassword], [single], [maybeSingle], [insert], the update and
    upsert chains and [storage.upload], and with [error: null] for [getUser],
    [getSession], [signOut], the queries ending in [limit] and
    [storage.remove].  The session-change subscription schedules exactly one
    callback, [('SIGNED_OUT', null)], 100 ms ahead, and its [unsubscribe] does
    nothing; [getPublicUrl] returns an empty URL at once. *)
Theorem mock_client_resolves :
  (forall op, exists r,
      Supabase.createMockClient op = Returned r
      /\ Supabase.error r
         = if Supabase.answers_unavailable op then Some Supabase.mockError else None)
  /\ Supabase.createMockClient Supabase.auth_signOut
     = Returned {| Supabase.data := Supabase.data_absent; Supabase.error := None |}
  /\ (forall timers,
        (Supabase.mock_onAuthStateChange timers).2
        = (timers ++ [ {| Supabase.delay := 100; Supabase.event := "SIGNED_OUT";
                          Supabase.session := None |} ])%list
        /\ forall pending,
             Supabase.unsubscribe (Supabase.mock_onAuthStateChange timers).1 pending
             = pending)
  /\ (forall bucket, Supabase.mock_getPublicUrl bucket = "").
Proof.
  split; [|split; [|split]].
  - intros op. destruct op; eexists; split; reflexivity.
  - reflexivity.
  - intros timers. split; [reflexivity|]. intros pending. reflexivity.
  - reflexivity.
Qed.

(** X1. The probe, run on the mock client itself, reports the backend reachable. *)
Lemma probe_of_mock_client :
  Supabase.testSupabaseConnection Supabase.createMockClient = Returned true.
Proof. reflexivity. Qed.

(** ** The connection probe *)

(** C7, as stated, fails on the code: both checks of this backend are answered
    (nothing throws, no message names a network failure), and the probe still
    resolves to [false], because the data-layer error says 'Database error'. *)
Lemma probe_false_without_network_failure :
  Supabase.testSupabaseConnection faulty_backend = Returned false
  /\ (forall op, exists r, faulty_backend op = Returned r)
  /\ Supabase.network_failure "Database error querying schema" = false.
Proof.
  split; [reflexivity|]. split; [|reflexivity].
  intros op. destruct op; eexists; reflexivity.
Qed.

Lemma probe_database_false_iff client :
  Supabase.probe_database client <> Returned true <->
  (exists e, client (Supabase.from_select_limit "user_profiles") = Threw e)
  \/ (exists r dbError,
        client (Supabase.from_select_limit "user_profiles") = Returned r
        /\ Supabase.error r = Some dbError
        /\ (Supabase.message dbError = None
            \/ exists m, Supabase.message dbError = Some m
                 /\ (Supabase.network_failure m = true
                     \/ (Supabase.schema_absent dbError = false
                         /\ includes "Database error" m
                            || includes "unexpected_failure" m = true)))).
Proof.
  unfold Supabase.probe_database, Supabase.message_or_throw, Supabase.network_failure,
    Supabase.schema_absent.
  destruct (client (Supabase.from_select_limit "user_profiles")) as [r|e0] eqn:Hdb.
  2:{ split; [intros _; left; eauto | intros _; discriminate]. }
  destruct (Supabase.error r) as [dbError|] eqn:Herr.
  2:{ split; [congruence|]. intros [[e He]|(r' & d & Hr & Hd & _)]; congruence. }
  destruct (Supabase.message dbError) as [m|] eqn:Hmsg.
  2:{ split; [|intros _; discriminate].
      intros _. right. exists r, dbError. repeat split; auto. }
  destruct (includes "Failed to fetch" m || includes "NetworkError" m
            || includes "Connection timeout" m || includes "fetch is not defined" m)
    eqn:Hnet.
  { split; [|intros _; discriminate].
    intros _. right. exists r, dbError. repeat split; auto.
    right. exists m. split; [assumption|]. now left. }
  destruct (Supabase.code_is dbError "PGRST116" || Supabase.code_is dbError "42P01"
            || includes "relation" m || includes "does not exist" m) eqn:Hschema.
  { split; [congruence|].
    intros [[e He]|(r' & d & Hr & Hd & Hcause)]; [congruence|].
    injection Hr as <-. rewrite Herr in Hd. injection Hd as <-.
    destruct Hcause as [Hnone|(m' & Hm' & Hcause)]; [congruence|].
    rewrite Hmsg in Hm'. injection Hm' as <-.
    destruct Hcause as [Hn|[Hs _]]; [congruence|].
    rewrite Hmsg in Hs.
    repeat rewrite <- orb_assoc in Hs. repeat rewrite <- orb_assoc in Hschema.
    congruence. }
  destruct (includes "Database error" m || includes "unexpected_failure" m) eqn:Hfault.
  - split; [|intros _; discriminate].
    intros _. right. exists r, dbError. repeat split; auto.
    right. exists m. split; [assumption|]. right. split; [|assumption].
    rewrite Hmsg. repeat rewrite <- orb_assoc in Hschema.
    repeat rewrite <- orb_assoc. assumption.
  - split; [congruence|].
    intros [[e He]|(r' & d & Hr & Hd & Hcause)]; [congruence|].
    injection Hr as <-. rewrite Herr in Hd. injection Hd as <-.
    destruct Hcause as [Hnone|(m' & Hm' & Hcause)]; [congruence|].
    rewrite Hmsg in Hm'. injection Hm' as <-.
    destruct Hcause as [Hn|[_ Hf]]; congruence.
Qed.

Lemma probe_database_failure client :
  Supabase.probe_database client <> Returned true ->
  ProbeFailure client.
Proof.
  intros Hne. apply probe_database_false_iff in Hne.
  destruct Hne as [[e He]|(r & dbError & Hr & Hd & [Hnone|(m & Hm & [Hnet|[Hs Hf]])])].
  - eapply database_check_throws; eassumption.
  - eapply database_error_unreadable; eassumption.
  - eapply database_network_failure; eassumption.
  - eapply database_fault; eassumption.
Qed.

Lemma probe_database_of_failure client :
  (exists e, client (Supabase.from_select_limit "user_profiles") = Threw e)
  \/ (exists r dbError,
        client (Supabase.from_select_limit "user_profiles") = Returned r
        /\ Supabase.error r = Some dbError
        /\ (Supabase.message dbError = None
            \/ exists m, Supabase.message dbError = Some m
                 /\ (Supabase.network_failure m = true
                     \/ (Supabase.schema_absent dbError = false
                         /\ includes "Database error" m
                            || includes "unexpected_failure" m = true)))) ->
  Supabase.testSupabaseConnection client = Returned false.
Proof.
  intros Hcause. apply probe_database_false_iff in Hcause.
  unfold Supabase.testSupabaseConnection, Supabase.probe_body.
  destruct (client Supabase.auth_getSession) as [r|e]; [|reflexivity].
  assert (Hdb : match Supabase.probe_database client with
                | Returned b => Returned b
                | Threw _ => Returned false
                end = Returned false).
  { destruct (Supabase.probe_database client) as [[]|]; congruence. }
  destruct (Supabase.error r) as [authError|]; [|exact Hdb].
  destruct (Supabase.message_or_throw authError) as [m|]; [|reflexivity].
  destruct (includes "Failed to fetch" m || includes "NetworkError" m
            || includes "fetch is not defined" m); [reflexivity | exact Hdb].
Qed.

(** C7, amended. The probe never throws and always resolves to a boolean.  It
    resolves to [false] exactly when one of its two checks throws, or answers
    with an error that has no readable message or whose message names a network
    failure, or when the data-layer error is a 'Database error' or
    'unexpected_failure' that is not a missing-schema error; in every other case
    it resolves to [true], in particular when the backend answers the
    data-layer check with a missing-schema error. *)
Theorem testSupabaseConnection_total client :
  (exists b, Supabase.testSupabaseConnection client = Returned b)
  /\ (Supabase.testSupabaseConnection client = Returned false <-> ProbeFailure client)
  /\ (forall ra rd dbError m,
        client Supabase.auth_getSession = Returned ra ->
        Supabase.error ra = None ->
        client (Supabase.from_select_limit "user_profiles") = Returned rd ->
        Supabase.error rd = Some dbError ->
        Supabase.message dbError = Some m ->
        Supabase.network_failure m = false ->
        Supabase.schema_absent dbError = true ->
        Supabase.testSupabaseConnection client = Returned true).
Proof.
  split; [|split].
  - unfold Supabase.testSupabaseConnection.
    destruct (Supabase.probe_body client); eauto.
  - split.
    + unfold Supabase.testSupabaseConnection, Supabase.probe_body,
        Supabase.message_or_throw.
      destruct (client Supabase.auth_getSession) as [r|e] eqn:Hauth.
      2:{ intros _. eapply auth_check_throws; eassumption. }
      destruct (Supabase.error r) as [authError|] eqn:Herr.
      * destruct (Supabase.message authError) as [m|] eqn:Hmsg.
        2:{ intros _. eapply auth_error_unreadable; eassumption. }
        destruct (includes "Failed to fetch" m || includes "NetworkError" m
                  || includes "fetch is not defined" m) eqn:Hnet.
        { intros _. eapply auth_network_failure; eassumption. }
        intros Hfalse. apply probe_database_failure.
        destruct (Supabase.probe_database client) as [[]|]; congruence.
      * intros Hfalse. apply probe_database_failure.
        destruct (Supabase.probe_database client) as [[]|]; congruence.
    + intros [e He|r a Hr Ha Hm|r a m Hr Ha Hm Hnet|e He|r d Hr Hd Hm
              |r d m Hr Hd Hm Hnet|r d m Hr Hd Hm Hs Hf].
      * unfold Supabase.testSupabaseConnection, Supabase.probe_body. now rewrite He.
      * unfold Supabase.testSupabaseConnection, Supabase.probe_body,
          Supabase.message_or_throw. now rewrite Hr, Ha, Hm.
      * unfold Supabase.testSupabaseConnection, Supabase.probe_body,
          Supabase.message_or_throw. now rewrite Hr, Ha, Hm, Hnet.
      * apply probe_database_of_failure. left. eauto.
      * apply probe_database_of_failure. right. exists r, d. eauto.
      * apply probe_database_of_failure. right. exists r, d. eauto 10.
      * apply probe_database_of_failure. right. exists r, d. eauto 10.
  - intros ra rd dbError m Hra Hea Hrd Hed Hm Hnet Hschema.
    unfold Supabase.testSupabaseConnection, Supabase.probe_body,
      Supabase.probe_database, Supabase.message_or_throw.
    rewrite Hra, Hea, Hrd, Hed, Hm.
    unfold Supabase.network_failure in Hnet. rewrite Hnet.
    unfold Supabase.schema_absent in Hschema. rewrite Hm in Hschema.
    repeat rewrite <- orb_assoc in Hschema. repeat rewrite <- orb_assoc.
    now rewrite Hschema.
Qed.

Lemma testSupabaseConnection_total_witness :
  Supabase.testSupabaseConnection schemaless_backend = Returned true
  /\ ProbeFailure faulty_backend.
Proof.
  destruct (testSupabaseConnection_total schemaless_backend) as (_ & _ & Hschema).
  destruct (testSupabaseConnection_total faulty_backend) as (_ & Hiff & _).
  split.
  - eapply Hschema; reflexivity.
  - apply Hiff. reflexivity.
Defined.

(** ** Progress initialisation in the store *)

Lemma rows_of_absent (rows : list Migration.progress_stats_row) (uid : string) :
  uid ∉ Migration.row_user_id <$> rows ->
  filter (fun r => Migration.row_user_id r = uid) rows = [].
Proof.
  induction rows as [|a rows IH]; [reflexivity|].
  rewrite fmap_cons, not_elem_of_cons. intros [Hne Hnotin].
  rewrite filter_cons. destruct (decide (Migration.row_user_id a = uid)); [congruence|].
  now apply IH.
Qed.

Lemma rows_of_unique (rows : list Migration.progress_stats_row) (uid : string) :
  NoDup (Migration.row_user_id <$> rows) ->
  uid ∈ Migration.row_user_id <$> rows ->
  length (filter (fun r => Migration.row_user_id r = uid) rows) = 1.
Proof.
  induction rows as [|a rows IH]; [intros _ Hin; inversion Hin|].
  rewrite fmap_cons, NoDup_cons, elem_of_cons. intros [Hnotin Hnodup] Hin.
  rewrite filter_cons. destruct (decide (Migration.row_user_id a = uid)) as [Heq|Hne].
  - subst uid. now rewrite rows_of_absent.
  - destruct Hin as [Heq|Hin]; [congruence|]. now apply IH.
Qed.

(** C9. In a store that satisfies the unique [user_id] constraint, for an
    existing user, running the progress initialisation twice leaves exactly one
    progress row for that user, and the second run changes nothing; the
    constraint still holds afterwards.  (The generated row id of the first run
    is assumed not to collide with a primary key already in the table.) *)
Theorem initialize_user_progress_idempotent db uid uuid1 now1 uuid2 now2 :
  Migration.unique_user_id db ->
  uid ∈ Migration.auth_users db ->
  uuid1 ∉ Migration.row_id <$> Migration.user_progress_stats db ->
  let db1 := Migration.initialize_user_progress uuid1 now1 uid db in
  let db2 := Migration.initialize_user_progress uuid2 now2 uid db1 in
  db2 = db1
  /\ length (Migration.rows_of uid db2) = 1
  /\ Migration.unique_user_id db2.
Proof.
  intros Huniq Huser Hfresh db1 db2.
  assert (Hin1 : uid ∈ Migration.row_user_id <$> Migration.user_progress_stats db1
                 /\ Migration.unique_user_id db1).
  { subst db1. unfold Migration.initialize_user_progress,
      Migration.insert_on_conflict_do_nothing, Migration.unique_user_id in *.
    destruct (bool_decide_reflect
                (uid ∈ Migration.row_user_id <$> Migration.user_progress_stats db))
      as [Hin|Hnotin]; [split; assumption|].
    rewrite (bool_decide_eq_false_2 _ Hfresh), (bool_decide_eq_true_2 _ Huser).
    cbn. rewrite fmap_app. cbn. split.
    - apply elem_of_app. right. apply list_elem_of_singleton. reflexivity.
    - apply NoDup_app. split; [assumption|]. split.
      + intros x Hx Hx'. apply list_elem_of_singleton in Hx'. congruence.
      + apply NoDup_singleton. }
  destruct Hin1 as [Hin1 Huniq1].
  assert (Hsame : db2 = db1).
  { subst db2. unfold Migration.initialize_user_progress,
      Migration.insert_on_conflict_do_nothing.
    now rewrite (bool_decide_eq_true_2 _ Hin1). }
  rewrite Hsame. split; [reflexivity|]. split; [|assumption].
  unfold Migration.rows_of. now apply rows_of_unique.
Qed.

Lemma initialize_user_progress_idempotent_witness :
  length (Migration.rows_of "u-ann"
            (Migration.initialize_user_progress "id-2" "t2" "u-ann"
               (Migration.initialize_user_progress "id-1" "t1" "u-ann" empty_database)))
  = 1.
Proof.
  assert (Huniq : Migration.unique_user_id empty_database) by apply NoDup_nil_2.
  assert (Huser : "u-ann" ∈ Migration.auth_users empty_database)
    by (apply list_elem_of_singleton; reflexivity).
  assert (Hfresh : "id-1" ∉ Migration.row_id <$> Migration.user_progress_stats empty_database)
    by (cbn; apply not_elem_of_nil).
  destruct (initialize_user_progress_idempotent empty_database "u-ann" "id-1" "t1"
              "id-2" "t2" Huniq Huser Hfresh) as (_ & Hone & _).
  exact Hone.
Defined.

(** ** Sign-up, sign-in and the new-user flag *)

(** X5. A successful [signUp] leaves [loading] on and the new-user flag stored,
    so that the next applied notification carrying a user ends with
    [isNewUser = true] and [loading = false]; after a successful [signIn], or
    after [markProfileCompleted], the stored flag is gone and that notification
    ends with [isNewUser = false]. *)
Theorem new_user_flag_follows_sign_up_and_sign_in svc data w event sess u :
  session_user sess = Some u ->
  (AuthService_signUp svc data = Returned tt ->
     (signUp svc data w).1 = Returned tt
     /\ loading (st (signUp svc data w).2) = true
     /\ localStorage (signUp svc data w).2 !! "isNewUser" = Some "true"
     /\ connectionStatus (st (signUp svc data w).2) = connected
     /\ isNewUser (st (step (signUp svc data w).2
                         (AuthStateChange true event (Some sess)))) = true
     /\ loading (st (step (signUp svc data w).2
                       (AuthStateChange true event (Some sess)))) = false)
  /\ (AuthService_signIn svc data = Returned tt ->
        (signIn svc data w).1 = Returned tt
        /\ loading (st (signIn svc data w).2) = true
        /\ localStorage (signIn svc data w).2 !! "isNewUser" = None
        /\ isNewUser (st (step (signIn svc data w).2
                            (AuthStateChange true event (Some sess)))) = false
        /\ loading (st (step (signIn svc data w).2
                          (AuthStateChange true event (Some sess)))) = false)
  /\ (localStorage (markProfileCompleted w).2 !! "isNewUser" = None
      /\ isNewUser (st (markProfileCompleted w).2) = false
      /\ isNewUser (st (step (markProfileCompleted w).2
                          (AuthStateChange true event (Some sess)))) = false).
Proof.
  intros Hu. open_world w. destruct sess as [token su]. cbn in Hu. subst su.
  unfold step, handle, onAuthStateChange_handler, fanOut, loadUserProfile_begin,
    loadUserProgress_begin, checkSubjectGroupSelection_begin, signUp, signIn,
    markProfileCompleted.
  split; [|split].
  - intros Hok. unfold_m. rewrite Hok. cbn.
    rewrite !lookup_insert_eq. repeat split.
  - intros Hok. unfold_m. rewrite Hok. cbn.
    rewrite !lookup_delete_eq. repeat split.
  - unfold_m. cbn. rewrite !lookup_delete_eq. repeat split.
Qed.

(** X6. A failed [signUp] rethrows the error, issues the one backend call, and
    reverts what it had set: [loading] and the new-user flag (state cell and
    stored entry) are off again, the error is surfaced, and the connection is
    marked disconnected when the error is classified as a connection failure,
    and left at 'checking' otherwise; no other cell changes. *)
Theorem signUp_failure_reverts svc data w e :
  AuthService_signUp svc data = Threw e ->
  (signUp svc data w).1 = Threw e
  /\ st (signUp svc data w).2
     = {| user := user (st w); profile := profile (st w);
          progressStats := progressStats (st w);
          subjectProgress := subjectProgress (st w); session := session (st w);
          loading := false; error := surfaced e "Sign up"; isNewUser := false;
          hasSubjectGroup := hasSubjectGroup (st w);
          connectionStatus := if escalates e then disconnected else checking |}
  /\ localStorage (signUp svc data w).2 !! "isNewUser" = None
  /\ backend (signUp svc data w).2 = (backend w ++ [SignUp data])%list.
Proof.
  intros Hfail. open_world w. unfold signUp. unfold_m. rewrite Hfail.
  rewrite handleSupabaseError_run. cbn. rewrite lookup_delete_eq. repeat split.
Qed.

(** X7. When [signIn] fails with an error that [handleSupabaseError] does not
    classify as a connection failure (wrong credentials, say), the connection
    status stays 'checking', so the connection banner shows the error with its
    Retry button disabled and labelled 'Checking...'. *)
Theorem unclassified_failure_leaves_checking_banner svc data w e m :
  escalates e = false ->
  surfaced e "Sign in" = Some m ->
  m <> "" ->
  AuthService_signIn svc data = Threw e ->
  (signIn svc data w).1 = Threw e
  /\ connectionStatus (st (signIn svc data w).2) = checking
  /\ loading (st (signIn svc data w).2) = false
  /\ Alert.SupabaseConnectionAlert (st (signIn svc data w).2)
     = Some {| Alert.text := m; Alert.retry_disabled := true;
               Alert.retry_label := "Checking..." |}.
Proof.
  intros Hesc Hsurf Hm Hfail. open_world w. unfold signIn. unfold_m. rewrite Hfail.
  rewrite handleSupabaseError_run. cbn. rewrite Hesc.
  unfold Alert.SupabaseConnectionAlert. cbn. rewrite Hsurf. cbn.
  destruct (String.eqb_spec m ""); [contradiction|]. rewrite ?Hesc. repeat split.
Qed.

(** X8. [retryConnection] never throws and never touches [session], [loading],
    the new-user flag or [localStorage].  When no user is found it sets
    [user = null], connected and no error, keeping the cached profile and
    progress; when the check fails, it only surfaces the error: disconnected
    for a classified connection failure, still 'checking' otherwise. *)
Theorem retryConnection_never_throws svc w :
  (retryConnection svc w).1 = Returned tt
  /\ session (st (retryConnection svc w).2) = session (st w)
  /\ loading (st (retryConnection svc w).2) = loading (st w)
  /\ isNewUser (st (retryConnection svc w).2) = isNewUser (st w)
  /\ localStorage (retryConnection svc w).2 = localStorage w
  /\ (AuthService_getCurrentUser svc = Returned None ->
      st (retryConnection svc w).2
      = {| user := None; profile := profile (st w);
           progressStats := progressStats (st w);
           subjectProgress := subjectProgress (st w); session := session (st w);
           loading := loading (st w); error := None; isNewUser := isNewUser (st w);
           hasSubjectGroup := hasSubjectGroup (st w); connectionStatus := connected |}
      /\ backend (retryConnection svc w).2 = (backend w ++ [GetCurrentUser])%list)
  /\ (forall e, AuthService_getCurrentUser svc = Threw e ->
      st (retryConnection svc w).2
      = {| user := user (st w); profile := profile (st w);
           progressStats := progressStats (st w);
           subjectProgress := subjectProgress (st w); session := session (st w);
           loading := loading (st w); error := surfaced e "Connection retry";
           isNewUser := isNewUser (st w);
           hasSubjectGroup := hasSubjectGroup (st w);
           connectionStatus := if escalates e then disconnected else checking |}
      /\ backend (retryConnection svc w).2 = (backend w ++ [GetCurrentUser])%list).
Proof.
  open_world w.
  unfold retryConnection, loadUserProfile, loadUserProgress, checkSubjectGroupSelection.
  unfold_m.
  destruct (AuthService_getCurrentUser svc) as [[u|]|e0] eqn:Hcur.
  - repeat step_m; repeat split; discriminate.
  - cbn. repeat split; discriminate.
  - rewrite handleSupabaseError_run. cbn.
    repeat split; try discriminate;
      match goal with H : Threw _ = Threw _ |- _ => injection H as <- end; reflexivity.
Qed.


(** X9. With a user, [recordStudySession] throws exactly when the append call
    fails: then no progress fetch is issued, progress stats are kept and the
    error is surfaced.  When the append succeeds it returns normally whatever
    the refresh does, fetches the progress stats next, and leaves [error] and
    [connectionStatus] as they were. *)
Theorem recordStudySession_outcomes svc r u sessionType subject durationMinutes score w :
  user r = Some u ->
  (forall e,
     ProgressService_recordStudySession svc (user_id u) sessionType subject
       durationMinutes score = Threw e ->
     (recordStudySession svc r sessionType subject durationMinutes score w).1 = Threw e
     /\ backend (recordStudySession svc r sessionType subject durationMinutes score w).2
        = (backend w ++ [RecordStudySession (user_id u) sessionType subject
                           durationMinutes score])%list
     /\ progressStats
          (st (recordStudySession svc r sessionType subject durationMinutes score w).2)
        = progressStats (st w)
     /\ error (st (recordStudySession svc r sessionType subject durationMinutes score w).2)
        = surfaced e "Record study session")
  /\ (ProgressService_recordStudySession svc (user_id u) sessionType subject
        durationMinutes score = Returned tt ->
      (recordStudySession svc r sessionType subject durationMinutes score w).1
        = Returned tt
      /\ error (st (recordStudySession svc r sessionType subject durationMinutes score w).2)
         = error (st w)
      /\ connectionStatus
           (st (recordStudySession svc r sessionType subject durationMinutes score w).2)
         = connectionStatus (st w)
      /\ exists rest,
           backend (recordStudySession svc r sessionType subject durationMinutes score w).2
           = (backend w ++ RecordStudySession (user_id u) sessionType subject
                             durationMinutes score
                        :: GetUserProgress (user_id u) :: rest)%list).
Proof.
  intros Hu. open_world w. open_state r.
  unfold recordStudySession, refreshProgress, loadUserProgress. cbn [user].
  split.
  - intros e Hfail. unfold_m. rewrite Hfail. rewrite handleSupabaseError_run.
    repeat split.
  - intros Hok. unfold_m. rewrite Hok.
    repeat step_m; repeat split; rewrite <- ?app_assoc; eexists; reflexivity.
Qed.

(** X10. With a user, [retryProfileLoad] never throws and always issues the
    profile, progress and subject-group fetches in this order (the subject
    progress fetch only after the stats fetch succeeded): a failed profile
    load clears the cached profile but does not stop the other two. *)
Theorem retryProfileLoad_loads_all svc r u w :
  user r = Some u ->
  (retryProfileLoad svc r w).1 = Returned tt
  /\ backend (retryProfileLoad svc r w).2
     = (backend w
        ++ [GetUserProfile (user_id u); GetUserProgress (user_id u)]
        ++ match ProgressService_getUserProgress svc (user_id u) with
           | Returned _ => [GetSubjectProgress (user_id u)]
           | Threw _ => []
           end
        ++ [GetUserSubjectGroup (user_id u)])%list
  /\ profile (st (retryProfileLoad svc r w).2)
     = match AuthService_getUserProfile svc (user_id u) with
       | Returned p => p
       | Threw _ => None
       end
  /\ hasSubjectGroup (st (retryProfileLoad svc r w).2)
     = match SubjectGroupService_getUserSubjectGroup svc (user_id u) with
       | Returned g => hasGroup g
       | Threw _ => false
       end.
Proof.
  intros Hu. open_world w. open_state r.
  unfold retryProfileLoad, loadUserProfile, loadUserProgress, checkSubjectGroupSelection.
  cbn [user]. unfold_m.
  repeat step_m; rewrite <- ?app_assoc; repeat split.
Qed.

(** X11. The [fetch] wrapper turns an aborted request into its
    [SupabaseTimeoutError], and any other failure whose message contains
    'Failed to fetch' or 'NetworkError', or which is a [TypeError], into its
    [SupabaseConnectionError]; every other failure that has a message is
    rethrown as it is.  For either of the two named errors
    [handleSupabaseError], in any context, marks the connection disconnected
    and shows the wrapper's own message. *)
Theorem fetch_wrapper_errors_are_escalated e context w :
  (name_is e "AbortError" = true ->
   Supabase.fetch_catch e = ErrorObj "SupabaseTimeoutError" Supabase.msg_request_timeout
   /\ connectionStatus (st (handleSupabaseError (Supabase.fetch_catch e) context w).2)
      = disconnected
   /\ error (st (handleSupabaseError (Supabase.fetch_catch e) context w).2)
      = Some Supabase.msg_request_timeout)
  /\ (forall m,
        name_is e "AbortError" = false -> message_of e = Some m ->
        includes "Failed to fetch" m || includes "NetworkError" m
        || name_is e "TypeError" = true ->
        Supabase.fetch_catch e
        = ErrorObj "SupabaseConnectionError" Supabase.msg_cannot_connect
        /\ connectionStatus (st (handleSupabaseError (Supabase.fetch_catch e) context w).2)
           = disconnected
        /\ error (st (handleSupabaseError (Supabase.fetch_catch e) context w).2)
           = Some Supabase.msg_cannot_connect)
  /\ (forall m,
        name_is e "AbortError" = false -> message_of e = Some m ->
        includes "Failed to fetch" m || includes "NetworkError" m
        || name_is e "TypeError" = false ->
        Supabase.fetch_catch e = e).
Proof.
  rewrite handleSupabaseError_run. open_world w. cbn.
  unfold Supabase.fetch_catch.
  split; [|split].
  - intros Habort. rewrite Habort. repeat split.
  - intros m Habort Hm Hnet. rewrite Habort, Hm, Hnet. repeat split.
  - intros m Habort Hm Hnet. rewrite Habort, Hm, Hnet. reflexivity.
Qed.

(** ** The dashboard layout *)

Lemma saved_dark_insert_sidebar v (s : gmap string string) :
  saved_dark (<["sidebarCollapsed" := v]> s) = saved_dark s.
Proof. unfold saved_dark. now rewrite lookup_insert_ne. Qed.

Lemma mount_in_sync p :
  stored_sidebar_ok (Dashboard.storage p) ->
  exists q, Dashboard.mount p = Some q
    /\ page_in_sync q
    /\ Dashboard.isDarkMode (Dashboard.layout q) = saved_dark (Dashboard.storage p)
    /\ Dashboard.sidebarCollapsed (Dashboard.layout q) = saved_collapsed (Dashboard.storage p).
Proof.
  destruct p as [l s d h]. unfold stored_sidebar_ok, Dashboard.mount, Dashboard.loadSidebar,
    page_in_sync, saved_collapsed. cbn.
  intros [Hnone|[b Hb]].
  - rewrite Hnone. eexists. split; [reflexivity|].
    unfold Dashboard.loadTheme, saved_dark. cbn.
    destruct (s !! "theme") as [t|] eqn:Ht; [destruct (String.eqb t "") eqn:He|];
      cbn; rewrite ?lookup_insert_eq, ?lookup_insert_ne, ?Ht, ?He by discriminate;
      cbn; repeat split.
  - rewrite Hb. destruct b; cbn; (eexists; split; [reflexivity|]);
      unfold Dashboard.loadTheme, saved_dark; cbn;
      (destruct (s !! "theme") as [t|] eqn:Ht; [destruct (String.eqb t "") eqn:He|]);
      cbn; rewrite ?lookup_insert_eq, ?lookup_insert_ne, ?Ht, ?He by discriminate;
      cbn; repeat split.
Qed.

Lemma click_in_sync p c :
  page_in_sync p ->
  page_in_sync (Dashboard.click p c)
  /\ Dashboard.isDarkMode (Dashboard.layout (Dashboard.click p c))
     = (if is_theme_click c then negb (Dashboard.isDarkMode (Dashboard.layout p))
        else Dashboard.isDarkMode (Dashboard.layout p))
  /\ Dashboard.sidebarCollapsed (Dashboard.layout (Dashboard.click p c))
     = (if is_sidebar_click c then negb (Dashboard.sidebarCollapsed (Dashboard.layout p))
        else Dashboard.sidebarCollapsed (Dashboard.layout p)).
Proof.
  destruct p as [[so sc pd im dm] s d h]. unfold page_in_sync, saved_dark. cbn.
  intros (Hdark & Hclass & Hside).
  unfold Dashboard.click, Dashboard.rerender, Dashboard.handleThemeToggle,
    Dashboard.handleSidebarToggle, Dashboard.saveSidebar.
  destruct c, sc, dm; cbn;
    rewrite ?lookup_insert_eq, ?lookup_insert_ne, ?Hside by discriminate;
    repeat split; assumption.
Qed.

Lemma clicks_in_sync cs : forall p,
  page_in_sync p ->
  page_in_sync (Dashboard.clicks cs p)
  /\ Dashboard.isDarkMode (Dashboard.layout (Dashboard.clicks cs p))
     = flips is_theme_click cs (Dashboard.isDarkMode (Dashboard.layout p))
  /\ Dashboard.sidebarCollapsed (Dashboard.layout (Dashboard.clicks cs p))
     = flips is_sidebar_click cs (Dashboard.sidebarCollapsed (Dashboard.layout p)).
Proof.
  induction cs as [|c cs IH]; intros p Hsync; [split; [assumption | split; reflexivity]|].
  destruct (click_in_sync p c Hsync) as (Hsync' & Hdark & Hside).
  destruct (IH (Dashboard.click p c) Hsync') as (Hs & Hd & Hc).
  unfold Dashboard.clicks, flips in *. cbn [foldl].
  rewrite <- Hdark, <- Hside. split; [exact Hs | split; [exact Hd | exact Hc]].
Qed.

Lemma in_sync_stored p :
  page_in_sync p ->
  stored_sidebar_ok (Dashboard.storage p)
  /\ saved_collapsed (Dashboard.storage p) = Dashboard.sidebarCollapsed (Dashboard.layout p).
Proof.
  intros (_ & _ & Hside). split; [right; eauto|].
  unfold saved_collapsed. rewrite Hside.
  destruct (Dashboard.sidebarCollapsed (Dashboard.layout p)); reflexivity.
Qed.

(** X12. On a page whose stored sidebar entry is absent or one the layout
    wrote, the layout mounts; from then on and through any series of clicks on
    the theme button and the sidebar button, the ['dark'] class of the document
    agrees with [isDarkMode], each click inverts its own cell and leaves the
    other, and mounting the layout again on the resulting page restores the
    same theme, class and sidebar state. *)
Theorem theme_and_sidebar_survive_reload p cs :
  stored_sidebar_ok (Dashboard.storage p) ->
  exists q0, Dashboard.mount p = Some q0
    /\ let q := Dashboard.clicks cs q0 in
       Dashboard.darkClass q = Dashboard.isDarkMode (Dashboard.layout q)
       /\ Dashboard.isDarkMode (Dashboard.layout q)
          = flips is_theme_click cs (Dashboard.isDarkMode (Dashboard.layout q0))
       /\ Dashboard.sidebarCollapsed (Dashboard.layout q)
          = flips is_sidebar_click cs (Dashboard.sidebarCollapsed (Dashboard.layout q0))
       /\ exists q', Dashboard.mount q = Some q'
            /\ Dashboard.isDarkMode (Dashboard.layout q')
               = Dashboard.isDarkMode (Dashboard.layout q)
            /\ Dashboard.darkClass q' = Dashboard.darkClass q
            /\ Dashboard.sidebarCollapsed (Dashboard.layout q')
               = Dashboard.sidebarCollapsed (Dashboard.layout q).
Proof.
  intros Hok.
  destruct (mount_in_sync p Hok) as (q0 & Hmount & Hsync0 & _ & _).
  exists q0. split; [exact Hmount|]. cbn zeta.
  destruct (clicks_in_sync cs q0 Hsync0) as (Hsync & Hdark & Hside).
  destruct (in_sync_stored _ Hsync) as (Hok' & Hsaved).
  destruct (mount_in_sync _ Hok') as (q' & Hmount' & Hsync' & Hdark' & Hside').
  destruct Hsync as (Hd & Hc & _). destruct Hsync' as (_ & Hc' & _).
  split; [exact Hc|]. split; [exact Hdark|]. split; [exact Hside|].
  exists q'. split; [exact Hmount'|]. repeat split; congruence.
Qed.

(** X13. The page title agrees with the menus: at the address of every
    navigation and settings entry it is that entry's name; under
    [/dashboard/settings] it is always 'Settings' or a settings entry's name;
    elsewhere it is 'Dashboard' or a navigation entry's name, and 'Dashboard'
    for every address that is no navigation entry's. *)
Theorem page_title_matches_menus :
  Forall (fun i => Dashboard.getPageTitle (Dashboard.item_href i) = Dashboard.name i)
    (Dashboard.navigationItems ++ Dashboard.settingsMenuItems)
  /\ (forall currentPath,
        String.prefix "/dashboard/settings" currentPath = true ->
        Dashboard.getPageTitle currentPath
          ∈ "Settings" :: (Dashboard.name <$> Dashboard.settingsMenuItems))
  /\ (forall currentPath,
        String.prefix "/dashboard/settings" currentPath = false ->
        Dashboard.getPageTitle currentPath
          ∈ "Dashboard" :: (Dashboard.name <$> Dashboard.navigationItems))
  /\ (forall currentPath,
        String.prefix "/dashboard/settings" currentPath = false ->
        currentPath ∉ Dashboard.item_href <$> Dashboard.navigationItems ->
        Dashboard.getPageTitle currentPath = "Dashboard").
Proof.
  split; [|split; [|split]].
  - repeat constructor.
  - intros path Hp. unfold Dashboard.getPageTitle. rewrite Hp.
    repeat match goal with |- context [String.eqb ?a ?b] => destruct (String.eqb a b) end;
      cbn; set_solver.
  - intros path Hp. unfold Dashboard.getPageTitle. rewrite Hp.
    unfold Dashboard.navigationItems, Dashboard.find_item, Dashboard.active. cbn.
    repeat match goal with |- context [String.eqb ?a ?b] => destruct (String.eqb a b) end;
      cbn; set_solver.
  - intros path Hp Hnot. unfold Dashboard.getPageTitle. rewrite Hp.
    unfold Dashboard.navigationItems, Dashboard.find_item, Dashboard.active in *.
    cbn in *.
    repeat match goal with
           | |- context [String.eqb ?a ?b] =>
               destruct (String.eqb_spec a b); [exfalso; apply Hnot; subst; set_solver|]
           end.
    reflexivity.
Qed.

(** X14. The sign-out button never throws.  It leaves for ['/'] exactly when
    the backend sign-out succeeded; when it failed the page stays where it
    was, with the user, session and profile still in the state, the error
    surfaced and [loading] off. *)
Theorem handleSignOut_leaves_only_on_success svc w here :
  (Dashboard.handleSignOut svc w here).1.1 = Returned tt
  /\ (AuthService_signOut svc = Returned tt ->
      (Dashboard.handleSignOut svc w here).2 = "/"
      /\ user (st (Dashboard.handleSignOut svc w here).1.2) = None
      /\ session (st (Dashboard.handleSignOut svc w here).1.2) = None)
  /\ (forall e, AuthService_signOut svc = Threw e ->
      (Dashboard.handleSignOut svc w here).2 = here
      /\ user (st (Dashboard.handleSignOut svc w here).1.2) = user (st w)
      /\ session (st (Dashboard.handleSignOut svc w here).1.2) = session (st w)
      /\ profile (st (Dashboard.handleSignOut svc w here).1.2) = profile (st w)
      /\ error (st (Dashboard.handleSignOut svc w here).1.2) = surfaced e "Sign out"
      /\ loading (st (Dashboard.handleSignOut svc w here).1.2) = false).
Proof.
  open_world w. unfold Dashboard.handleSignOut, signOut. unfold_m.
  destruct (AuthService_signOut svc) as [[]|e0] eqn:Hout;
    rewrite ?handleSupabaseError_run; cbn.
  - repeat split; discriminate.
  - repeat split; try discriminate;
      match goal with H : Threw _ = Threw _ |- _ => injection H as <- end; reflexivity.
Qed.

(** ** Start-up of the client module *)

Lemma probe_never_throws client :
  exists b, Supabase.testSupabaseConnection client = Returned b.
Proof.
  unfold Supabase.testSupabaseConnection. destruct (Supabase.probe_body client); eauto.
Qed.

(** X15. Once the client module has started (and its development probe, if
    scheduled, has run), [supabase] is bound either to the mock client or to
    the client [createClient] returned; [isUsingMockClient] is true exactly
    when it is the mock; and it is the mock exactly when the configuration is
    missing or a placeholder, or [createClient] threw, or the development probe
    of the created client resolved to [false]. *)
Theorem mock_client_bound_exactly_when url key DEV created :
  let m := SupabaseInit.settled url key DEV created in
  (SupabaseInit.supabase m = Some SupabaseInit.mock
   \/ exists client, SupabaseInit.supabase m = Some (SupabaseInit.real client)
                     /\ created = Returned client)
  /\ (SupabaseInit.isUsingMockClient m = true
      <-> SupabaseInit.supabase m = Some SupabaseInit.mock)
  /\ (SupabaseInit.supabase m = Some SupabaseInit.mock
      <-> SupabaseInit.hasValidConfig (SupabaseInit.env_or_empty url)
            (SupabaseInit.env_or_empty key) = false
          \/ (exists e, created = Threw e)
          \/ (DEV = true
              /\ exists client, created = Returned client
                   /\ Supabase.testSupabaseConnection client = Returned false)).
Proof.
  unfold SupabaseInit.settled, SupabaseInit.initialise, SupabaseInit.testConnection.
  destruct (SupabaseInit.hasValidConfig (SupabaseInit.env_or_empty url)
              (SupabaseInit.env_or_empty key)) eqn:Hconfig; cbn.
  2:{ split; [now left|]. split; [tauto|]. split; [now left | reflexivity]. }
  destruct created as [client|e]; cbn.
  2:{ split; [now left|]. split; [tauto|]. split; [right; left; eauto | reflexivity]. }
  destruct DEV; cbn.
  2:{ split; [right; eauto|]. split; [split; discriminate|].
      split; [discriminate|].
      intros [H|[[e H]|[H _]]]; discriminate. }
  destruct (probe_never_throws client) as [b Hb]. rewrite Hb.
  destruct b; cbn.
  - split; [right; eauto|]. split; [split; discriminate|].
    split; [discriminate|].
    intros [H|[[e H]|[_ (c & Hc & Hprobe)]]]; try discriminate.
    injection Hc as <-. congruence.
  - split; [now left|]. split; [tauto|].
    split; [|reflexivity]. intros _. right. right. split; [reflexivity|]. eauto.
Qed.

(** ** The profile triggers *)

Lemma replace_char_absent from to s :
  from <> to ->
  includes (String from EmptyString) (Schema.replace_char from to s) = false.
Proof.
  intros Hne. induction s as [|c s IH]; [reflexivity|].
  cbn. destruct (Ascii.eqb_spec c from) as [->|Hc].
  - destruct (Ascii.eqb_spec from to); [contradiction|].
    destruct (Ascii.ascii_dec from to); [contradiction|]. exact IH.
  - destruct (Ascii.ascii_dec from c); [congruence|]. exact IH.
Qed.

Lemma prefix_empty s : String.prefix "" s = true.
Proof. destruct s; reflexivity. Qed.

Lemma includes_char_append c a b :
  includes (String c EmptyString) (a +:+ b)
  = includes (String c EmptyString) a || includes (String c EmptyString) b.
Proof.
  induction a as [|x a IH].
  - reflexivity.
  - simpl. destruct (Ascii.ascii_dec c x); [|exact IH].
    now rewrite !prefix_empty.
Qed.

Lemma replace_char_inj from to a : forall b,
  includes (String to EmptyString) a = false ->
  includes (String to EmptyString) b = false ->
  Schema.replace_char from to a = Schema.replace_char from to b -> a = b.
Proof.
  induction a as [|x a IH]; intros [|y b] Ha Hb Heq; try discriminate; [reflexivity|].
  simpl in Ha, Hb, Heq.
  destruct (Ascii.ascii_dec to x) as [|Hx]; [rewrite prefix_empty in Ha; discriminate|].
  destruct (Ascii.ascii_dec to y) as [|Hy]; [rewrite prefix_empty in Hb; discriminate|].
  injection Heq as Hhead Htail.
  f_equal; [|now apply IH].
  destruct (Ascii.eqb_spec x from), (Ascii.eqb_spec y from); congruence.
Qed.

Lemma append_inj_r s : forall a b,
  String.length a = String.length b -> a +:+ s = b +:+ s -> a = b.
Proof.
  induction a as [|x a IH]; intros [|y b] Hlen Heq; try discriminate; [reflexivity|].
  cbn in Hlen, Heq. injection Heq as -> Heq. f_equal. apply IH; [lia | exact Heq].
Qed.

Lemma length_append a b :
  String.length (a +:+ b) = String.length a + String.length b.
Proof. induction a as [|x a IH]; simpl; [reflexivity | f_equal; exact IH]. Qed.

Lemma replace_char_length from to s :
  String.length (Schema.replace_char from to s) = String.length s.
Proof. induction s as [|c s IH]; simpl; [reflexivity | f_equal; exact IH]. Qed.

(** X16. The database name derived from a user id contains no hyphen, starts
    with [user_], is eight characters longer than the id, and is different for
    different ids that contain no underscore (as the text of a uuid does not). *)
Theorem database_name_safe_and_distinct :
  (forall NEW_id, includes "-" (Schema.database_name NEW_id) = false)
  /\ (forall NEW_id,
        String.prefix "user_" (Schema.database_name NEW_id) = true
        /\ String.length (Schema.database_name NEW_id) = String.length NEW_id + 8)
  /\ (forall id1 id2,
        includes "_" id1 = false -> includes "_" id2 = false ->
        Schema.database_name id1 = Schema.database_name id2 -> id1 = id2).
Proof.
  split; [|split].
  - intros NEW_id. unfold Schema.database_name.
    change "-" with (String Schema.hyphen EmptyString).
    rewrite !includes_char_append, replace_char_absent by discriminate. reflexivity.
  - intros NEW_id. unfold Schema.database_name. split; [cbn; apply prefix_empty|].
    rewrite !length_append, replace_char_length. simpl. lia.
  - intros id1 id2 H1 H2 Heq. unfold Schema.database_name in Heq.
    assert (Hlen : String.length id1 = String.length id2).
    { apply (f_equal String.length) in Heq.
      rewrite !length_append, !replace_char_length in Heq. simpl in Heq. lia. }
    cbn in Heq. injection Heq as Heq. change ("" +:+ ?x) with x in Heq.
    apply append_inj_r in Heq; [|now rewrite !replace_char_length].
    eapply replace_char_inj; eauto.
Qed.

Lemma filter_key_absent {A} (key : A -> string) (rows : list A) (k : string) :
  k ∉ key <$> rows -> filter (fun r => key r = k) rows = [].
Proof.
  induction rows as [|a rows IH]; [reflexivity|].
  rewrite fmap_cons, not_elem_of_cons. intros [Hne Hnotin].
  rewrite filter_cons. destruct (decide (key a = k)); [congruence|]. now apply IH.
Qed.

Lemma filter_key_unique {A} (key : A -> string) (rows : list A) (k : string) :
  NoDup (key <$> rows) -> k ∈ key <$> rows ->
  exists r, filter (fun r => key r = k) rows = [r] /\ r ∈ rows.
Proof.
  induction rows as [|a rows IH]; [intros _ Hin; inversion Hin|].
  rewrite fmap_cons, NoDup_cons, elem_of_cons. intros [Hnotin Hnodup] Hin.
  rewrite filter_cons. destruct (decide (key a = k)) as [Heq|Hne].
  - subst k. exists a. rewrite filter_key_absent by assumption. split; [reflexivity|].
    apply elem_of_cons. now left.
  - destruct Hin as [Heq|Hin]; [congruence|].
    destruct (IH Hnodup Hin) as (r & Hr & Hel). exists r. split; [exact Hr|].
    apply elem_of_cons. now right.
Qed.

Lemma initialize_user_progress_once db uid uuid now :
  Migration.unique_user_id db ->
  uid ∈ Migration.auth_users db ->
  uuid ∉ Migration.row_id <$> Migration.user_progress_stats db ->
  let db1 := Migration.initialize_user_progress uuid now uid db in
  length (Migration.rows_of uid db1) = 1
  /\ Migration.unique_user_id db1
  /\ Migration.warnings db1 = Migration.warnings db
  /\ Migration.auth_users db1 = Migration.auth_users db.
Proof.
  intros Huniq Huser Hfresh.
  unfold Migration.initialize_user_progress, Migration.insert_on_conflict_do_nothing,
    Migration.unique_user_id, Migration.rows_of in *.
  destruct (bool_decide_reflect
              (uid ∈ Migration.row_user_id <$> Migration.user_progress_stats db))
    as [Hin|Hnotin].
  - cbn zeta. split; [now apply rows_of_unique | auto].
  - rewrite (bool_decide_eq_false_2 _ Hfresh), (bool_decide_eq_true_2 _ Huser).
    cbn. rewrite filter_app, rows_of_absent by assumption. cbn.
    destruct (decide (uid = uid)); [|congruence].
    split; [reflexivity|]. split; [|auto].
    rewrite fmap_app. apply NoDup_app. split; [assumption|]. split.
    + intros x Hx Hx'. apply list_elem_of_singleton in Hx'. cbn in Hx'. congruence.
    + apply NoDup_singleton.
Qed.

Lemma initialize_user_progress_versions db uid uuid now :
  uid ∈ Migration.auth_users db ->
  uuid ∉ Migration.row_id <$> Migration.user_progress_stats db ->
  SummerMorning.initialize_user_progress uuid now uid db
  = Migration.initialize_user_progress uuid now uid db.
Proof.
  intros Huser Hfresh.
  unfold SummerMorning.initialize_user_progress, Migration.initialize_user_progress,
    Migration.insert_on_conflict_do_nothing.
  case_bool_decide; [reflexivity|].
  now rewrite (bool_decide_eq_false_2 _ Hfresh), (bool_decide_eq_true_2 _ Huser).
Qed.

(** X17. [handle_new_user], in either migration, for a user without profile:
    it creates exactly one profile row, with the names and grade of the
    metadata (empty where the metadata has none), and through the insert
    trigger exactly one progress row; no warning is raised and no database row
    is written. *)
Theorem handle_new_user_creates_profile db NEW_id meta uuid now :
  NEW_id ∈ Migration.auth_users (Schema.base db) ->
  NEW_id ∉ Schema.prof_id <$> Schema.user_profiles db ->
  Migration.unique_user_id (Schema.base db) ->
  uuid ∉ Migration.row_id <$> Migration.user_progress_stats (Schema.base db) ->
  let db' := Schema.handle_new_user uuid now NEW_id meta db in
  SummerMorning.handle_new_user uuid now NEW_id meta db = db'
  /\ Schema.profiles_of NEW_id db'
     = [ {| Schema.prof_id := NEW_id;
            Schema.prof_first_name := default "" (meta !! "first_name");
            Schema.prof_last_name := default "" (meta !! "last_name");
            Schema.prof_grade := default "" (meta !! "grade");
            Schema.prof_board := None; Schema.prof_area := None;
            Schema.prof_profile_picture_url := None; Schema.prof_subject_group := None;
            Schema.prof_subjects := Some [];
            Schema.prof_created_at := now; Schema.prof_updated_at := now |} ]
  /\ (forall uid, uid <> NEW_id -> Schema.profiles_of uid db' = Schema.profiles_of uid db)
  /\ length (Migration.rows_of NEW_id (Schema.base db')) = 1
  /\ Migration.unique_user_id (Schema.base db')
  /\ Migration.warnings (Schema.base db') = Migration.warnings (Schema.base db)
  /\ Schema.user_databases db' = Schema.user_databases db.
Proof.
  intros Huser Hnew Huniq Hfresh.
  destruct (initialize_user_progress_once (Schema.base db) NEW_id uuid now
              Huniq Huser Hfresh) as (Hone & Huniq' & Hwarn & _).
  unfold SummerMorning.handle_new_user, Schema.handle_new_user, Schema.insert_profile,
    Schema.profiles_of, Schema.meta_text.
  rewrite (bool_decide_eq_false_2 _ Hnew), (bool_decide_eq_true_2 _ Huser).
  rewrite initialize_user_progress_versions by assumption.
  cbn. rewrite filter_app, (filter_key_absent Schema.prof_id) by assumption.
  cbn. destruct (decide (NEW_id = NEW_id)); [|congruence].
  split; [reflexivity|]. split; [reflexivity|]. split.
  - intros uid Hne. rewrite filter_app. cbn.
    destruct (decide (NEW_id = uid)); [congruence|]. now rewrite app_nil_r.
  - repeat split; assumption.
Qed.

Lemma do_update_user_id now NEW r :
  Schema.udb_user_id (Schema.do_update now NEW r) = Schema.udb_user_id r.
Proof. unfold Schema.do_update. case_bool_decide; reflexivity. Qed.

Lemma do_update_user_ids now NEW (rows : list Schema.database_row) :
  Schema.udb_user_id <$> (Schema.do_update now NEW <$> rows) = Schema.udb_user_id <$> rows.
Proof.
  induction rows as [|r rows IH]; [reflexivity|].
  cbn. now rewrite do_update_user_id, IH.
Qed.

Lemma do_update_filter now NEW uid (rows : list Schema.database_row) :
  filter (fun r => Schema.udb_user_id r = uid) (Schema.do_update now NEW <$> rows)
  = if decide (uid = Schema.prof_id NEW)
    then Schema.do_update now NEW <$> filter (fun r => Schema.udb_user_id r = uid) rows
    else filter (fun r => Schema.udb_user_id r = uid) rows.
Proof.
  induction rows as [|r rows IH]; [destruct (decide _); reflexivity|].
  rewrite fmap_cons, !filter_cons, do_update_user_id, IH.
  destruct (decide (Schema.udb_user_id r = uid)) as [Hr|Hr];
    destruct (decide (uid = Schema.prof_id NEW)) as [Hu|Hu]; try reflexivity.
  f_equal. unfold Schema.do_update. rewrite bool_decide_eq_false_2; congruence.
Qed.

(** The upsert statement both versions of the trigger function run: where the
    constraints of the table allow the insertion, it does not raise. *)
Lemma upsert_user_database_done db NEW uuid now :
  Schema.unique_database_user db ->
  Schema.prof_id NEW ∈ Migration.auth_users (Schema.base db) ->
  uuid ∉ Schema.udb_id <$> Schema.user_databases db ->
  exists db',
    Schema.upsert_user_database uuid now NEW db = Schema.Done db'
    /\ (exists r,
          Schema.databases_of (Schema.prof_id NEW) db' = [r]
          /\ Schema.udb_grade r = Schema.prof_grade NEW
          /\ Schema.udb_board r = Schema.prof_board NEW
          /\ Schema.udb_subject_group r = Schema.prof_subject_group NEW
          /\ Schema.udb_subjects r = Schema.prof_subjects NEW
          /\ Schema.udb_updated_at r = now)
    /\ Schema.unique_database_user db'
    /\ (forall uid, uid <> Schema.prof_id NEW ->
          Schema.databases_of uid db' = Schema.databases_of uid db)
    /\ Schema.base db' = Schema.base db
    /\ Schema.user_profiles db' = Schema.user_profiles db.
Proof.
  intros Huniq Huser Hfresh.
  unfold Schema.upsert_user_database, Schema.unique_database_user,
    Schema.databases_of in *.
  destruct (bool_decide_reflect
              (Schema.prof_id NEW ∈ Schema.udb_user_id <$> Schema.user_databases db))
    as [Hin|Hnotin].
  - eexists. split; [reflexivity|]. cbn.
    destruct (filter_key_unique Schema.udb_user_id _ _ Huniq Hin) as (r0 & Hr0 & _).
    assert (Hid : Schema.udb_user_id r0 = Schema.prof_id NEW).
    { assert (Hel : r0 ∈ filter (fun r => Schema.udb_user_id r = Schema.prof_id NEW)
                           (Schema.user_databases db))
        by (rewrite Hr0; apply list_elem_of_singleton; reflexivity).
      apply list_elem_of_filter in Hel. tauto. }
    split; [|split; [|split]].
    + exists (Schema.do_update now NEW r0).
      rewrite do_update_filter, Hr0.
      destruct (decide (Schema.prof_id NEW = Schema.prof_id NEW)); [|congruence].
      cbn [fmap list_fmap]. unfold Schema.do_update.
      rewrite (bool_decide_eq_true_2 _ Hid). repeat split.
    + now rewrite do_update_user_ids.
    + intros uid Hne. rewrite do_update_filter.
      destruct (decide (uid = Schema.prof_id NEW)); [contradiction | reflexivity].
    + split; reflexivity.
  - rewrite (bool_decide_eq_false_2 _ Hfresh), (bool_decide_eq_true_2 _ Huser).
    eexists. split; [reflexivity|]. cbn.
    split; [|split; [|split]].
    + eexists. rewrite filter_app, (filter_key_absent Schema.udb_user_id) by assumption.
      cbn. destruct (decide (Schema.prof_id NEW = Schema.prof_id NEW)); [|congruence].
      repeat split.
    + rewrite fmap_app. apply NoDup_app. split; [assumption|]. split.
      * intros x Hx Hx'. apply list_elem_of_singleton in Hx'. cbn in Hx'. congruence.
      * apply NoDup_singleton.
    + intros uid Hne. rewrite filter_app. cbn.
      destruct (decide (Schema.prof_id NEW = uid)); [congruence|].
      now rewrite app_nil_r.
    + split; reflexivity.
Qed.

(** X18. [create_user_database_on_profile_update], in either migration, does
    nothing for a profile with an empty grade.  Otherwise, in a store that
    satisfies the unique constraint, it leaves exactly one database row for the
    user, carrying the profile's grade, board, subject group and subjects and
    the current time, whether the row was inserted or updated; the rows of
    other users, the profiles and the progress tables are unchanged, no warning
    is raised and the constraint still holds. *)
Theorem create_user_database_upserts db NEW uuid now :
  (Schema.prof_grade NEW = "" ->
   Schema.create_user_database_on_profile_update uuid now NEW db = db
   /\ SummerMorning.create_user_database_on_profile_update uuid now NEW db = db)
  /\ (Schema.prof_grade NEW <> "" ->
      Schema.unique_database_user db ->
      Schema.prof_id NEW ∈ Migration.auth_users (Schema.base db) ->
      uuid ∉ Schema.udb_id <$> Schema.user_databases db ->
      let db' := Schema.create_user_database_on_profile_update uuid now NEW db in
      SummerMorning.create_user_database_on_profile_update uuid now NEW db = db'
      /\ (exists r,
            Schema.databases_of (Schema.prof_id NEW) db' = [r]
            /\ Schema.udb_grade r = Schema.prof_grade NEW
            /\ Schema.udb_board r = Schema.prof_board NEW
            /\ Schema.udb_subject_group r = Schema.prof_subject_group NEW
            /\ Schema.udb_subjects r = Schema.prof_subjects NEW
            /\ Schema.udb_updated_at r = now)
      /\ Schema.unique_database_user db'
      /\ (forall uid, uid <> Schema.prof_id NEW ->
            Schema.databases_of uid db' = Schema.databases_of uid db)
      /\ Schema.base db' = Schema.base db
      /\ Schema.user_profiles db' = Schema.user_profiles db).
Proof.
  unfold Schema.create_user_database_on_profile_update,
    SummerMorning.create_user_database_on_profile_update.
  split.
  - intros Hgrade. rewrite Hgrade. split; reflexivity.
  - intros Hgrade Huniq Huser Hfresh.
    destruct (String.eqb_spec (Schema.prof_grade NEW) ""); [contradiction|].
    cbn [negb].
    destruct (upsert_user_database_done db NEW uuid now Huniq Huser Hfresh)
      as (db1 & Hdone & Hspec).
    rewrite Hdone. cbn zeta. split; [reflexivity | exact Hspec].
Qed.

Lemma set_profile_ids now meta NEW_id (rows : list Schema.profile_row) :
  Schema.prof_id
    <$> ((fun r => if bool_decide (Schema.prof_id r = NEW_id)
                   then SummerMorning.set_names_and_grade now meta r else r) <$> rows)
  = Schema.prof_id <$> rows.
Proof.
  induction rows as [|r rows IH]; [reflexivity|].
  cbn. rewrite IH. case_bool_decide; reflexivity.
Qed.

Lemma set_profile_filter now meta NEW_id uid (rows : list Schema.profile_row) :
  filter (fun r => Schema.prof_id r = uid)
    ((fun r => if bool_decide (Schema.prof_id r = NEW_id)
               then SummerMorning.set_names_and_grade now meta r else r) <$> rows)
  = if decide (uid = NEW_id)
    then SummerMorning.set_names_and_grade now meta
           <$> filter (fun r => Schema.prof_id r = uid) rows
    else filter (fun r => Schema.prof_id r = uid) rows.
Proof.
  induction rows as [|r rows IH]; [destruct (decide _); reflexivity|].
  rewrite fmap_cons, !filter_cons, IH.
  destruct (bool_decide_reflect (Schema.prof_id r = NEW_id)) as [Hr|Hr]; cbn;
    destruct (decide (Schema.prof_id r = uid)) as [Hu|Hu];
    destruct (decide (uid = NEW_id)) as [Hn|Hn]; try reflexivity; congruence.
Qed.

(** X19. [handle_new_user] for a user whose profile row exists already.  As
    the earlier migration defines it, the function leaves every table as it
    was and raises one warning.  As the later migration defines it, the
    function replaces the names and the grade of that row by those of the
    metadata, keeps each where the metadata has none, keeps the other columns
    and sets [updated_at]; other profiles and the progress rows are unchanged;
    and through the update trigger, when the resulting grade is empty the
    database rows are unchanged, and otherwise the user has exactly one
    database row, which carries the resulting grade. *)
Theorem handle_new_user_existing_profile db NEW_id meta uuid now old :
  NoDup (Schema.prof_id <$> Schema.user_profiles db) ->
  Schema.profiles_of NEW_id db = [old] ->
  let updated := SummerMorning.set_names_and_grade now meta old in
  (let db' := Schema.handle_new_user uuid now NEW_id meta db in
   Schema.user_profiles db' = Schema.user_profiles db
   /\ Schema.user_databases db' = Schema.user_databases db
   /\ Migration.user_progress_stats (Schema.base db')
      = Migration.user_progress_stats (Schema.base db)
   /\ exists condition,
        Migration.warnings (Schema.base db')
        = (Migration.warnings (Schema.base db)
           ++ ["Failed to create user profile: " +:+ condition])%list)
  /\ (let db' := SummerMorning.handle_new_user uuid now NEW_id meta db in
      Schema.profiles_of NEW_id db' = [updated]
      /\ Schema.prof_first_name updated
         = default (Schema.prof_first_name old) (meta !! "first_name")
      /\ Schema.prof_last_name updated
         = default (Schema.prof_last_name old) (meta !! "last_name")
      /\ Schema.prof_grade updated = default (Schema.prof_grade old) (meta !! "grade")
      /\ (forall uid, uid <> NEW_id ->
            Schema.profiles_of uid db' = Schema.profiles_of uid db)
      /\ Migration.user_progress_stats (Schema.base db')
         = Migration.user_progress_stats (Schema.base db)
      /\ (Schema.prof_grade updated = "" ->
          Schema.user_databases db' = Schema.user_databases db
          /\ Schema.base db' = Schema.base db)
      /\ (Schema.prof_grade updated <> "" ->
          Schema.unique_database_user db ->
          NEW_id ∈ Migration.auth_users (Schema.base db) ->
          uuid ∉ Schema.udb_id <$> Schema.user_databases db ->
          (exists r, Schema.databases_of NEW_id db' = [r]
                     /\ Schema.udb_grade r = Schema.prof_grade updated)
          /\ Schema.unique_database_user db'
          /\ Schema.base db' = Schema.base db)).
Proof.
  intros Hkey Hold updated.
  assert (Hid : Schema.prof_id old = NEW_id).
  { assert (Hel : old ∈ Schema.profiles_of NEW_id db)
      by (rewrite Hold; apply list_elem_of_singleton; reflexivity).
    apply list_elem_of_filter in Hel. tauto. }
  assert (Hexists : NEW_id ∈ Schema.prof_id <$> Schema.user_profiles db).
  { assert (Hel : old ∈ Schema.profiles_of NEW_id db)
      by (rewrite Hold; apply list_elem_of_singleton; reflexivity).
    apply list_elem_of_filter in Hel. destruct Hel as [_ Hel].
    apply list_elem_of_fmap. exists old. split; [now rewrite Hid | exact Hel]. }
  split.
  - unfold Schema.handle_new_user, Schema.insert_profile.
    rewrite (bool_decide_eq_true_2 _ Hexists). cbn.
    repeat split. eexists. reflexivity.
  - unfold SummerMorning.handle_new_user, Schema.insert_profile.
    rewrite (bool_decide_eq_true_2 _ Hexists). cbn [String.eqb Ascii.eqb Bool.eqb].
    cbn zeta. unfold SummerMorning.update_profile. unfold Schema.profiles_of in Hold.
    rewrite set_profile_filter, Hold.
    destruct (decide (NEW_id = NEW_id)); [|congruence].
    cbn [fmap list_fmap foldl]. fold updated.
    set (mid := {| Schema.base := Schema.base db;
                   Schema.user_profiles := _;
                   Schema.user_databases := Schema.user_databases db |}).
    assert (Hmid : Schema.profiles_of NEW_id mid = [updated]
                   /\ forall uid, uid <> NEW_id ->
                        Schema.profiles_of uid mid = Schema.profiles_of uid db).
    { unfold Schema.profiles_of, mid. cbn. split.
      - rewrite set_profile_filter, Hold.
        destruct (decide (NEW_id = NEW_id)); [reflexivity | congruence].
      - intros uid Hne. rewrite set_profile_filter.
        destruct (decide (uid = NEW_id)); [contradiction | reflexivity]. }
    destruct Hmid as [Hmid Hothers].
    assert (Hupd : Schema.prof_id updated = NEW_id) by exact Hid.
    assert (Hempty : Schema.prof_grade updated = "" ->
                     SummerMorning.create_user_database_on_profile_update uuid now
                       updated mid = mid).
    { intros Hg. unfold SummerMorning.create_user_database_on_profile_update.
      rewrite Hg. reflexivity. }
    split; [|split; [reflexivity|split; [reflexivity|split; [reflexivity|]]]].
    + unfold SummerMorning.create_user_database_on_profile_update.
      destruct (negb _); [|exact Hmid].
      unfold Schema.upsert_user_database.
      repeat case_bool_decide; exact Hmid.
    + split; [|split; [|split]].
      * intros uid Hne.
        unfold SummerMorning.create_user_database_on_profile_update.
        destruct (negb _); [|now apply Hothers].
        unfold Schema.upsert_user_database.
        repeat case_bool_decide; now apply Hothers.
      * unfold SummerMorning.create_user_database_on_profile_update.
        destruct (negb _); [|reflexivity].
        unfold Schema.upsert_user_database.
        repeat case_bool_decide; reflexivity.
      * intros Hg. rewrite (Hempty Hg). split; reflexivity.
      * intros Hg Huniq Huser Hfresh.
        rewrite <- Hupd in Huser.
        destruct (upsert_user_database_done mid updated uuid now Huniq Huser Hfresh)
          as (db1 & Hdone & (r & Hr & Hgr & _) & Hu & _ & Hb & _).
        unfold SummerMorning.create_user_database_on_profile_update.
        destruct (String.eqb_spec (Schema.prof_grade updated) ""); [contradiction|].
        cbn [negb]. rewrite Hdone. rewrite Hupd in Hr.
        split; [eauto|]. split; [exact Hu | exact Hb].
Qed.

(** ** The banner, the startup check and late load results *)

Lemma step_keeps_no_error w ev :
  sets_no_error ev = true -> error (st w) = None -> error (st (step w ev)) = None.
Proof.
  intros Hq Herr. open_world w. cbn in Herr. subst.
  unfold step, handle.
  destruct ev as [|mounted r|mounted event sess|r|userId r|r|r].
  - reflexivity.
  - destruct r as [[u|]|e]; [| |discriminate]; destruct mounted; reflexivity.
  - destruct mounted; [|reflexivity].
    unfold onAuthStateChange_handler. destruct (sess ≫= session_user); reflexivity.
  - destruct r; [reflexivity | discriminate].
  - destruct r; reflexivity.
  - destruct r; reflexivity.
  - destruct r; reflexivity.
Qed.

(** X20. After [dismissError] the banner is hidden although the connection
    status is unchanged, and it stays hidden through every event other than a
    failed profile load or a failed startup session check: those are the only
    events that set [error]. *)
Theorem banner_stays_dismissed evs : forall w,
  forallb sets_no_error evs = true ->
  error (st (run evs (dismissError w).2)) = None
  /\ Alert.SupabaseConnectionAlert (st (run evs (dismissError w).2)) = None.
Proof.
  assert (Hinv : forall evs w, forallb sets_no_error evs = true ->
                 error (st w) = None -> error (st (run evs w)) = None).
  { clear. induction evs as [|ev evs IH]; intros w Hall Herr; [exact Herr|].
    cbn in Hall. apply andb_true_iff in Hall as [Hev Hevs].
    change (run (ev :: evs) w) with (run evs (step w ev)).
    apply IH; [exact Hevs | now apply step_keeps_no_error]. }
  intros w Hall.
  assert (Herr : error (st (run evs (dismissError w).2)) = None).
  { apply Hinv; [exact Hall | open_world w; reflexivity]. }
  split; [exact Herr|].
  unfold Alert.SupabaseConnectionAlert. rewrite Herr. cbn. now rewrite orb_true_r.
Qed.

(** X21. When the startup session check resolves while mounted: with a user,
    the user is set, the connection is connected, [loading] is off, the error
    is cleared, [isNewUser] is the stored flag, and the three loads are issued
    in the order profile, progress, subject group; without a user, [user] is
    null, connected, not loading, and nothing is loaded.  After unmount a
    resolved check changes no state cell, issues no call and stores nothing. *)
Theorem getInitialSession_success w :
  (forall u,
     let w' := (getInitialSession_settle true (Returned (Some u)) w).2 in
     user (st w') = Some u
     /\ connectionStatus (st w') = connected
     /\ loading (st w') = false
     /\ error (st w') = None
     /\ isNewUser (st w') = bool_decide (localStorage w !! "isNewUser" = Some "true")
     /\ session (st w') = session (st w)
     /\ backend w'
        = (backend w ++ [GetUserProfile (user_id u); GetUserProgress (user_id u);
                         GetUserSubjectGroup (user_id u)])%list)
  /\ (let w' := (getInitialSession_settle true (Returned None) w).2 in
      st w' = {| user := None; profile := profile (st w);
                 progressStats := progressStats (st w);
                 subjectProgress := subjectProgress (st w); session := session (st w);
                 loading := false; error := error (st w); isNewUser := isNewUser (st w);
                 hasSubjectGroup := hasSubjectGroup (st w);
                 connectionStatus := connected |}
      /\ backend w' = backend w)
  /\ (forall currentUser,
        let w' := (getInitialSession_settle false (Returned currentUser) w).2 in
        st w' = st w /\ backend w' = backend w /\ localStorage w' = localStorage w).
Proof.
  open_world w.
  unfold getInitialSession_settle, fanOut, loadUserProfile_begin, loadUserProgress_begin,
    checkSubjectGroupSelection_begin.
  split; [|split].
  - intros u. unfold_m. cbn. rewrite <- !app_assoc. repeat split.
  - unfold_m. repeat split.
  - intros currentUser. unfold_m. repeat split.
Qed.

(** X22. A load that settles after a signed-out notification is still applied:
    with [user] and [session] null, a late profile result becomes the profile
    (and marks the connection connected), late stats and subject lists replace
    the cleared progress, and a late subject group sets [hasSubjectGroup]. *)
Theorem stale_load_results_are_applied w event :
  let signed_out := step w (AuthStateChange true event None) in
  (forall p,
     let w' := step signed_out (ProfileLoadSettles (Returned p)) in
     user (st w') = None /\ session (st w') = None
     /\ profile (st w') = p /\ connectionStatus (st w') = connected)
  /\ (forall userId stats,
        let w' := step signed_out (ProgressStatsLoadSettles userId (Returned stats)) in
        user (st w') = None /\ progressStats (st w') = stats
        /\ backend w' = (backend signed_out ++ [GetSubjectProgress userId])%list)
  /\ (forall subjects,
        let w' := step signed_out (SubjectProgressLoadSettles (Returned subjects)) in
        user (st w') = None /\ subjectProgress (st w') = subjects)
  /\ (forall group,
        let w' := step signed_out (SubjectGroupLoadSettles (Returned group)) in
        user (st w') = None /\ hasSubjectGroup (st w') = hasGroup group).
Proof. open_world w. repeat split. Qed.

(** ** Instances *)

Lemma new_user_flag_follows_sign_up_and_sign_in_witness :
  session_user ann_session = Some ann
  /\ isNewUser (st (step (signUp svc_ok "ann" initialWorld).2
                      (AuthStateChange true "SIGNED_IN" (Some ann_session)))) = true
  /\ isNewUser (st (step (signIn svc_ok "ann" new_user_world).2
                      (AuthStateChange true "SIGNED_IN" (Some ann_session)))) = false.
Proof.
  split; [reflexivity|].
  destruct (new_user_flag_follows_sign_up_and_sign_in svc_ok "ann" initialWorld
              "SIGNED_IN" ann_session ann eq_refl) as (Hup & _ & _).
  destruct (new_user_flag_follows_sign_up_and_sign_in svc_ok "ann" new_user_world
              "SIGNED_IN" ann_session ann eq_refl) as (_ & Hin & _).
  destruct (Hup eq_refl) as (_ & _ & _ & _ & Hnew & _).
  destruct (Hin eq_refl) as (_ & _ & _ & Hold & _).
  split; [exact Hnew | exact Hold].
Defined.

Lemma signUp_failure_reverts_witness :
  AuthService_signUp svc_down "ann" = Threw fetchError
  /\ (signUp svc_down "ann" initialWorld).1 = Threw fetchError
  /\ localStorage (signUp svc_down "ann" initialWorld).2 !! "isNewUser" = None.
Proof.
  split; [reflexivity|].
  destruct (signUp_failure_reverts svc_down "ann" initialWorld fetchError eq_refl)
    as (Hthrow & _ & Hflag & _).
  split; [exact Hthrow | exact Hflag].
Defined.

Lemma unclassified_failure_leaves_checking_banner_witness :
  escalates invalidCredentials = false
  /\ Alert.SupabaseConnectionAlert (st (signIn svc_wrong_password "ann" initialWorld).2)
     = Some {| Alert.text := "Invalid login credentials"; Alert.retry_disabled := true;
               Alert.retry_label := "Checking..." |}.
Proof.
  split; [reflexivity|].
  assert (Hm : "Invalid login credentials" <> "") by discriminate.
  destruct (unclassified_failure_leaves_checking_banner svc_wrong_password "ann"
              initialWorld invalidCredentials "Invalid login credentials"
              eq_refl eq_refl Hm eq_refl) as (_ & _ & _ & Hbanner).
  exact Hbanner.
Defined.

Lemma retryConnection_never_throws_witness :
  (retryConnection svc_down signed_in_world).1 = Returned tt
  /\ connectionStatus (st (retryConnection svc_down signed_in_world).2) = disconnected
  /\ user (st (retryConnection svc_down signed_in_world).2) = Some ann.
Proof.
  destruct (retryConnection_never_throws svc_down signed_in_world)
    as (Hret & _ & _ & _ & _ & _ & Hfail).
  destruct (Hfail fetchError eq_refl) as [Hst _].
  split; [exact Hret|]. rewrite Hst. split; reflexivity.
Defined.

Lemma recordStudySession_outcomes_witness :
  user signed_in_state = Some ann
  /\ (recordStudySession svc_down signed_in_state test "Math" 30 (Some 85%Z)
        signed_in_world).1 = Threw fetchError
  /\ (recordStudySession svc_ok signed_in_state test "Math" 30 (Some 85%Z)
        signed_in_world).1 = Returned tt.
Proof.
  split; [reflexivity|].
  destruct (recordStudySession_outcomes svc_down signed_in_state ann test "Math" 30%Z
              (Some 85%Z) signed_in_world eq_refl) as [Hfail _].
  destruct (recordStudySession_outcomes svc_ok signed_in_state ann test "Math" 30%Z
              (Some 85%Z) signed_in_world eq_refl) as [_ Hok].
  destruct (Hfail fetchError eq_refl) as [Hthrow _].
  destruct (Hok eq_refl) as [Hret _].
  split; [exact Hthrow | exact Hret].
Defined.

Lemma retryProfileLoad_loads_all_witness :
  user signed_in_state = Some ann
  /\ backend (retryProfileLoad svc_down signed_in_state signed_in_world).2
     = [GetUserProfile "u-ann"; GetUserProgress "u-ann"; GetUserSubjectGroup "u-ann"]
  /\ profile (st (retryProfileLoad svc_down signed_in_state signed_in_world).2) = None.
Proof.
  split; [reflexivity|].
  destruct (retryProfileLoad_loads_all svc_down signed_in_state ann signed_in_world
              eq_refl) as (_ & Hcalls & Hprofile & _).
  split; [exact Hcalls | exact Hprofile].
Defined.

Lemma banner_stays_dismissed_witness :
  forallb sets_no_error [SubjectGroupLoadSettles (Threw fetchError); SessionTimerFires] = true
  /\ connectionStatus
       (st (run [SubjectGroupLoadSettles (Threw fetchError); SessionTimerFires]
              (dismissError signed_in_world).2)) = disconnected
  /\ Alert.SupabaseConnectionAlert
       (st (run [SubjectGroupLoadSettles (Threw fetchError); SessionTimerFires]
              (dismissError signed_in_world).2)) = None.
Proof.
  split; [reflexivity|]. split; [reflexivity|].
  destruct (banner_stays_dismissed
              [SubjectGroupLoadSettles (Threw fetchError); SessionTimerFires]
              signed_in_world eq_refl) as [_ Hbanner].
  exact Hbanner.
Defined.

Lemma fetch_wrapper_errors_are_escalated_witness :
  name_is abortError "AbortError" = true
  /\ Supabase.fetch_catch abortError
     = ErrorObj "SupabaseTimeoutError" Supabase.msg_request_timeout
  /\ connectionStatus
       (st (handleSupabaseError (Supabase.fetch_catch abortError) "Load user profile"
              initialWorld).2) = disconnected
  /\ error (st (handleSupabaseError (Supabase.fetch_catch fetchError) "Sign in"
                  initialWorld).2)
     = Some Supabase.msg_cannot_connect.
Proof.
  split; [reflexivity|].
  destruct (fetch_wrapper_errors_are_escalated abortError "Load user profile" initialWorld)
    as (Habort & _ & _).
  destruct (Habort eq_refl) as (Hwrapped & Hstatus & _).
  destruct (fetch_wrapper_errors_are_escalated fetchError "Sign in" initialWorld)
    as (_ & Hnet & _).
  destruct (Hnet "Failed to fetch" eq_refl eq_refl eq_refl) as (_ & _ & Herror).
  split; [exact Hwrapped|]. split; [exact Hstatus | exact Herror].
Defined.

Lemma handleSignOut_leaves_only_on_success_witness :
  (Dashboard.handleSignOut svc_ok signed_in_world "/dashboard").2 = "/"
  /\ (Dashboard.handleSignOut svc_down signed_in_world "/dashboard").2 = "/dashboard"
  /\ user (st (Dashboard.handleSignOut svc_down signed_in_world "/dashboard").1.2)
     = Some ann.
Proof.
  destruct (handleSignOut_leaves_only_on_success svc_ok signed_in_world "/dashboard")
    as (_ & Hok & _).
  destruct (handleSignOut_leaves_only_on_success svc_down signed_in_world "/dashboard")
    as (_ & _ & Hfail).
  destruct (Hok eq_refl) as [Hleft _].
  destruct (Hfail fetchError eq_refl) as (Hstay & Huser & _).
  split; [exact Hleft|]. split; [exact Hstay | exact Huser].
Defined.

Lemma database_name_safe_and_distinct_witness :
  Schema.database_name "123e4567-e89b" = "user_123e4567_e89b_db"
  /\ includes "-" (Schema.database_name "123e4567-e89b") = false.
Proof.
  destruct database_name_safe_and_distinct as (Hsafe & _ & _).
  split; [reflexivity | apply Hsafe].
Defined.

Lemma handle_new_user_creates_profile_witness :
  Schema.prof_first_name
    <$> Schema.profiles_of "u-ann" (Schema.handle_new_user "id-1" "t1" "u-ann" ann_meta
                                      fresh_store)
  = ["Ann"]
  /\ length (Migration.rows_of "u-ann"
               (Schema.base (Schema.handle_new_user "id-1" "t1" "u-ann" ann_meta
                               fresh_store))) = 1.
Proof.
  assert (Huser : "u-ann" ∈ Migration.auth_users (Schema.base fresh_store))
    by (apply list_elem_of_singleton; reflexivity).
  assert (Hnew : "u-ann" ∉ Schema.prof_id <$> Schema.user_profiles fresh_store)
    by apply not_elem_of_nil.
  assert (Huniq : Migration.unique_user_id (Schema.base fresh_store)) by apply NoDup_nil_2.
  assert (Hfresh : "id-1" ∉ Migration.row_id
                     <$> Migration.user_progress_stats (Schema.base fresh_store))
    by apply not_elem_of_nil.
  destruct (handle_new_user_creates_profile fresh_store "u-ann" ann_meta "id-1" "t1"
              Huser Hnew Huniq Hfresh) as (_ & Hprofile & _ & Hone & _).
  split; [rewrite Hprofile; reflexivity | exact Hone].
Defined.

Lemma create_user_database_upserts_witness :
  Schema.udb_grade
    <$> Schema.databases_of "u-ann"
          (Schema.create_user_database_on_profile_update "db-1" "t2" ann_row fresh_store)
  = ["10"].
Proof.
  assert (Hgrade : Schema.prof_grade ann_row <> "") by discriminate.
  assert (Huniq : Schema.unique_database_user fresh_store) by apply NoDup_nil_2.
  assert (Huser : Schema.prof_id ann_row ∈ Migration.auth_users (Schema.base fresh_store))
    by (apply list_elem_of_singleton; reflexivity).
  assert (Hfresh : "db-1" ∉ Schema.udb_id <$> Schema.user_databases fresh_store)
    by apply not_elem_of_nil.
  destruct (create_user_database_upserts fresh_store ann_row "db-1" "t2") as [_ Hupsert].
  destruct (Hupsert Hgrade Huniq Huser Hfresh) as (_ & (r & Hr & Hg & _) & _).
  change (Schema.prof_id ann_row) with "u-ann" in Hr.
  rewrite Hr. cbn. now rewrite Hg.
Defined.

Lemma handle_new_user_existing_profile_witness :
  Schema.prof_grade
    <$> Schema.profiles_of "u-ann"
          (SummerMorning.handle_new_user "db-1" "t2" "u-ann" grade_meta ann_store)
  = ["11"]
  /\ Schema.prof_first_name
       <$> Schema.profiles_of "u-ann"
             (SummerMorning.handle_new_user "db-1" "t2" "u-ann" grade_meta ann_store)
     = ["Ann"].
Proof.
  assert (Hkey : NoDup (Schema.prof_id <$> Schema.user_profiles ann_store))
    by apply NoDup_singleton.
  assert (Hold : Schema.profiles_of "u-ann" ann_store = [ann_row]) by reflexivity.
  destruct (handle_new_user_existing_profile ann_store "u-ann" grade_meta "db-1" "t2"
              ann_row Hkey Hold) as (_ & Hprofile & _).
  rewrite Hprofile. split; reflexivity.
Defined.

Lemma theme_and_sidebar_survive_reload_witness :
  exists q0, Dashboard.mount blank_page = Some q0
    /\ Dashboard.isDarkMode
         (Dashboard.layout
            (Dashboard.clicks [Dashboard.ThemeToggle; Dashboard.SidebarToggle] q0))
       = negb (Dashboard.isDarkMode (Dashboard.layout q0)).
Proof.
  assert (Hok : stored_sidebar_ok (Dashboard.storage blank_page)) by (left; reflexivity).
  destruct (theme_and_sidebar_survive_reload blank_page
              [Dashboard.ThemeToggle; Dashboard.SidebarToggle] Hok)
    as (q0 & Hmount & _ & Hdark & _).
  exists q0. split; [exact Hmount | exact Hdark].
Defined.

(** ** [updateProfile], when the upsert succeeds *)

(** X23. When the profile upsert succeeds, [updateProfile] stores the returned
    profile, ends connected and without error, and never clears the new-user
    flag itself.  For a user who is not
    new it issues exactly the upsert and the subject-group check; for a new
    user whose two initialisation calls succeed, it initialises progress, then
    subjects, then reloads progress, then checks the subject group. *)
Theorem updateProfile_success svc r u updates profilePicture w updated :
  user r = Some u ->
  AuthService_updateUserProfile svc (user_id u) (profileData (profile r) updates)
    profilePicture = Returned updated ->
  (isNewUser r = false ->
   (updateProfile svc r updates profilePicture w).1 = Returned tt
   /\ profile (st (updateProfile svc r updates profilePicture w).2) = updated
   /\ connectionStatus (st (updateProfile svc r updates profilePicture w).2) = connected
   /\ error (st (updateProfile svc r updates profilePicture w).2) = None
   /\ isNewUser (st (updateProfile svc r updates profilePicture w).2) = isNewUser (st w)
   /\ localStorage (updateProfile svc r updates profilePicture w).2 = localStorage w
   /\ backend (updateProfile svc r updates profilePicture w).2
      = (backend w
         ++ [UpdateUserProfile (user_id u) (profileData (profile r) updates) profilePicture;
             GetUserSubjectGroup (user_id u)])%list
   /\ user (st (updateProfile svc r updates profilePicture w).2) = user (st w)
   /\ session (st (updateProfile svc r updates profilePicture w).2) = session (st w)
   /\ loading (st (updateProfile svc r updates profilePicture w).2) = loading (st w)
   /\ progressStats (st (updateProfile svc r updates profilePicture w).2)
      = progressStats (st w)
   /\ subjectProgress (st (updateProfile svc r updates profilePicture w).2)
      = subjectProgress (st w)
   /\ hasSubjectGroup (st (updateProfile svc r updates profilePicture w).2)
      = match SubjectGroupService_getUserSubjectGroup svc (user_id u) with
        | Returned g => hasGroup g
        | Threw _ => false
        end)
  /\ (isNewUser r = true ->
      ProgressService_initializeUserProgress svc (user_id u) = Returned tt ->
      ProgressService_initializeSubjects svc (user_id u) = Returned tt ->
      (updateProfile svc r updates profilePicture w).1 = Returned tt
      /\ profile (st (updateProfile svc r updates profilePicture w).2) = updated
      /\ connectionStatus (st (updateProfile svc r updates profilePicture w).2) = connected
      /\ error (st (updateProfile svc r updates profilePicture w).2) = None
      /\ isNewUser (st (updateProfile svc r updates profilePicture w).2) = isNewUser (st w)
      /\ localStorage (updateProfile svc r updates profilePicture w).2 = localStorage w
      /\ backend (updateProfile svc r updates profilePicture w).2
         = (backend w
            ++ [UpdateUserProfile (user_id u) (profileData (profile r) updates)
                  profilePicture;
                InitializeUserProgress (user_id u); InitializeSubjects (user_id u);
                GetUserProgress (user_id u)]
            ++ match ProgressService_getUserProgress svc (user_id u) with
               | Returned _ => [GetSubjectProgress (user_id u)]
               | Threw _ => []
               end
            ++ [GetUserSubjectGroup (user_id u)])%list
      /\ user (st (updateProfile svc r updates profilePicture w).2) = user (st w)
      /\ session (st (updateProfile svc r updates profilePicture w).2) = session (st w)
      /\ loading (st (updateProfile svc r updates profilePicture w).2) = loading (st w)
      /\ hasSubjectGroup (st (updateProfile svc r updates profilePicture w).2)
         = match SubjectGroupService_getUserSubjectGroup svc (user_id u) with
           | Returned g => hasGroup g
           | Threw _ => false
           end).
Proof.
  intros Hu Hok. unfold updateProfile. rewrite Hu.
  unfold loadUserProgress, checkSubjectGroupSelection.
  cbv [mbind M_bind bind try_catch await issue settle setError modify].
  rewrite Hok. open_world w. split.
  - intros Hold. rewrite Hold. unfold_m.
    repeat step_m; rewrite <- ?app_assoc; repeat split.
  - intros Hnew Hinit Hsubjects. rewrite Hnew. unfold_m. rewrite Hinit, Hsubjects.
    repeat step_m; rewrite <- ?app_assoc; repeat split.
Qed.

Lemma updateProfile_success_witness :
  user new_user_state = Some ann
  /\ profile (st (updateProfile svc_ok new_user_state board_update None new_user_world).2)
     = Some ann_profile
  /\ isNewUser (st (updateProfile svc_ok new_user_state board_update None
                      new_user_world).2) = true.
Proof.
  split; [reflexivity|].
  destruct (updateProfile_success svc_ok new_user_state ann board_update None
              new_user_world (Some ann_profile) eq_refl eq_refl) as [_ Hnew].
  destruct (Hnew eq_refl eq_refl eq_refl) as (_ & Hprofile & _ & _ & Hflag & _).
  split; [exact Hprofile | exact Hflag].
Defined.
